(** * VisionParse: export/reconciliation pipeline and archive assembly

    A shallow embedding of [app.py]: the annotated-text pass
    ([generate_txt]), the CSV table export ([export_tables]), the per-file
    body of the conversion loop and the ZIP packaging of [main].

    Conventions.
    - Python [str] values are [string]s holding the UTF-8 encoding.
      [strip] removes every character Python counts as white space;
      [lower] acts on the ASCII letters, which decides every comparison
      the program makes with a lower-cased suffix (no other character
      lower-cases to a letter of [xlsx], [pdf], [.md], [.html], [.json],
      [.txt], [.csv], [.png], [.jpg] or [.jpeg]).
    - The working area [artifacts/] is a finite map from directory names to
      directories, a directory a finite map from entry names to contents.
      An entry is a regular file or a sub-directory: the REFERENCED
      renderers of docling make one for the picture files, and the
      packaging loop archives whatever [iterdir] lists, directories too.
    - Docling (conversion, markdown/html/json rendering), pandas (data-frame
      rendering, [read_excel]) are external: they are parameters of the
      model.  For the calls that fail on bad input (conversion, workbook
      reading, table export, the multimodal export) the outcomes "returns
      a value" and "raises" are both kept; the renderers of a document or
      a frame that is already there are taken to return.
    - Code that may raise lives in a state-and-exception monad; writes made
      before an exception stay in the working area, as on disk.
    - Uploaded file names are plain names, without a path separator.  The
      directory [base = out_root / Path(f.name).stem] of a job is kept
      under the stem.  This is what the program does for a stem that is a
      proper directory name (the [ordinary] names): [base] is then the
      sub-directory of [artifacts/] with that name and [base.name] is the
      stem.  For the stems [.] and [..], those of names like [..pdf] and
      [...pdf], [pathlib] resolves [base] to [artifacts/] itself or to
      its parent, where the program then writes; the working area of the
      model holds no such place, and the statements on where the files
      of a job are and how they are archived carry the side condition
      [ordinary].
    - The entries of [artifacts/] itself are directories (the packaging
      loop skips anything else). *)

From stdpp Require Import gmap strings pretty list sorting.
From Stdlib Require Import ZArith Ascii.

Local Open Scope Z_scope.
Local Open Scope nat_scope.

(** ** Python string and path operations used by the program *)

Module Py.

(** [str.strip()] removes the characters [c] with [c.isspace()]: U+0009
    to U+000D, U+001C to U+0020, U+0085, U+00A0, U+1680, U+2000 to
    U+200A, U+2028, U+2029, U+202F, U+205F and U+3000.  In UTF-8 these
    take one, two or three bytes. *)
Definition space1 (a : ascii) : bool :=
  let n := nat_of_ascii a in
  ((9 <=? n) && (n <=? 13)) || ((28 <=? n) && (n <=? 32)).

(** U+0085 is [C2 85], U+00A0 is [C2 A0]. *)
Definition space2 (a b : ascii) : bool :=
  (nat_of_ascii a =? 194) &&
  ((nat_of_ascii b =? 133) || (nat_of_ascii b =? 160)).

(** U+1680 is [E1 9A 80]; U+2000 to U+200A are [E2 80 80] to [E2 80 8A];
    U+2028, U+2029 and U+202F are [E2 80 A8], [E2 80 A9] and [E2 80 AF];
    U+205F is [E2 81 9F]; U+3000 is [E3 80 80]. *)
Definition space3 (a b c : ascii) : bool :=
  let x := nat_of_ascii a in
  let y := nat_of_ascii b in
  let z := nat_of_ascii c in
  ((x =? 225) && (y =? 154) && (z =? 128)) ||
  ((x =? 226) && (y =? 128) &&
   (((128 <=? z) && (z <=? 138)) || (z =? 168) || (z =? 169) || (z =? 175))) ||
  ((x =? 226) && (y =? 129) && (z =? 159)) ||
  ((x =? 227) && (y =? 128) && (z =? 128)).

(** Removal of the leading characters that [p1], [p2] or [p3] recognise
    by their one, two or three bytes. *)
Fixpoint lstrip_by (p1 : ascii -> bool) (p2 : ascii -> ascii -> bool)
    (p3 : ascii -> ascii -> ascii -> bool) (s : string) : string :=
  match s with
  | EmptyString => EmptyString
  | String a s1 =>
      if p1 a then lstrip_by p1 p2 p3 s1 else
      match s1 with
      | EmptyString => s
      | String b s2 =>
          if p2 a b then lstrip_by p1 p2 p3 s2 else
          match s2 with
          | EmptyString => s
          | String c s3 => if p3 a b c then lstrip_by p1 p2 p3 s3 else s
          end
      end
  end.

Definition lstrip (s : string) : string := lstrip_by space1 space2 space3 s.

(** The same from the right: the bytes of a character are met in reverse
    order. *)
Definition rstrip (s : string) : string :=
  String.rev
    (lstrip_by space1 (fun a b => space2 b a) (fun a b c => space3 c b a)
       (String.rev s)).

(** [s.strip()] *)
Definition strip (s : string) : string := rstrip (lstrip s).

(** Truth value of a string: [if txt] *)
Definition truthy (s : string) : bool :=
  match s with EmptyString => false | String _ _ => true end.

Definition lower_char (c : ascii) : ascii :=
  let n := nat_of_ascii c in
  if (65 <=? n) && (n <=? 90) then ascii_of_nat (n + 32) else c.

(** [s.lower()] *)
Fixpoint lower (s : string) : string :=
  match s with
  | EmptyString => EmptyString
  | String c s' => String (lower_char c) (lower s')
  end.

Fixpoint repeat_nat (s : string) (n : nat) : string :=
  match n with
  | O => EmptyString
  | S n' => s +:+ repeat_nat s n'
  end.

(** [s * k] for a Python int [k]; empty when [k <= 0]. *)
Definition repeat (s : string) (k : Z) : string := repeat_nat s (Z.to_nat k).

(** [sep.join(parts)] *)
Fixpoint join (sep : string) (parts : list string) : string :=
  match parts with
  | [] => EmptyString
  | [p] => p
  | p :: rest => p +:+ sep +:+ join sep rest
  end.

(** [s.rfind(c)], [None] standing for [-1]. *)
Fixpoint rfind (c : ascii) (s : string) : option nat :=
  match s with
  | EmptyString => None
  | String a s' =>
      match rfind c s' with
      | Some i => Some (S i)
      | None => if decide (a = c) then Some 0 else None
      end
  end.

(** [s[:i]] and [s[i:]] *)
Fixpoint take (i : nat) (s : string) : string :=
  match i, s with
  | S i', String a s' => String a (take i' s')
  | _, _ => EmptyString
  end.

Fixpoint drop (i : nat) (s : string) : string :=
  match i, s with
  | S i', String _ s' => drop i' s'
  | _, _ => s
  end.

(** [s.endswith(t)] *)
Definition endswith (s t : string) : bool :=
  bool_decide (drop (String.length s - String.length t) s = t).

(** [Path(s).name] for a string [s] without a separator: a path is the
    sequence of its components and [.] is none, so [Path(".")] has the
    empty name; any other such string is its own name. *)
Definition path_name (s : string) : string :=
  if decide (s = ".") then EmptyString else s.

(** Position of the dot that starts the suffix of a file name, as
    [pathlib] computes it: [i = name.rfind('.')], kept when
    [0 < i < len(name) - 1]. *)
Definition suffix_pos (name : string) : option nat :=
  match rfind "." name with
  | Some i => if (0 <? i) && (i <? String.length name - 1) then Some i else None
  | None => None
  end.

(** [Path(s).suffix] *)
Definition suffix (s : string) : string :=
  let name := path_name s in
  match suffix_pos name with
  | Some i => drop i name
  | None => EmptyString
  end.

(** [Path(s).stem] *)
Definition stem (s : string) : string :=
  let name := path_name s in
  match suffix_pos name with
  | Some i => take i name
  | None => name
  end.

(** [s.lstrip(".")] *)
Fixpoint lstrip_dot (s : string) : string :=
  match s with
  | String "." s' => lstrip_dot s'
  | _ => s
  end.

(** [f"{n}"] for a non-negative int *)
Definition str_of_nat (n : nat) : string := pretty n.

End Py.

(** ** Data model *)

(** Exceptions that can leave a call of an external collaborator. *)
Inductive exn :=
| TableExportError      (* [export_to_dataframe] raised *)
| ConversionError       (* [convert_all] / [next(gen)] raised *)
| ExcelReadError        (* [pd.read_excel] raised *)
| MultimodalError.      (* [generate_multimodal_pages] / [to_parquet] raised *)

Inductive result (A : Type) :=
| Ok (a : A)
| Raise (e : exn).
Arguments Ok {A} a.
Arguments Raise {A} e.

(** A pandas data frame, as rows of cells. *)
Definition dataframe := list (list string).

(** A docling table: all the program uses is [export_to_dataframe()],
    which returns a frame or raises. *)
Record table := { export_to_dataframe : result dataframe }.

(** Items yielded by [iterate_items()].  [Heading] stands for the items
    that carry an integer [level] and a [text], [TextBlock] for those with
    a [text] only; a [TableItem] and a [PictureItem] have neither. *)
Inductive element :=
| Heading (lvl : Z) (txt : string)
| TextBlock (txt : string)
| TableItem (tbl : table)
| PictureItem.

(** [getattr(el, "level", None)] *)
Definition level (el : element) : option Z :=
  match el with
  | Heading l _ => Some l
  | _ => None
  end.

(** [getattr(el, "text", '')] *)
Definition text (el : element) : string :=
  match el with
  | Heading _ t | TextBlock t => t
  | _ => EmptyString
  end.

(** [res.document]: the item stream, and the [tables] attribute when the
    object has one. *)
Record document := {
  iterate_items : list element;
  tables : option (list table)
}.

(** Docling's [ConversionStatus]; the program never reads it. *)
Inductive conversion_status := SUCCESS | PARTIAL_SUCCESS | FAILURE | SKIPPED.

(** [ConversionResult] *)
Record conv_result := {
  status : conversion_status;
  doc : document
}.

(** An uploaded file: [f.name] and [f.read()]. *)
Record upload := {
  name : string;
  read : string
}.

(** The sidebar toggles and limits read by [main]. *)
Record settings := {
  use_ocr : bool;
  extract_tables : bool;
  extract_images : bool;
  export_mm : bool;
  image_scale : Z;        (* slider position, in halves *)
  max_pages : Z
}.

(** The external collaborators. *)
Class Externals := {
  (* pandas *)
  to_string : dataframe -> string;      (* [df.to_string(index=False)] *)
  to_csv : dataframe -> string;         (* [df.to_csv(index=False)] *)
  to_markdown : dataframe -> string;    (* [df.to_markdown(index=False)] *)
  to_html : dataframe -> string;        (* [df.to_html(index=False)] *)
  (* [pd.read_excel(bytes, sheet_name=None)]: a dict, keys in sheet order *)
  read_excel : string -> result (list (string * dataframe));
  (* docling: [next(converter.convert_all([src], ..., raises_on_error=False))]
     for the converter built from the settings *)
  convert_all : settings -> upload -> result conv_result;
  (* docling-core: the text [save_as_markdown] and [save_as_html] write *)
  save_as_markdown : document -> string;
  save_as_html : document -> string;
  (* with [image_mode=ImageRefMode.REFERENCED] these two calls first make,
     next to the output file [<n>.md] or [<n>.html], the directory that
     takes the picture files the text refers to; [referenced_dir n] is its
     name (docling-core derives it from the output file name without its
     suffix, [<n>_artifacts]); it is never a [*.png] *)
  referenced_dir : string -> string;
  referenced_dir_not_png :
    forall n, Py.endswith (referenced_dir n) ".png" = false;
  export_to_json : document -> string;  (* [json.dumps(doc.export_to_dict())] *)
  (* the parquet bytes built from [generate_multimodal_pages] *)
  multimodal_parquet : list conv_result -> result string
}.

(** ** The annotated-text pass of [generate_txt] *)

Definition nl : string := String (ascii_of_nat 10) EmptyString.

(** The locals [lines, ti, pi] of [generate_txt]. *)
Record txt_state := {
  lines : list string;
  ti : nat;
  pi : nat
}.

Definition txt_init : txt_state := {| lines := []; ti := 0; pi := 0 |}.

Definition table_label (i : nat) : string := "[Table " +:+ Py.str_of_nat i +:+ "]".
Definition image_label (fn : string) : string := "[Image: " +:+ fn +:+ "]".

Section Reconciler.
Context `{Externals}.

(** One iteration of [for el, _ in res.document.iterate_items()].
    [base_name] is [base.name], [imgs] the names of
    [sorted(base.glob("*.png"))]. *)
Definition txt_step (base_name : string) (imgs : list string)
    (st : txt_state) (el : element) : result txt_state :=
  let lvl := level el in
  let txt := Py.strip (text el) in
  let otherwise :=
    match el with
    | TableItem tbl =>
        let ti' := S (ti st) in
        match export_to_dataframe tbl with
        | Raise e => Raise e
        | Ok df =>
            Ok {| lines := lines st ++ [table_label ti'] ++ [to_string df];
                  ti := ti'; pi := pi st |}
        end
    | PictureItem =>
        let fn :=
          match imgs !! pi st with
          | Some img => img
          | None => base_name +:+ "_img_" +:+ Py.str_of_nat (pi st + 1) +:+ ".png"
          end in
        Ok {| lines := lines st ++ [image_label fn];
              ti := ti st; pi := S (pi st) |}
    | _ =>
        if Py.truthy txt
        then Ok {| lines := lines st ++ [txt]; ti := ti st; pi := pi st |}
        else Ok st
    end in
  match lvl with
  | Some l =>
      if Py.truthy txt
      then Ok {| lines := lines st ++ [Py.repeat "#" l +:+ " " +:+ txt];
                 ti := ti st; pi := pi st |}
      else otherwise
  | None => otherwise
  end.

(** The whole loop; an exception leaves it at once. *)
Fixpoint txt_loop (base_name : string) (imgs : list string)
    (st : txt_state) (els : list element) : result txt_state :=
  match els with
  | [] => Ok st
  | el :: rest =>
      match txt_step base_name imgs st el with
      | Ok st' => txt_loop base_name imgs st' rest
      | Raise e => Raise e
      end
  end.

(** The text handed to [write_text]: ["\n\n".join(lines)]. *)
Definition annotated_text (base_name : string) (imgs : list string)
    (els : list element) : result string :=
  match txt_loop base_name imgs txt_init els with
  | Ok st => Ok (Py.join (nl +:+ nl) (lines st))
  | Raise e => Raise e
  end.

End Reconciler.

(** ** The working area and the effects of [main] *)

(** What the page shows: [status.text], [progress.progress],
    [st.success] and [st.download_button].  The program has no call of
    [st.error] or [st.warning]. *)
Inductive ui_event :=
| StatusProcessing (fname : string) (idx total : nat)
| StatusFinalizing
| Progress (idx total : nat)
| SuccessAllDone
| DownloadParquet (data : string)
| DownloadZip (members : list (string * string)).

(** The last character of a string. *)
Fixpoint last_char (s : string) : option ascii :=
  match s with
  | EmptyString => None
  | String a EmptyString => Some a
  | String _ s' => last_char s'
  end.

(** A directory is a finite map from entry names to contents.  A regular
    file is kept under its name.  A sub-directory [n] is kept under
    [n/], which is no file name, with an empty content: the program
    never looks inside a sub-directory, and this is also how [zf.write]
    stores one. *)
Definition subdir (n : string) : string := n +:+ "/".

Definition is_subdir (key : string) : Prop := last_char key = Some "/"%char.
Global Instance is_subdir_dec key : Decision (is_subdir key).
Proof. unfold is_subdir. apply _. Defined.

(** [p.name] for the entry kept under [key]. *)
Definition entry_name (key : string) : string :=
  if decide (is_subdir key) then Py.take (String.length key - 1) key else key.

(** [fs] is the content of [artifacts/]: directory name to directory. *)
Record world := {
  fs : gmap string (gmap string string);
  ui : list ui_event
}.

Definition M (A : Type) : Type := world -> world * result A.

Global Instance M_ret : MRet M := fun A a w => (w, Ok a).
Global Instance M_bind : MBind M := fun A B k m w =>
  match m w with
  | (w', Ok a) => k a w'
  | (w', Raise e) => (w', Raise e)
  end.

(** An external call that returns or raises. *)
Definition lift {A} (r : result A) : M A := fun w => (w, r).

Definition emit (e : ui_event) : M unit := fun w =>
  ({| fs := fs w; ui := ui w ++ [e] |}, Ok tt).

(** [base.mkdir(exist_ok=True)] *)
Definition mkdir (base : string) : M unit := fun w =>
  ({| fs := match fs w !! base with
            | Some _ => fs w
            | None => <[base := ∅]> (fs w)
            end;
      ui := ui w |}, Ok tt).

(** [(base / fname).write_text(content)]; the directory is there, [main]
    makes it before any write. *)
Definition write_text (base fname content : string) : M unit := fun w =>
  ({| fs := <[base := <[fname := content]> (default ∅ (fs w !! base))]> (fs w);
      ui := ui w |}, Ok tt).

(** [os.makedirs(base / n, exist_ok=True)], as the REFERENCED renderers
    call it. *)
Definition makedirs (base n : string) : M unit :=
  write_text base (subdir n) EmptyString.

(** The entries matched by the pattern [*.png]: files and
    sub-directories alike, by their names. *)
Definition is_png (key : string) : Prop :=
  Py.endswith (entry_name key) ".png" = true.
Global Instance is_png_dec key : Decision (is_png key).
Proof. unfold is_png. apply _. Defined.

(** The names of [sorted(base.glob("*.png"))]. *)
Definition sorted_pngs (d : gmap string string) : list string :=
  merge_sort String.le (entry_name <$> filter is_png (elements (dom d))).

Definition glob_png (base : string) : M (list string) := fun w =>
  (w, Ok (sorted_pngs (default ∅ (fs w !! base)))).

Section Pipeline.
Context `{Externals}.

(** [for i, tbl in enumerate(doc.tables, start=1)] *)
Fixpoint export_tables_loop (base : string) (i : nat) (tbls : list table)
    (paths : list string) : M (list string) :=
  match tbls with
  | [] => mret paths
  | tbl :: rest =>
      df ← lift (export_to_dataframe tbl);
      let p := base +:+ "_table_" +:+ Py.str_of_nat i +:+ ".csv" in
      write_text base p (to_csv df);;
      export_tables_loop base (S i) rest (paths ++ [p])
  end.

Definition export_tables (d : document) (base : string)
    (extract_tables : bool) : M (list string) :=
  match extract_tables, tables d with
  | true, Some tbls => export_tables_loop base 1 tbls []
  | _, _ => mret []
  end.

Definition generate_txt (res : conv_result) (base : string) : M string :=
  imgs ← glob_png base;
  txt ← lift (annotated_text base imgs (iterate_items (doc res)));
  let txt_file := base +:+ ".txt" in
  write_text base txt_file txt;;
  mret txt_file.

(** [for sh, df in sheets.items()] *)
Fixpoint write_sheets (base : string) (sheets : list (string * dataframe))
    : M unit :=
  match sheets with
  | [] => mret tt
  | (sh, df) :: rest =>
      let pfx := base +:+ "_" +:+ sh in
      write_text base (pfx +:+ ".csv") (to_csv df);;
      write_text base (pfx +:+ ".md") (to_markdown df);;
      write_text base (pfx +:+ ".html") (to_html df);;
      write_text base (pfx +:+ ".txt") (to_string df);;
      write_sheets base rest
  end.

(** [res.document.save_as_markdown(md_p, image_mode=REFERENCED)] and
    [save_as_html]: the directory for the picture files is made, then
    the text is written to [fname]. *)
Definition save_referenced (base fname content : string) : M unit :=
  makedirs base (referenced_dir base);;
  write_text base fname content.

(** The export stage of one converted document. *)
Definition export_outputs (cfg : settings) (res : conv_result)
    (base : string) : M unit :=
  save_referenced base (base +:+ ".md") (save_as_markdown (doc res));;
  save_referenced base (base +:+ ".html") (save_as_html (doc res));;
  write_text base (base +:+ ".json") (export_to_json (doc res));;
  generate_txt res base;;
  export_tables (doc res) base (extract_tables cfg);;
  mret tt.

(** The body of [for idx, f in enumerate(st.session_state.files, start=1)];
    it returns the list [results] as the iteration leaves it.  [base]
    stands for the path [out_root / Path(f.name).stem] and for
    [base.name]: the sub-directory named by the stem, for an ordinary
    name. *)
Definition process_file (cfg : settings) (total idx : nat) (f : upload)
    (results : list conv_result) : M (list conv_result) :=
  emit (StatusProcessing (name f) idx total);;
  let ext := Py.lstrip_dot (Py.lower (Py.suffix (name f))) in
  let base := Py.stem (name f) in
  mkdir base;;
  if decide (ext = "xlsx") then
    (if extract_tables cfg then
       sheets ← lift (read_excel (read f));
       write_sheets base sheets
     else mret tt);;
    emit (Progress idx total);;
    mret results
  else
    res ← (if decide (ext = "pdf")
           then lift (convert_all cfg f)     (* through a temporary file *)
           else lift (convert_all cfg f));   (* in memory *)
    export_outputs cfg res base;;
    emit (Progress idx total);;
    mret (results ++ [res]).

Fixpoint convert_loop (cfg : settings) (total idx : nat) (files : list upload)
    (results : list conv_result) : M (list conv_result) :=
  match files with
  | [] => mret results
  | f :: rest =>
      results' ← process_file cfg total idx f results;
      convert_loop cfg total (S idx) rest results'
  end.

(** The path [arc] computed for the entry named [fname] of the directory
    [pref]; [e] is [p.suffix.lower()]. *)
Definition arc_path (pref fname : string) : string :=
  let e := Py.lower (Py.suffix fname) in
  if decide (e = ".md") then pref +:+ "/md/" +:+ fname
  else if decide (e = ".html") then pref +:+ "/html/" +:+ fname
  else if decide (e = ".json") then pref +:+ "/json/" +:+ fname
  else if decide (e = ".txt") then pref +:+ "/txt/" +:+ fname
  else if decide (e = ".csv") then pref +:+ "/assets/tables/" +:+ fname
  else if bool_decide (e ∈ [".png"; ".jpg"; ".jpeg"])
       then pref +:+ "/assets/images/" +:+ fname
  else pref +:+ "/" +:+ fname.

(** The name of the archive member [zf.write(p, arc)] makes for the
    entry kept under [key]: [arc] for a file; for a directory [zf.write]
    stores a member without data under [arc] followed by [/]. *)
Definition arcname (pref key : string) : string :=
  let arc := arc_path pref (entry_name key) in
  if decide (is_subdir key) then arc +:+ "/" else arc.

(** [for p in d.iterdir()], for a listing of the directory [pref]. *)
Definition zip_dir (pref : string) (entries : list (string * string))
    : list (string * string) :=
  (fun p => (arcname pref p.1, p.2)) <$> entries.

(** [for d in out_root.iterdir()], for a listing of the working area in
    the order the operating system hands it out. *)
Definition zip_listing (listing : list (string * list (string * string)))
    : list (string * string) :=
  d ← listing; zip_dir d.1 d.2.

(** The members written into the archive for the working area [a]. *)
Definition build_zip (a : gmap string (gmap string string))
    : list (string * string) :=
  zip_listing ((fun d => (d.1, map_to_list d.2)) <$> map_to_list a).

(** The handler of the "Convert All" button. *)
Definition main (cfg : settings) (files : list upload)
    : M (list (string * string)) :=
  results ← convert_loop cfg (length files) 1 files [];
  emit StatusFinalizing;;
  (if export_mm cfg
   then data ← lift (multimodal_parquet results); emit (DownloadParquet data)
   else mret tt);;
  zip ← (fun w => (w, Ok (build_zip (fs w))));
  emit SuccessAllDone;;
  emit (DownloadZip zip);;
  mret zip.

End Pipeline.

(** Lookup in an association list, first match. *)
Fixpoint assoc {A} (k : string) (l : list (string * A)) : option A :=
  match l with
  | [] => None
  | (k', v) :: rest => if decide (k = k') then Some v else assoc k rest
  end.

(** ** A concrete set of collaborators, for running the model *)

Module Demo.

(** Cells joined by a space, rows by a newline. *)
Definition grid (df : dataframe) : string :=
  Py.join nl (Py.join " " <$> df).

Definition commas (df : dataframe) : string :=
  Py.join nl (Py.join "," <$> df).

Definition render (tag : string) (d : document) : string :=
  tag +:+ ":" +:+ Py.str_of_nat (length (iterate_items d)).

(** The directory docling-core makes for the pictures of [<n>.md] and
    [<n>.html] is no [*.png]. *)
Lemma artifacts_not_png (n : string) :
  Py.endswith (n +:+ "_artifacts") ".png" = false.
Proof.
  unfold Py.endswith. apply bool_decide_eq_false_2.
  assert (Hlen : String.length (n +:+ "_artifacts") = String.length n + 10).
  { induction n as [|a n IH]; [reflexivity|].
    change (String a n +:+ "_artifacts") with (String a (n +:+ "_artifacts")).
    simpl. by rewrite IH. }
  rewrite Hlen.
  replace (String.length n + 10 - String.length ".png")
    with (String.length n + 6) by (simpl; lia).
  assert (Hdrop : Py.drop (String.length n + 6) (n +:+ "_artifacts") = "acts").
  { clear Hlen. induction n as [|a n IH]; [reflexivity|].
    change (String a n +:+ "_artifacts") with (String a (n +:+ "_artifacts")).
    simpl. exact IH. }
  rewrite Hdrop. discriminate.
Qed.

(** The engine answers by file name; an unknown file makes it raise. *)
Definition externals (docs : list (string * result conv_result))
    (books : list (string * list (string * dataframe))) : Externals :=
  {| to_string := grid;
     to_csv := commas;
     to_markdown := fun df => "md:" +:+ commas df;
     to_html := fun df => "html:" +:+ commas df;
     read_excel := fun bytes =>
       match assoc bytes books with
       | Some sheets => Ok sheets
       | None => Raise ExcelReadError
       end;
     convert_all := fun _ f =>
       match assoc (name f) docs with
       | Some r => r
       | None => Raise ConversionError
       end;
     save_as_markdown := render "markdown";
     save_as_html := render "html";
     referenced_dir := fun n => n +:+ "_artifacts";
     referenced_dir_not_png := artifacts_not_png;
     export_to_json := render "json";
     multimodal_parquet := fun _ => Ok "parquet" |}.

Definition T1 : table :=
  {| export_to_dataframe := Ok [["a"; "b"]; ["1"; "2"]] |}.

Definition broken : table :=
  {| export_to_dataframe := Raise TableExportError |}.

Definition worked_example : list element :=
  [Heading 1 "Intro"; TextBlock "hello"; TableItem T1; PictureItem;
   TextBlock "bye"].

(** The text with a single newline between the label and the grid. *)
Definition single_newline_text : string :=
  "# Intro" +:+ nl +:+ nl +:+ "hello" +:+ nl +:+ nl +:+
  "[Table 1]" +:+ nl +:+ "a b" +:+ nl +:+ "1 2" +:+
  nl +:+ nl +:+ "[Image: doc_img_1.png]" +:+ nl +:+ nl +:+ "bye".

Definition cfg (tables_on : bool) : settings :=
  {| use_ocr := true; extract_tables := tables_on; extract_images := false;
     export_mm := false; image_scale := 4; max_pages := 100 |}.

Definition empty_world : world := {| fs := ∅; ui := [] |}.

(** A conversion that succeeded. *)
Definition good : conv_result :=
  {| status := SUCCESS;
     doc := {| iterate_items := worked_example; tables := Some [T1] |} |}.

(** What the engine hands back for unreadable bytes when asked not to
    raise: a result of status [FAILURE] around an empty document. *)
Definition failed : conv_result :=
  {| status := FAILURE;
     doc := {| iterate_items := []; tables := Some [] |} |}.

(** A document with a table whose export raises, between two
    paragraphs. *)
Definition with_broken_table : conv_result :=
  {| status := SUCCESS;
     doc := {| iterate_items :=
                 [TextBlock "before"; TableItem broken; TextBlock "after"];
               tables := Some [broken] |} |}.

Definition T2 : table :=
  {| export_to_dataframe := Ok [["c"; "d"]; ["3"; "4"]] |}.

(** A document whose [tables] attribute lists its two tables in the
    other order than the item stream. *)
Definition tables_swapped : conv_result :=
  {| status := SUCCESS;
     doc := {| iterate_items := [TableItem T1; TableItem T2];
               tables := Some [T2; T1] |} |}.

Definition short : conv_result :=
  {| status := SUCCESS;
     doc := {| iterate_items := [TextBlock "one"]; tables := Some [] |} |}.

Definition file (fname : string) : upload := {| name := fname; read := fname |}.

Definition two_sheets : list (string * dataframe) :=
  [("Q1", [["a"; "b"]; ["1"; "2"]]); ("Q2", [["c"]; ["3"]])].

(** One unreadable file and two valid ones. *)
Definition mixed_batch : list upload :=
  [file "bad.pdf"; file "ok1.docx"; file "ok2.docx"].

(** The engine returns a [FAILURE] result for [bad.pdf]. *)
Definition returning : Externals :=
  externals [("bad.pdf", Ok failed); ("ok1.docx", Ok good);
             ("ok2.docx", Ok good)] [].

(** The engine raises on [bad.pdf]. *)
Definition raising : Externals :=
  externals [("bad.pdf", Raise ConversionError); ("ok1.docx", Ok good);
             ("ok2.docx", Ok good)] [].

(** Two inputs with the same stem. *)
Definition same_stem_batch : list upload :=
  [file "report.pdf"; file "report.docx"].

Definition same_stem_engine : Externals :=
  externals [("report.pdf", Ok short); ("report.docx", Ok good)] [].

End Demo.

(** ** Vocabulary of the statements *)

(** The tables of an item stream, in stream order. *)
Fixpoint stream_tables (els : list element) : list table :=
  match els with
  | [] => []
  | TableItem tbl :: rest => tbl :: stream_tables rest
  | _ :: rest => stream_tables rest
  end.

Fixpoint count_pictures (els : list element) : nat :=
  match els with
  | [] => 0
  | PictureItem :: rest => S (count_pictures rest)
  | _ :: rest => count_pictures rest
  end.

(** The export of every table of the stream returns a frame. *)
Definition exports_ok (el : element) : Prop :=
  match el with
  | TableItem tbl => exists df, export_to_dataframe tbl = Ok df
  | _ => True
  end.

(** A name without a path separator. *)
Definition no_slash (s : string) : Prop := Py.rfind "/" s = None.

(** A stem [s] for which [out_root / s] is the sub-directory [s] of
    [artifacts/], with [s] as its name.  ([pathlib] drops a component
    [.], and [..] is the directory above: for the stems [.] and [..]
    [base] is [artifacts/] itself or its parent.) *)
Definition proper_dir (s : string) : Prop :=
  s <> EmptyString /\ s <> "." /\ s <> ".." /\ no_slash s.

(** An upload name that is a single path component and whose stem is a
    proper directory name: every non-empty name but [.], [..],
    [..<ext>] and [...<ext>].  On these names the directory [base] of a
    job is the directory the model keeps under the stem. *)
Definition ordinary (fname : string) : Prop :=
  no_slash fname /\ proper_dir (Py.stem fname).

Global Instance ordinary_dec fname : Decision (ordinary fname).
Proof. unfold ordinary, proper_dir, no_slash. apply _. Defined.

(** The name the [n]-th picture ([n] from 1) is announced under. *)
Definition nth_image_name (base_name : string) (imgs : list string) (n : nat)
    : string :=
  if decide (n <= length imgs)
  then default EmptyString (imgs !! (n - 1))
  else base_name +:+ "_img_" +:+ Py.str_of_nat n +:+ ".png".

Definition csv_name (base : string) (i : nat) : string :=
  base +:+ "_table_" +:+ Py.str_of_nat i +:+ ".csv".

(** The directory [base] of a working area. *)
Definition dir_of (w : world) (base : string) : gmap string string :=
  default ∅ (fs w !! base).

(** The world [w] with the directory [base] replaced by [d]. *)
Definition set_dir (w : world) (base : string) (d : gmap string string) : world :=
  {| fs := <[base := d]> (fs w); ui := ui w |}.

(** A sequence of writes into one directory, the first of the list first. *)
Definition write_all (ws : list (string * string)) (d : gmap string string)
    : gmap string string :=
  foldl (fun d p => <[p.1 := p.2]> d) d ws.

(** [ext] of [process_file]. *)
Definition ext_of (fname : string) : string :=
  Py.lstrip_dot (Py.lower (Py.suffix fname)).

Section ArtifactVocabulary.
Context `{Externals}.

(** The CSV files of the frames [dfs], numbered from [i]. *)
Fixpoint csv_writes (base : string) (i : nat) (dfs : list dataframe)
    : list (string * string) :=
  match dfs with
  | [] => []
  | df :: rest => (csv_name base i, to_csv df) :: csv_writes base (S i) rest
  end.

(** What the export stage leaves for a converted document besides the
    CSV files: the directory of the REFERENCED renderers and the four
    renderings, [txt] being the annotated text. *)
Definition doc_writes (base : string) (res : conv_result) (txt : string)
    : list (string * string) :=
  [(subdir (referenced_dir base), EmptyString);
   (base +:+ ".md", save_as_markdown (doc res));
   (base +:+ ".html", save_as_html (doc res));
   (base +:+ ".json", export_to_json (doc res));
   (base +:+ ".txt", txt)].

(** The entries the export stage leaves for every converted document:
    the directory of the renderers and the four renderings. *)
Definition doc_entries (base : string) : list string :=
  [subdir (referenced_dir base); base +:+ ".md"; base +:+ ".html";
   base +:+ ".json"; base +:+ ".txt"].

(** The frames [export_tables] writes: those of [doc.tables] when
    [extract_tables] is set and every export returns, none when it is
    not set. *)
Definition tables_exported (cfg : settings) (d : document)
    (dfs : list dataframe) : Prop :=
  match extract_tables cfg, tables d with
  | true, Some tbls =>
      Forall2 (fun tbl df => export_to_dataframe tbl = Ok df) tbls dfs
  | _, _ => dfs = []
  end.

(** The four files written for the sheet [sh]. *)
Definition sheet_group (base sh : string) (df : dataframe)
    : list (string * string) :=
  let pfx := base +:+ "_" +:+ sh in
  [(pfx +:+ ".csv", to_csv df);
   (pfx +:+ ".md", to_markdown df);
   (pfx +:+ ".html", to_html df);
   (pfx +:+ ".txt", to_string df)].

(** Everything written for a workbook, sheet after sheet. *)
Definition sheet_writes (base : string) (sheets : list (string * dataframe))
    : list (string * string) :=
  sheets ≫= (fun p => sheet_group base p.1 p.2).

Definition table_ok (tbl : table) : Prop :=
  exists df, export_to_dataframe tbl = Ok df.

(** No call made for the file [f] raises: the workbook reads (when it is
    read at all), or the conversion returns a result, of any status,
    whose tables export. *)
Definition job_returns (cfg : settings) (f : upload) : Prop :=
  if decide (ext_of (name f) = "xlsx") then
    extract_tables cfg = true -> exists sheets, read_excel (read f) = Ok sheets
  else
    exists res,
      convert_all cfg f = Ok res /\
      Forall exports_ok (iterate_items (doc res)) /\
      (extract_tables cfg = true ->
       forall tbls, tables (doc res) = Some tbls -> Forall table_ok tbls).

End ArtifactVocabulary.

(** What the page shows while the loop runs: the same two events for
    every file. *)
Fixpoint progress_events (total idx : nat) (files : list upload)
    : list ui_event :=
  match files with
  | [] => []
  | f :: rest =>
      StatusProcessing (name f) idx total :: Progress idx total ::
      progress_events total (S idx) rest
  end.

(** The extensions of the four renderings of a converted document. *)
Definition doc_exts : list string := [".md"; ".html"; ".json"; ".txt"].

(** The directory names of a batch. *)
Definition stems (files : list upload) : list string :=
  (fun f => Py.stem (name f)) <$> files.

(** The artifact kinds and their place in the archive. *)
Inductive kind :=
| StructuredMarkup
| HtmlLikeMarkup
| MachineRecord
| AnnotatedText
| TabularCsv
| RasterImage
| Auxiliary.

(** The bucket of a kind, as the path segment put between the document
    stem and the file name. *)
Definition bucket (k : kind) : string :=
  match k with
  | StructuredMarkup => "md/"
  | HtmlLikeMarkup => "html/"
  | MachineRecord => "json/"
  | AnnotatedText => "txt/"
  | TabularCsv => "assets/tables/"
  | RasterImage => "assets/images/"
  | Auxiliary => EmptyString
  end.

(** The suffix table. *)
Definition suffix_table : list (string * kind) :=
  [(".md", StructuredMarkup); (".html", HtmlLikeMarkup);
   (".json", MachineRecord); (".txt", AnnotatedText); (".csv", TabularCsv);
   (".png", RasterImage); (".jpg", RasterImage); (".jpeg", RasterImage)].

(** The kind of a file, from its lower-cased suffix. *)
Definition kind_of_file (fname : string) : kind :=
  default Auxiliary (assoc (Py.lower (Py.suffix fname)) suffix_table).






(** An entry name as a directory listing gives it: a non-empty file name
    without a separator, or such a name followed by [/] for a
    sub-directory. *)
Definition entry_ok (key : string) : Prop :=
  (key <> EmptyString /\ no_slash key) \/
  (exists n, key = subdir n /\ n <> EmptyString /\ no_slash n).

(** A working area whose directories and entries have such names. *)
Definition plain_area (a : gmap string (gmap string string)) : Prop :=
  forall b d, a !! b = Some d ->
    no_slash b /\ forall key, is_Some (d !! key) -> entry_ok key.


(** The extensions of a sheet group. *)
Definition sheet_exts : list string := [".csv"; ".md"; ".html"; ".txt"].


(** A computation is local to the directory [base] when it leaves every
    other directory alone and when what it does to [base], and what it
    returns, depend on the working area through the content of [base]
    only. *)
Definition local_to (base : string) {A} (m : M A) : Prop :=
  (forall w b, b <> base -> dir_of (m w).1 b = dir_of w b) /\
  (forall w1 w2, dir_of w1 base = dir_of w2 base ->
     dir_of (m w1).1 base = dir_of (m w2).1 base /\ (m w1).2 = (m w2).2).

(** ** Vocabulary of the further properties *)

(** An item that carries a text which is empty once stripped. *)
Definition blank (el : element) : Prop :=
  match el with
  | Heading _ t | TextBlock t => Py.truthy (Py.strip t) = false
  | TableItem _ | PictureItem => False
  end.

Global Instance blank_dec el : Decision (blank el).
Proof. destruct el; simpl; apply _. Defined.

(** The number of entries an item adds to [lines]. *)
Definition emitted_lines (el : element) : nat :=
  match el with
  | TableItem _ => 2
  | PictureItem => 1
  | Heading _ t | TextBlock t => if Py.truthy (Py.strip t) then 1 else 0
  end.

(** What follows the last slash of a path. *)
Definition after_slash (s : string) : string :=
  match Py.rfind "/" s with
  | Some i => Py.drop (S i) s
  | None => s
  end.

(** The content a sequence of writes leaves under the name [k], if it
    writes [k] at all. *)
Fixpoint last_write (k : string) (ws : list (string * string)) : option string :=
  match ws with
  | [] => None
  | (n, c) :: rest =>
      match last_write k rest with
      | Some c' => Some c'
      | None => if decide (k = n) then Some c else None
      end
  end.

(** A computation is journaled in the directory [base] when, for each
    image list of that directory, there is one sequence of writes of files
    that are no [.png] and one outcome such that, run on any working area
    with that image list, the computation changes [base] by exactly these
    writes, leaves the other directories alone and ends with that
    outcome. *)
Definition journaled (base : string) {A} (m : M A) : Prop :=
  forall imgs, exists ws r,
    Forall (fun p => ~ is_png p.1) ws /\
    forall w, sorted_pngs (dir_of w base) = imgs ->
      dir_of (m w).1 base = write_all ws (dir_of w base) /\
      (forall b, b <> base -> dir_of (m w).1 b = dir_of w b) /\
      (m w).2 = r.

(** A computation that shows nothing on the page. *)
Definition silent {A} (m : M A) : Prop := forall w, ui (m w).1 = ui w.

(** The events of the conversion loop. *)
Definition is_loop_event (e : ui_event) : Prop :=
  match e with
  | StatusProcessing _ _ _ | Progress _ _ => True
  | _ => False
  end.

(** The bytes of U+00A0 (no-break space), U+2003 (em space) and U+200B
    (zero width space, which is no white space). *)
Definition nbsp : string :=
  String (ascii_of_nat 194) (String (ascii_of_nat 160) EmptyString).
Definition em_space : string :=
  String (ascii_of_nat 226) (String (ascii_of_nat 128)
    (String (ascii_of_nat 131) EmptyString)).
Definition zwsp : string :=
  String (ascii_of_nat 226) (String (ascii_of_nat 128)
    (String (ascii_of_nat 139) EmptyString)).

(** A relation between working areas that every step of the program
    keeps. *)
Definition respects (R : world -> world -> Prop) {A} (m : M A) : Prop :=
  forall w, R w (m w).1.

(** No file disappears. *)
Definition keeps_files (w w' : world) : Prop :=
  forall b fname, is_Some (dir_of w b !! fname) -> is_Some (dir_of w' b !! fname).


(** The collaborators [E] with another multimodal export. *)
Definition with_parquet (E : Externals)
    (p : list conv_result -> result string) : Externals :=
  {| to_string := @to_string E;
     to_csv := @to_csv E;
     to_markdown := @to_markdown E;
     to_html := @to_html E;
     read_excel := @read_excel E;
     convert_all := @convert_all E;
     save_as_markdown := @save_as_markdown E;
     save_as_html := @save_as_html E;
     referenced_dir := @referenced_dir E;
     referenced_dir_not_png := @referenced_dir_not_png E;
     export_to_json := @export_to_json E;
     multimodal_parquet := p |}.

(** ** The embedding on small inputs *)

Example suffix_keeps_case : Py.suffix "report.final.PDF" = ".PDF".
Proof. reflexivity. Qed.

Example suffix_of_dotfile : Py.suffix ".bashrc" = EmptyString.
Proof. reflexivity. Qed.

Example suffix_of_trailing_dot : Py.suffix "trailing." = EmptyString.
Proof. reflexivity. Qed.

Example stem_of_two_dots : Py.stem "report.final.PDF" = "report.final".
Proof. reflexivity. Qed.

Example ext_of_upper_case : ext_of "Book.XLSX" = "xlsx".
Proof. reflexivity. Qed.

Example strip_both_ends : Py.strip "  a b  " = "a b".
Proof. reflexivity. Qed.

(** [Path(".")] has no name; [..] is a name and its own stem. *)
Example stem_of_dot :
  Py.stem "." = EmptyString /\ Py.suffix "." = EmptyString /\
  Py.stem ".." = ".." /\ Py.stem "..pdf" = "." /\ Py.stem "...pdf" = "..".
Proof. repeat split. Qed.

Example strip_unicode_space :
  Py.strip (nbsp +:+ " a" +:+ nbsp +:+ "b" +:+ em_space +:+ nbsp)
  = "a" +:+ nbsp +:+ "b" /\
  Py.strip (nbsp +:+ em_space) = EmptyString /\
  Py.strip (zwsp +:+ " ") = zwsp.
Proof. repeat split. Qed.

(** A sub-directory is archived as a member of its own, and one named
    [*.png] is listed by [glob]. *)
Example arcname_of_subdir :
  arcname "doc" (subdir "doc_artifacts") = "doc/doc_artifacts/" /\
  arcname "doc" (subdir "old.png") = "doc/assets/images/old.png/" /\
  arcname "doc" "doc.md" = "doc/md/doc.md".
Proof. repeat split. Qed.

Example sorted_pngs_lists_directories :
  sorted_pngs (<[subdir "b.png" := EmptyString]>
                 (<["a.png" := "x"]> (<["c.txt" := "y"]> ∅)))
  = ["a.png"; "b.png"].
Proof. by vm_compute. Qed.

Example lstrip_dot_all : Py.lstrip_dot "..gz" = "gz".
Proof. reflexivity. Qed.

Example repeat_negative : Py.repeat "#" (-2) = EmptyString.
Proof. reflexivity. Qed.

Example table_label_12 : table_label 12 = "[Table 12]".
Proof. reflexivity. Qed.

Example arcname_image : arcname "doc" "Figure.JPG" = "doc/assets/images/Figure.JPG".
Proof. reflexivity. Qed.

Example arcname_other : arcname "doc" "notes.xml" = "doc/notes.xml".
Proof. reflexivity. Qed.

Example sorted_pngs_of_dir :
  sorted_pngs {["b.png" := "2"; "a.png" := "1"; "a.txt" := "t"; "B.png" := "3"]}
  = ["B.png"; "a.png"; "b.png"].
Proof. vm_compute. reflexivity. Qed.

Example heading_step :
  @txt_step (Demo.externals [] []) "doc" [] txt_init (Heading 2 " Scope ")
  = Ok {| lines := ["## Scope"]; ti := 0; pi := 0 |}.
Proof. reflexivity. Qed.

Example empty_heading_step :
  @txt_step (Demo.externals [] []) "doc" [] txt_init (Heading 2 "   ")
  = Ok txt_init.
Proof. reflexivity. Qed.

(** ** Facts about strings and file names *)

Section StringFacts.
Implicit Types (s t u e : string) (a c : ascii).

Lemma str_app_cons a s t : String a s +:+ t = String a (s +:+ t).
Proof. reflexivity. Qed.

Lemma str_app_nil_l t : EmptyString +:+ t = t.
Proof. reflexivity. Qed.

Lemma str_length_app s t :
  String.length (s +:+ t) = String.length s + String.length t.
Proof.
  induction s as [|a s IH]; [done|].
  rewrite str_app_cons. simpl. by rewrite IH.
Qed.

Lemma str_app_assoc s t u : (s +:+ t) +:+ u = s +:+ t +:+ u.
Proof.
  induction s as [|a s IH]; [done|].
  rewrite !str_app_cons. by rewrite IH.
Qed.

Lemma drop_app_length s t : Py.drop (String.length s) (s +:+ t) = t.
Proof.
  induction s as [|a s IH]; [by destruct t|].
  rewrite str_app_cons. simpl. done.
Qed.

Lemma take_app_length s t : Py.take (String.length s) (s +:+ t) = s.
Proof.
  induction s as [|a s IH]; [by destruct t|].
  rewrite str_app_cons. simpl. by rewrite IH.
Qed.

Lemma last_char_app s t : t <> EmptyString -> last_char (s +:+ t) = last_char t.
Proof.
  intros Ht. induction s as [|a s IH]; [done|].
  rewrite str_app_cons. simpl. rewrite IH.
  destruct (s +:+ t) eqn:Hst; [|done].
  destruct s; [|done]. by rewrite str_app_nil_l in Hst.
Qed.

Lemma last_char_drop k s :
  Py.drop k s <> EmptyString -> last_char (Py.drop k s) = last_char s.
Proof.
  revert k. induction s as [|a s IH]; intros k Hk.
  - by destruct k.
  - destruct k as [|k]; [done|]. simpl in *.
    rewrite IH by done. destruct s; [|done]. by destruct k.
Qed.

(** A name ends with [e] only if both have the same last character. *)
Lemma endswith_last_char s e :
  e <> EmptyString -> Py.endswith s e = true -> last_char s = last_char e.
Proof.
  unfold Py.endswith. intros He Hend.
  apply bool_decide_eq_true in Hend.
  rewrite <- Hend. symmetry. apply last_char_drop. by rewrite Hend.
Qed.

(** The entry kept under a name that does not end in [/] is a file of
    that name. *)
Lemma entry_name_file s : last_char s <> Some "/"%char -> entry_name s = s.
Proof. intros Hs. unfold entry_name. by rewrite decide_False. Qed.

Lemma is_subdir_subdir s : is_subdir (subdir s).
Proof. unfold is_subdir, subdir. by rewrite last_char_app. Qed.

Lemma entry_name_subdir s : entry_name (subdir s) = s.
Proof.
  unfold entry_name. rewrite decide_True by apply is_subdir_subdir.
  unfold subdir. rewrite str_length_app. simpl.
  replace (String.length s + 1 - 1) with (String.length s) by lia.
  apply take_app_length.
Qed.

Lemma not_png_by_last_char s :
  last_char s <> Some "g"%char -> last_char s <> Some "/"%char -> ~ is_png s.
Proof.
  intros Hlast Hfile Hpng. apply Hlast. unfold is_png in Hpng.
  rewrite entry_name_file in Hpng by done.
  by rewrite (endswith_last_char s ".png").
Qed.

Lemma subdir_ne_file n s : last_char s <> Some "/"%char -> subdir n <> s.
Proof. intros Hs Heq. apply Hs. rewrite <- Heq. apply is_subdir_subdir. Qed.

(** A sub-directory is matched by [*.png] when its name is. *)
Lemma subdir_not_png s : Py.endswith s ".png" = false -> ~ is_png (subdir s).
Proof.
  intros Hs. unfold is_png. rewrite entry_name_subdir. by rewrite Hs.
Qed.

(** Cancellation on the right. *)
Lemma str_app_inv_tail s t e : s +:+ e = t +:+ e -> s = t.
Proof.
  revert t. induction s as [|a s IH]; intros [|b t] Heq.
  - done.
  - apply (f_equal String.length) in Heq.
    rewrite str_app_cons, str_app_nil_l in Heq. simpl in Heq.
    rewrite str_length_app in Heq. lia.
  - apply (f_equal String.length) in Heq.
    rewrite str_app_cons, str_app_nil_l in Heq. simpl in Heq.
    rewrite str_length_app in Heq. lia.
  - rewrite !str_app_cons in Heq. injection Heq as -> Heq.
    f_equal. by apply IH.
Qed.

Lemma csv_name_inj base i j : csv_name base i = csv_name base j -> i = j.
Proof.
  unfold csv_name, Py.str_of_nat. intros Heq.
  apply (inj (String.app base)) in Heq.
  apply (inj (String.app "_table_")) in Heq.
  apply str_app_inv_tail in Heq.
  by apply (inj pretty) in Heq.
Qed.

Lemma rfind_app c s t :
  Py.rfind c (s +:+ t) =
  match Py.rfind c t with
  | Some j => Some (String.length s + j)
  | None => Py.rfind c s
  end.
Proof.
  induction s as [|a s IH].
  - rewrite str_app_nil_l. by destruct (Py.rfind c t).
  - rewrite str_app_cons. simpl. rewrite IH.
    by destruct (Py.rfind c t).
Qed.

Lemma path_name_other s : s <> "." -> Py.path_name s = s.
Proof. intros Hs. unfold Py.path_name. by destruct (decide (s = ".")). Qed.

Lemma app_ext_not_dot s e : s <> EmptyString -> s +:+ String "." e <> ".".
Proof.
  destruct s as [|a s]; [done|]. intros _. rewrite str_app_cons.
  intros [= _ Heq]. destruct s; discriminate Heq.
Qed.

(** The suffix of [<s>.<e>] for a non-empty [s] and a non-empty [e]
    without a dot. *)
Lemma suffix_app_ext s e :
  s <> EmptyString -> e <> EmptyString -> Py.rfind "." e = None ->
  Py.suffix (s +:+ String "." e) = String "." e.
Proof.
  intros Hs He Hdot. unfold Py.suffix.
  rewrite path_name_other by by apply app_ext_not_dot.
  unfold Py.suffix_pos. cbv zeta.
  rewrite rfind_app. simpl. rewrite Hdot.
  rewrite Nat.add_0_r, str_length_app. simpl.
  assert (0 < String.length s) by (destruct s; [done|simpl; lia]).
  assert (0 < String.length e) by (destruct e; [done|simpl; lia]).
  replace (0 <? String.length s) with true by (symmetry; apply Nat.ltb_lt; lia).
  replace (String.length s <? String.length s + S (String.length e) - 1)
    with true by (symmetry; apply Nat.ltb_lt; lia).
  simpl. apply drop_app_length.
Qed.

Lemma stem_nonempty fname :
  fname <> EmptyString -> fname <> "." -> Py.stem fname <> EmptyString.
Proof.
  intros Hne Hdot. unfold Py.stem. rewrite path_name_other by done.
  unfold Py.suffix_pos. cbv zeta.
  destruct (Py.rfind "." fname) as [i|]; [|done].
  destruct (0 <? i) eqn:Hi; simpl; [|done].
  destruct (i <? String.length fname - 1); [|done].
  apply Nat.ltb_lt in Hi. destruct i as [|i]; [lia|].
  by destruct fname.
Qed.

Lemma rfind_cons_None c a s :
  Py.rfind c (String a s) = None <-> a <> c /\ Py.rfind c s = None.
Proof.
  simpl. destruct (Py.rfind c s) as [j|].
  - split; [discriminate|]. intros [_ Hj]. discriminate Hj.
  - destruct (decide (a = c)) as [Heq|Hne].
    + split; [discriminate|]. intros [Hn _]. by destruct Hn.
    + split; [by intros _|reflexivity].
Qed.

Lemma no_slash_cons a s : no_slash (String a s) <-> a <> "/"%char /\ no_slash s.
Proof. apply rfind_cons_None. Qed.

(** Two paths that agree are cut at their first slash in the same way. *)
Lemma first_slash_split s s' t t' :
  no_slash s -> no_slash s' ->
  s +:+ String "/" t = s' +:+ String "/" t' -> s = s' /\ t = t'.
Proof.
  revert s'. induction s as [|a s IH]; intros [|a' s'] Hs Hs' Heq.
  - rewrite !str_app_nil_l in Heq. by injection Heq as ->.
  - rewrite str_app_nil_l, str_app_cons in Heq. injection Heq as <- _.
    apply no_slash_cons in Hs' as [Hne _]. done.
  - rewrite str_app_nil_l, str_app_cons in Heq. injection Heq as -> _.
    apply no_slash_cons in Hs as [Hne _]. done.
  - rewrite !str_app_cons in Heq. injection Heq as -> Heq.
    apply no_slash_cons in Hs as [_ Hs].
    apply no_slash_cons in Hs' as [_ Hs'].
    destruct (IH s' Hs Hs' Heq) as [-> ->]. done.
Qed.

Lemma after_slash_bucket k n : no_slash n -> after_slash (bucket k +:+ n) = n.
Proof.
  unfold no_slash, after_slash. intros Hn. rewrite rfind_app, Hn.
  destruct k; reflexivity.
Qed.

Lemma take_drop_str i s : Py.take i s +:+ Py.drop i s = s.
Proof.
  revert i. induction s as [|a s IH]; intros [|i]; try reflexivity.
  simpl. rewrite str_app_cons. by rewrite IH.
Qed.

Lemma take_length_str i s :
  String.length (Py.take i s) = i `min` String.length s.
Proof.
  revert i. induction s as [|a s IH]; intros [|i]; try reflexivity.
  simpl. by rewrite IH.
Qed.

End StringFacts.

(** ** Names of archive members *)

Section ArchiveNames.
Implicit Types (s t b n pref key : string).

Lemma no_slash_last_char n : no_slash n -> last_char n <> Some "/"%char.
Proof.
  induction n as [|a n IH]; [done|]. intros Hn.
  apply no_slash_cons in Hn as [Ha Hn]. destruct n as [|a' n].
  - simpl. congruence.
  - by apply IH.
Qed.

Lemma arcname_file pref n :
  last_char n <> Some "/"%char -> arcname pref n = arc_path pref n.
Proof.
  intros Hn. unfold arcname. rewrite entry_name_file by done.
  by rewrite decide_False.
Qed.

Lemma arcname_subdir pref n :
  arcname pref (subdir n) = arc_path pref n +:+ "/".
Proof.
  unfold arcname. rewrite entry_name_subdir.
  by rewrite decide_True by apply is_subdir_subdir.
Qed.

Lemma arc_path_bucket pref fname :
  arc_path pref fname =
  pref +:+ String "/" (bucket (kind_of_file fname) +:+ fname).
Proof.
  unfold arc_path, kind_of_file.
  generalize (Py.lower (Py.suffix fname)). intros e.
  repeat (case_decide; [subst e; reflexivity|]).
  case_bool_decide as Hin.
  - rewrite !elem_of_cons, elem_of_nil in Hin.
    destruct Hin as [He|[He|[He|[]]]]; subst e; reflexivity.
  - rewrite !not_elem_of_cons in Hin. destruct Hin as (?&?&?&_).
    simpl. rewrite !decide_False by done. reflexivity.
Qed.

(** A member of the directory [pref] has a name that starts with
    [pref/]. *)
Lemma arcname_prefix pref key :
  exists rest, arcname pref key = pref +:+ String "/" rest.
Proof.
  unfold arcname. rewrite arc_path_bucket. case_decide.
  - eexists. rewrite str_app_assoc, str_app_cons. reflexivity.
  - eexists. reflexivity.
Qed.

Lemma drop_length s : Py.drop (String.length s) s = EmptyString.
Proof. induction s as [|a s IH]; [done|]. simpl. exact IH. Qed.

Lemma after_slash_subdir s : after_slash (s +:+ "/") = EmptyString.
Proof.
  unfold after_slash. rewrite rfind_app.
  change (Py.rfind "/" "/") with (Some 0). cbv iota beta.
  rewrite Nat.add_0_r.
  replace (S (String.length s)) with (String.length (s +:+ "/"))
    by (rewrite str_length_app; simpl; lia).
  apply drop_length.
Qed.

(** The path [arc] determines the directory and the file. *)
Lemma arc_path_inj b b' n n' :
  no_slash b -> no_slash b' -> no_slash n -> no_slash n' ->
  arc_path b n = arc_path b' n' -> b = b' /\ n = n'.
Proof.
  intros Hb Hb' Hn Hn'. rewrite !arc_path_bucket. intros Heq.
  apply first_slash_split in Heq as [-> Heq]; [|done..].
  split; [done|].
  apply (f_equal after_slash) in Heq.
  by rewrite !after_slash_bucket in Heq.
Qed.

(** So does the name of a member, for files and sub-directories
    alike. *)
Lemma arcname_inj b b' key key' :
  no_slash b -> no_slash b' -> entry_ok key -> entry_ok key' ->
  arcname b key = arcname b' key' -> b = b' /\ key = key'.
Proof.
  intros Hb Hb' [[Hne Hk]|(n & -> & Hne & Hn)]
    [[Hne' Hk']|(n' & -> & Hne' & Hn')].
  - rewrite !arcname_file by (by apply no_slash_last_char).
    by apply arc_path_inj.
  - rewrite arcname_file by (by apply no_slash_last_char).
    rewrite arcname_subdir, !arc_path_bucket. intros Heq. exfalso.
    rewrite str_app_assoc, str_app_cons in Heq.
    apply first_slash_split in Heq as [_ Heq]; [|done..].
    apply (f_equal after_slash) in Heq.
    rewrite after_slash_bucket, after_slash_subdir in Heq by done. done.
  - rewrite (arcname_file _ key') by (by apply no_slash_last_char).
    rewrite arcname_subdir, !arc_path_bucket. intros Heq. exfalso.
    rewrite str_app_assoc, str_app_cons in Heq.
    apply first_slash_split in Heq as [_ Heq]; [|done..].
    apply (f_equal after_slash) in Heq.
    rewrite after_slash_bucket, after_slash_subdir in Heq by done. done.
  - rewrite !arcname_subdir. intros Heq. apply str_app_inv_tail in Heq.
    apply arc_path_inj in Heq as [-> ->]; done.
Qed.



End ArchiveNames.

(** ** The annotated-text pass: basic facts *)

Section ReconcilerFacts.
Context `{Externals}.
Implicit Types (st : txt_state) (els : list element).

Lemma txt_loop_app base imgs st els1 els2 :
  txt_loop base imgs st (els1 ++ els2) =
  match txt_loop base imgs st els1 with
  | Ok st' => txt_loop base imgs st' els2
  | Raise e => Raise e
  end.
Proof.
  revert st. induction els1 as [|el els1 IH]; intros st; simpl; [done|].
  destruct (txt_step base imgs st el); auto.
Qed.

Lemma txt_step_ok base imgs st el :
  exports_ok el -> exists st', txt_step base imgs st el = Ok st'.
Proof.
  intros Hok. unfold txt_step.
  destruct el as [l t|t|tbl|]; simpl in *.
  - destruct (Py.truthy (Py.strip t)); eauto.
  - destruct (Py.truthy (Py.strip t)); eauto.
  - destruct Hok as [df ->]. eauto.
  - eauto.
Qed.

(** The pass returns when every table exports. *)
Lemma txt_loop_total base imgs st els :
  Forall exports_ok els -> exists st', txt_loop base imgs st els = Ok st'.
Proof.
  intros Hall. revert st.
  induction Hall as [|el els Hel _ IH]; intros st; simpl; [eauto|].
  destruct (txt_step_ok base imgs st el Hel) as [st' ->]. apply IH.
Qed.

Lemma txt_step_raises base imgs st el :
  ~ exports_ok el -> exists e, txt_step base imgs st el = Raise e.
Proof.
  intros Hno. destruct el as [l t|t|tbl|]; simpl in *; try (exfalso; tauto).
  unfold txt_step; simpl.
  destruct (export_to_dataframe tbl) as [df|e]; [|eauto].
  exfalso. apply Hno. eauto.
Qed.

(** The pass raises as soon as one table does not export. *)
Lemma txt_loop_raises base imgs st els :
  Exists (fun el => ~ exports_ok el) els ->
  exists e, txt_loop base imgs st els = Raise e.
Proof.
  intros Hex. revert st.
  induction Hex as [el els Hel|el els _ IH]; intros st; simpl.
  - destruct (txt_step_raises base imgs st el Hel) as [e ->]. eauto.
  - destruct (txt_step base imgs st el); [apply IH|eauto].
Qed.

(** A step appends to [lines] and moves the counters by the kind of the
    element. *)
Lemma txt_step_counters base imgs st st' el :
  txt_step base imgs st el = Ok st' ->
  ti st' = ti st + length (stream_tables [el]) /\
  pi st' = pi st + count_pictures [el] /\
  exists ls, lines st' = lines st ++ ls.
Proof.
  unfold txt_step. intros Hstep.
  destruct el as [l t|t|tbl|]; simpl in *.
  - destruct (Py.truthy (Py.strip t)); simplify_eq; simpl;
      (split; [lia|split; [lia|]]); eauto. exists []. by rewrite app_nil_r.
  - destruct (Py.truthy (Py.strip t)); simplify_eq; simpl;
      (split; [lia|split; [lia|]]); eauto. exists []. by rewrite app_nil_r.
  - destruct (export_to_dataframe tbl); simplify_eq; simpl.
    split; [lia|split; [lia|]]; eauto.
  - simplify_eq; simpl. split; [lia|split; [lia|]]; eauto.
Qed.

Lemma stream_tables_app els1 els2 :
  stream_tables (els1 ++ els2) = stream_tables els1 ++ stream_tables els2.
Proof.
  induction els1 as [|[| |tbl|] els1 IH]; simpl; auto. by rewrite IH.
Qed.

Lemma count_pictures_app els1 els2 :
  count_pictures (els1 ++ els2) = count_pictures els1 + count_pictures els2.
Proof.
  induction els1 as [|[| | |] els1 IH]; simpl; auto.
Qed.

Lemma txt_loop_counters base imgs st st' els :
  txt_loop base imgs st els = Ok st' ->
  ti st' = ti st + length (stream_tables els) /\
  pi st' = pi st + count_pictures els /\
  exists ls, lines st' = lines st ++ ls.
Proof.
  revert st. induction els as [|el els IH]; intros st Hloop.
  - injection Hloop as <-. simpl.
    split; [lia|split; [lia|]]. exists []. by rewrite app_nil_r.
  - cbn [txt_loop] in Hloop.
    destruct (txt_step base imgs st el) as [st1|] eqn:Hstep; [|done].
    apply IH in Hloop as (Ht & Hp & ls & Hl).
    apply txt_step_counters in Hstep as (Ht1 & Hp1 & ls1 & Hl1).
    change (el :: els) with ([el] ++ els).
    rewrite stream_tables_app, count_pictures_app, length_app.
    split; [lia|split; [lia|]].
    exists (ls1 ++ ls). by rewrite Hl, Hl1, app_assoc.
Qed.

End ReconcilerFacts.

(** ** The annotated-text pass: labels *)

Section ReconcilerClaims.
Context `{Externals}.
Implicit Types (st : txt_state) (els : list element).

(** The name chosen by [imgs[pi].name if pi < len(imgs) else ...] for the
    counter value [k] is the announced name of picture [k + 1]. *)
Lemma picture_name_by_counter base imgs k :
  match imgs !! k with
  | Some img => img
  | None => base +:+ "_img_" +:+ Py.str_of_nat (k + 1) +:+ ".png"
  end = nth_image_name base imgs (S k).
Proof.
  unfold nth_image_name. replace (S k - 1) with k by lia.
  replace (k + 1) with (S k) by lia.
  destruct (imgs !! k) as [img|] eqn:Hk.
  - apply lookup_lt_Some in Hk. rewrite decide_True by lia. done.
  - apply lookup_ge_None in Hk. rewrite decide_False by lia. done.
Qed.

(** C2 (as the program behaves). Table-export failure in the
    annotated-text pass: when the export of some Table element of the
    stream raises, the pass raises, whatever the image list; no label and
    no placeholder is produced for that table, [generate_txt] writes
    nothing and hands the exception to its caller. *)
Theorem C2_export_failure_aborts_pass base res w :
  Exists (fun el => ~ exports_ok el) (iterate_items (doc res)) ->
  (forall imgs, exists e,
      annotated_text base imgs (iterate_items (doc res)) = Raise e) /\
  exists e, generate_txt res base w = (w, Raise e).
Proof.
  intros Hex.
  assert (Hall : forall imgs, exists e,
             annotated_text base imgs (iterate_items (doc res)) = Raise e).
  { intros imgs. unfold annotated_text.
    destruct (txt_loop_raises base imgs txt_init _ Hex) as [e ->]. eauto. }
  split; [done|].
  unfold generate_txt, glob_png, lift, mbind, M_bind; simpl.
  destruct (Hall (sorted_pngs (default ∅ (fs w !! base)))) as [e ->].
  eauto.
Qed.

(** C4 (as the program behaves). The worked example: the label
    ["[Table 1]"] and the grid are two entries of [lines], so a blank
    line separates them like every other pair of blocks. *)
Theorem C4_worked_example :
  annotated_text "doc" ["doc_img_1.png"] Demo.worked_example =
  Ok ("# Intro" +:+ nl +:+ nl +:+ "hello" +:+ nl +:+ nl +:+
      "[Table 1]" +:+ nl +:+ nl +:+ to_string [["a"; "b"]; ["1"; "2"]] +:+
      nl +:+ nl +:+ "[Image: doc_img_1.png]" +:+ nl +:+ nl +:+ "bye").
Proof. vm_compute. reflexivity. Qed.

End ReconcilerClaims.

(** C4, refuted as stated. With a grid renderer that gives ["a b\n1 2"]
    for T1, the output is not the text with a single newline between
    ["[Table 1]"] and the grid. *)
Lemma C4_single_newline_refuted :
  Demo.grid [["a"; "b"]; ["1"; "2"]] = "a b" +:+ nl +:+ "1 2" /\
  @annotated_text (Demo.externals [] []) "doc" ["doc_img_1.png"]
    Demo.worked_example <> Ok Demo.single_newline_text.
Proof. split; [reflexivity|]. vm_compute. discriminate. Qed.


(** ** The working area: basic facts *)

Section WorkingAreaFacts.
Implicit Types (w : world) (d : gmap string string) (base : string).

Lemma bind_ok {A B} (m : M A) (k : A -> M B) w w' a :
  m w = (w', Ok a) -> (m ≫= k) w = k a w'.
Proof. unfold mbind, M_bind. by intros ->. Qed.

Lemma bind_raise {A B} (m : M A) (k : A -> M B) w w' e :
  m w = (w', Raise e) -> (m ≫= k) w = (w', Raise e).
Proof. unfold mbind, M_bind. by intros ->. Qed.

Lemma write_text_eq base fname c w :
  write_text base fname c w =
  (set_dir w base (<[fname := c]> (dir_of w base)), Ok tt).
Proof. reflexivity. Qed.

Lemma dir_of_set_dir w base d : dir_of (set_dir w base d) base = d.
Proof. unfold dir_of, set_dir; simpl. by rewrite lookup_insert_eq. Qed.

Lemma lookup_set_dir w base d : fs (set_dir w base d) !! base = Some d.
Proof. unfold set_dir; simpl. by rewrite lookup_insert_eq. Qed.

Lemma dir_of_set_dir_ne w base base' d :
  base <> base' -> dir_of (set_dir w base d) base' = dir_of w base'.
Proof. intros. unfold dir_of, set_dir; simpl. by rewrite lookup_insert_ne. Qed.

Lemma set_dir_set_dir w base d d' :
  set_dir (set_dir w base d) base d' = set_dir w base d'.
Proof. unfold set_dir; simpl. by rewrite insert_insert_eq. Qed.

Lemma set_dir_id w base d : fs w !! base = Some d -> set_dir w base d = w.
Proof.
  intros Hd. destruct w as [a u]. unfold set_dir; simpl in *.
  by rewrite insert_id.
Qed.

Lemma write_all_app ws1 ws2 d :
  write_all (ws1 ++ ws2) d = write_all ws2 (write_all ws1 d).
Proof. unfold write_all. by rewrite foldl_app. Qed.

(** A name that is not written keeps its content. *)
Lemma write_all_lookup_ne ws d fname :
  fname ∉ ws.*1 -> write_all ws d !! fname = d !! fname.
Proof.
  revert d. induction ws as [|[n c] ws IH]; intros d Hnot; [done|].
  simpl in *. apply not_elem_of_cons in Hnot as [Hne Hnot].
  rewrite IH by done. by rewrite lookup_insert_ne.
Qed.

(** A name written once holds what was written. *)
Lemma write_all_lookup ws d fname c :
  NoDup ws.*1 -> (fname, c) ∈ ws -> write_all ws d !! fname = Some c.
Proof.
  revert d. induction ws as [|[n c'] ws IH]; intros d Hnd Hin.
  - by apply elem_of_nil in Hin.
  - simpl in *. apply NoDup_cons in Hnd as [Hn Hnd].
    apply elem_of_cons in Hin as [Heq|Hin].
    + injection Heq as -> ->.
      rewrite write_all_lookup_ne by done. by rewrite lookup_insert_eq.
    + by apply IH.
Qed.

Lemma merge_sort_perm_eq (l1 l2 : list string) :
  l1 ≡ₚ l2 -> merge_sort String.le l1 = merge_sort String.le l2.
Proof.
  intros Hperm. apply (Sorted_unique String.le).
  - apply Sorted_merge_sort, _.
  - apply Sorted_merge_sort, _.
  - by rewrite !merge_sort_Permutation.
Qed.

(** Writing a file that is not a [.png] leaves the image list alone. *)
Lemma sorted_pngs_insert d fname c :
  ~ is_png fname -> sorted_pngs (<[fname := c]> d) = sorted_pngs d.
Proof.
  intros Hpng. unfold sorted_pngs. rewrite dom_insert_L.
  destruct (decide (fname ∈ dom d)) as [Hin|Hout].
  - rewrite (subseteq_union_1_L {[fname]} (dom d)); [done|].
    by apply singleton_subseteq_l.
  - apply merge_sort_perm_eq.
    rewrite (elements_union_singleton _ _ Hout).
    by rewrite filter_cons_False.
Qed.

Lemma sorted_pngs_write_all ws d :
  Forall (fun p => ~ is_png p.1) ws ->
  sorted_pngs (write_all ws d) = sorted_pngs d.
Proof.
  intros Hall. revert d.
  induction Hall as [|[n c] ws Hn _ IH]; intros d; [done|].
  simpl in *. rewrite IH. by apply sorted_pngs_insert.
Qed.

Lemma txt_not_png base : ~ is_png (base +:+ ".txt").
Proof. apply not_png_by_last_char; by rewrite last_char_app. Qed.

Lemma md_not_png base : ~ is_png (base +:+ ".md").
Proof. apply not_png_by_last_char; by rewrite last_char_app. Qed.

Lemma html_not_png base : ~ is_png (base +:+ ".html").
Proof. apply not_png_by_last_char; by rewrite last_char_app. Qed.

Lemma json_not_png base : ~ is_png (base +:+ ".json").
Proof. apply not_png_by_last_char; by rewrite last_char_app. Qed.

End WorkingAreaFacts.

(** ** [generate_txt] on the working area *)

Section GenerateTxt.
Context `{Externals}.
Implicit Types (w : world) (res : conv_result) (base : string).

(** What a call does: the image list is read from the directory, the
    pass runs, and only when it returns is [<base>.txt] written. *)
Lemma generate_txt_eq res base w :
  generate_txt res base w =
  match annotated_text base (sorted_pngs (dir_of w base))
          (iterate_items (doc res)) with
  | Ok txt =>
      (set_dir w base (<[base +:+ ".txt" := txt]> (dir_of w base)),
       Ok (base +:+ ".txt"))
  | Raise e => (w, Raise e)
  end.
Proof.
  unfold generate_txt, glob_png, lift, mbind, M_bind, mret, M_ret.
  fold (dir_of w base).
  by destruct (annotated_text _ _ _).
Qed.

(** C9. Reconciler determinism: a second run of [generate_txt] on the
    working area left by the first one returns the same value and leaves
    the same working area (the file written is not a [.png], so the image
    list is unchanged, and the same bytes are written again); and the
    outcome and the text written are the same for any two working areas
    with the same sorted image list and any two results with the same
    element stream. *)
Theorem C9_reconciler_deterministic res base w :
  generate_txt res base (generate_txt res base w).1 = generate_txt res base w /\
  forall res' w',
    iterate_items (doc res') = iterate_items (doc res) ->
    sorted_pngs (dir_of w' base) = sorted_pngs (dir_of w base) ->
    (generate_txt res' base w').2 = (generate_txt res base w).2 /\
    forall p, (generate_txt res base w).2 = Ok p ->
      dir_of (generate_txt res' base w').1 base !! p =
      dir_of (generate_txt res base w).1 base !! p.
Proof.
  split.
  - rewrite (generate_txt_eq res base w).
    destruct (annotated_text base (sorted_pngs (dir_of w base))
                (iterate_items (doc res))) as [txt|e] eqn:Htxt; simpl.
    + rewrite generate_txt_eq, dir_of_set_dir.
      rewrite sorted_pngs_insert by apply txt_not_png.
      rewrite Htxt, set_dir_set_dir. by rewrite insert_insert_eq.
    + by rewrite generate_txt_eq, Htxt.
  - intros res' w' Hels Himgs.
    rewrite !generate_txt_eq, Hels, Himgs.
    destruct (annotated_text base (sorted_pngs (dir_of w base))
                (iterate_items (doc res))) as [txt|e]; simpl.
    + split; [done|]. intros p [= <-].
      by rewrite !dir_of_set_dir, !lookup_insert_eq.
    + split; [done|]. by intros p [=].
Qed.

(** C5 (as the program behaves). Image placeholder correspondence, for
    a document whose tables export.  For every image list, the pass
    reaches each Picture element; the Picture element that follows the
    elements [pre] is picture number [N = 1 + (pictures in pre)]: the
    image counter equals [N - 1] before it and [N] after it, and the
    line appended is ["[Image: <f>]"], where [<f>] is the [N]-th name of
    the sorted image list when the list has at least [N] names and
    [<stem>_img_<N>.png] otherwise; the pass goes on, and the label
    stands in the annotated text right after the lines of the elements
    before the picture.  [generate_txt] writes this text, for the sorted
    [*.png] list of the job directory, to [<stem>.txt]. *)
Theorem C5_image_placeholder res base w pre post :
  iterate_items (doc res) = pre ++ PictureItem :: post ->
  Forall exports_ok (iterate_items (doc res)) ->
  let n := S (count_pictures pre) in
  (forall imgs, exists st l2,
     txt_loop base imgs txt_init pre = Ok st /\
     pi st = count_pictures pre /\
     txt_step base imgs st PictureItem =
       Ok {| lines := lines st ++ [image_label (nth_image_name base imgs n)];
             ti := ti st; pi := n |} /\
     (n <= length imgs -> imgs !! (n - 1) = Some (nth_image_name base imgs n)) /\
     (length imgs < n ->
      nth_image_name base imgs n =
        base +:+ "_img_" +:+ Py.str_of_nat n +:+ ".png") /\
     annotated_text base imgs (iterate_items (doc res)) =
       Ok (Py.join (nl +:+ nl)
             (lines st ++ [image_label (nth_image_name base imgs n)] ++ l2))) /\
  (exists l1 l2,
     generate_txt res base w =
       (set_dir w base
          (<[base +:+ ".txt" :=
               Py.join (nl +:+ nl)
                 (l1 ++ [image_label
                           (nth_image_name base
                              (sorted_pngs (dir_of w base)) n)] ++ l2)]>
             (dir_of w base)),
        Ok (base +:+ ".txt"))).
Proof.
  intros Hels Hall n.
  assert (Hpass : forall imgs, exists st l2,
     txt_loop base imgs txt_init pre = Ok st /\
     pi st = count_pictures pre /\
     txt_step base imgs st PictureItem =
       Ok {| lines := lines st ++ [image_label (nth_image_name base imgs n)];
             ti := ti st; pi := n |} /\
     (n <= length imgs -> imgs !! (n - 1) = Some (nth_image_name base imgs n)) /\
     (length imgs < n ->
      nth_image_name base imgs n =
        base +:+ "_img_" +:+ Py.str_of_nat n +:+ ".png") /\
     annotated_text base imgs (iterate_items (doc res)) =
       Ok (Py.join (nl +:+ nl)
             (lines st ++ [image_label (nth_image_name base imgs n)] ++ l2))).
  { intros imgs. rewrite Hels in Hall |- *.
    apply Forall_app in Hall as [Hpre Hpost].
    apply Forall_cons in Hpost as [_ Hpost].
    destruct (txt_loop_total base imgs txt_init pre Hpre) as [st Hst].
    pose proof (txt_loop_counters _ _ _ _ _ Hst) as (_ & Hpi & _).
    simpl in Hpi.
    set (st' := {| lines := lines st ++
                     [image_label (nth_image_name base imgs n)];
                   ti := ti st; pi := n |}).
    assert (Hstep : txt_step base imgs st PictureItem = Ok st').
    { unfold txt_step; simpl. rewrite picture_name_by_counter.
      subst st' n. by rewrite Hpi. }
    destruct (txt_loop_total base imgs st' post Hpost) as [st'' Hst''].
    apply txt_loop_counters in Hst'' as Hc. destruct Hc as (_ & _ & l2 & Hl2).
    exists st, l2. split; [done|]. split; [done|]. split; [done|].
    unfold nth_image_name. split; [|split].
    - intros Hn. rewrite decide_True by done.
      destruct (imgs !! (n - 1)) as [img|] eqn:Hk; [done|].
      apply lookup_ge_None in Hk. lia.
    - intros Hn. rewrite decide_False by lia. done.
    - fold (nth_image_name base imgs n).
      unfold annotated_text. rewrite txt_loop_app, Hst. cbn [txt_loop].
      rewrite Hstep, Hst'', Hl2. subst st'. simpl. by rewrite <- app_assoc. }
  split; [exact Hpass|].
  destruct (Hpass (sorted_pngs (dir_of w base)))
    as (st & l2 & _ & _ & _ & _ & _ & Htxt).
  exists (lines st), l2.
  pose proof (generate_txt_eq res base w) as Heq. rewrite Htxt in Heq.
  exact Heq.
Qed.

End GenerateTxt.

(** ** The export stage of one document *)

Section ExportStage.
Context `{Externals}.
Implicit Types (w : world) (res : conv_result) (base : string).

Lemma csv_writes_names base i dfs fname :
  fname ∈ (csv_writes base i dfs).*1 ->
  exists k, k < length dfs /\ fname = csv_name base (i + k).
Proof.
  revert i. induction dfs as [|df dfs IH]; intros i Hin; simpl in *.
  - by apply elem_of_nil in Hin.
  - apply elem_of_cons in Hin as [->|Hin].
    + exists 0. split; [lia|]. by rewrite Nat.add_0_r.
    + apply IH in Hin as (k & Hk & ->). exists (S k).
      split; [lia|]. f_equal. lia.
Qed.

Lemma csv_writes_NoDup base i dfs : NoDup (csv_writes base i dfs).*1.
Proof.
  revert i. induction dfs as [|df dfs IH]; intros i; simpl.
  - constructor.
  - constructor; [|apply IH].
    intros Hin. apply csv_writes_names in Hin as (k & _ & Heq).
    apply csv_name_inj in Heq. lia.
Qed.

Lemma csv_writes_elem base i dfs k df :
  dfs !! k = Some df ->
  (csv_name base (i + k), to_csv df) ∈ csv_writes base i dfs.
Proof.
  revert i k. induction dfs as [|df' dfs IH]; intros i k Hk; [done|].
  destruct k as [|k]; simpl in *.
  - injection Hk as ->. rewrite Nat.add_0_r. apply elem_of_cons; auto.
  - apply elem_of_cons; right.
    replace (i + S k) with (S i + k) by lia. by apply IH.
Qed.

(** A CSV name is none of [<base>.md], [<base>.html], [<base>.json] and
    [<base>.txt]. *)
Lemma csv_name_not_dotted base i e : csv_name base i <> base +:+ String "." e.
Proof.
  unfold csv_name. intros Heq.
  apply (inj (String.app base)) in Heq.
  rewrite str_app_cons in Heq. discriminate.
Qed.

Lemma csv_name_not_subdir base i n : csv_name base i <> subdir n.
Proof.
  intros Heq. symmetry in Heq. revert Heq. apply subdir_ne_file.
  unfold csv_name. rewrite <- !str_app_assoc. by rewrite last_char_app.
Qed.

Lemma csv_not_png base i : ~ is_png (csv_name base i).
Proof.
  apply not_png_by_last_char; unfold csv_name;
    rewrite <- !str_app_assoc; by rewrite last_char_app.
Qed.

Lemma doc_writes_NoDup base res txt : NoDup (doc_writes base res txt).*1.
Proof.
  simpl. constructor.
  { rewrite !elem_of_cons, elem_of_nil.
    intros [Heq|[Heq|[Heq|[Heq|[]]]]]; revert Heq;
      apply subdir_ne_file; by rewrite last_char_app. }
  repeat constructor; rewrite ?elem_of_cons, ?elem_of_nil;
    intros Hin; repeat destruct Hin as [Hin|Hin]; try done;
    apply (inj (String.app base)) in Hin; discriminate.
Qed.

(** The loop of [export_tables] when every export returns. *)
Lemma export_tables_loop_eq base i tbls dfs paths w d :
  Forall2 (fun tbl df => export_to_dataframe tbl = Ok df) tbls dfs ->
  fs w !! base = Some d ->
  export_tables_loop base i tbls paths w =
  (set_dir w base (write_all (csv_writes base i dfs) d),
   Ok (paths ++ (csv_writes base i dfs).*1)).
Proof.
  intros Hall. revert i paths w d.
  induction Hall as [|tbl df tbls dfs Hdf _ IH]; intros i paths w d Hd.
  - simpl. rewrite app_nil_r. by rewrite set_dir_id.
  - cbn [export_tables_loop csv_writes]. rewrite Hdf.
    unfold lift at 1. unfold mbind at 1, M_bind at 1.
    unfold mbind at 1, M_bind at 1. rewrite write_text_eq.
    erewrite IH; [|by apply lookup_set_dir].
    rewrite set_dir_set_dir. unfold dir_of. rewrite Hd. simpl.
    by rewrite <- app_assoc.
Qed.

Lemma export_tables_eq cfg d base w dir dfs :
  tables_exported cfg d dfs ->
  fs w !! base = Some dir ->
  exists paths,
    export_tables d base (extract_tables cfg) w =
    (set_dir w base (write_all (csv_writes base 1 dfs) dir), Ok paths).
Proof.
  unfold tables_exported, export_tables. intros Hdfs Hdir.
  destruct (extract_tables cfg), (tables d) as [tbls|];
    try (subst dfs; simpl; rewrite set_dir_id by done; by eexists).
  eexists. by apply export_tables_loop_eq.
Qed.

Lemma save_referenced_eq base fname c w :
  save_referenced base fname c w =
  (set_dir w base
     (<[fname := c]>
        (<[subdir (referenced_dir base) := EmptyString]> (dir_of w base))),
   Ok tt).
Proof.
  unfold save_referenced, makedirs.
  rewrite (bind_ok _ _ _ _ _ (write_text_eq _ _ _ _)).
  by rewrite write_text_eq, dir_of_set_dir, set_dir_set_dir.
Qed.

(** Making the directory of the renderers a second time changes
    nothing. *)
Lemma referenced_twice n fname c (d : gmap string string) :
  last_char fname <> Some "/"%char ->
  <[subdir n := EmptyString]> (<[fname := c]> (<[subdir n := EmptyString]> d))
  = <[fname := c]> (<[subdir n := EmptyString]> d).
Proof.
  intros Hfile. apply insert_id.
  rewrite lookup_insert_ne by (intros Heq; by apply (subdir_ne_file n fname)).
  by rewrite lookup_insert_eq.
Qed.

Lemma referenced_not_png base : ~ is_png (subdir (referenced_dir base)).
Proof. apply subdir_not_png, referenced_dir_not_png. Qed.

(** The export stage up to the annotated-text pass: the directory of the
    renderers and the three renderings are in [base], whose image list
    is as before. *)
Lemma export_outputs_start cfg res base w :
  let d := write_all [(subdir (referenced_dir base), EmptyString);
                      (base +:+ ".md", save_as_markdown (doc res));
                      (base +:+ ".html", save_as_html (doc res));
                      (base +:+ ".json", export_to_json (doc res))]
             (dir_of w base) in
  export_outputs cfg res base w =
    (generate_txt res base;;
     export_tables (doc res) base (extract_tables cfg);;
     mret tt) (set_dir w base d) /\
  sorted_pngs d = sorted_pngs (dir_of w base).
Proof.
  intros d. subst d. split.
  - unfold export_outputs.
    rewrite (bind_ok _ _ _ _ _ (save_referenced_eq _ _ _ _)).
    rewrite (bind_ok _ _ _ _ _ (save_referenced_eq _ _ _ _)).
    rewrite (bind_ok _ _ _ _ _ (write_text_eq _ _ _ _)).
    rewrite !dir_of_set_dir, !set_dir_set_dir.
    rewrite referenced_twice by (by rewrite last_char_app).
    reflexivity.
  - apply sorted_pngs_write_all.
    repeat constructor; simpl;
      (apply referenced_not_png || apply md_not_png || apply html_not_png
       || apply json_not_png).
Qed.

(** The export stage when the pass and the table exports return: the
    directory of the renderers and the four renderings, then the CSV
    files, are written into [base]. *)
Lemma export_outputs_eq cfg res base w txt dfs :
  annotated_text base (sorted_pngs (dir_of w base))
    (iterate_items (doc res)) = Ok txt ->
  tables_exported cfg (doc res) dfs ->
  export_outputs cfg res base w =
  (set_dir w base
     (write_all (doc_writes base res txt ++ csv_writes base 1 dfs)
        (dir_of w base)),
   Ok tt).
Proof.
  intros Htxt Hdfs.
  destruct (export_outputs_start cfg res base w) as [-> Hpngs].
  erewrite bind_ok; last first.
  { rewrite generate_txt_eq, dir_of_set_dir, Hpngs.
    rewrite Htxt, set_dir_set_dir. reflexivity. }
  lazymatch goal with
  | |- (_ ≫= _) (set_dir _ _ ?D) = _ =>
      destruct (export_tables_eq cfg (doc res) base (set_dir w base D) D dfs
                  Hdfs (lookup_set_dir _ _ _)) as [paths Hexp]
  end.
  erewrite bind_ok by exact Hexp.
  rewrite set_dir_set_dir, write_all_app. reflexivity.
Qed.

(** Whatever the exports do, [export_tables] touches CSV names only. *)
Lemma export_tables_loop_frame base i tbls paths w e :
  dir_of (export_tables_loop base i tbls paths w).1 base !! (base +:+ String "." e)
  = dir_of w base !! (base +:+ String "." e).
Proof.
  revert i paths w. induction tbls as [|tbl tbls IH]; intros i paths w; [done|].
  cbn [export_tables_loop].
  destruct (export_to_dataframe tbl) as [df|err]; [|done].
  unfold lift at 1. unfold mbind at 1, M_bind at 1.
  unfold mbind at 1, M_bind at 1. rewrite write_text_eq.
  rewrite IH, dir_of_set_dir, lookup_insert_ne; [done|].
  apply csv_name_not_dotted.
Qed.

Lemma export_tables_frame d base flag w e :
  dir_of (export_tables d base flag w).1 base !! (base +:+ String "." e)
  = dir_of w base !! (base +:+ String "." e).
Proof.
  unfold export_tables. destruct flag, (tables d); try done.
  apply export_tables_loop_frame.
Qed.

(** The annotated text on disk after the export stage does not depend on
    the settings. *)
Lemma export_outputs_txt cfg res base w txt :
  annotated_text base (sorted_pngs (dir_of w base))
    (iterate_items (doc res)) = Ok txt ->
  dir_of (export_outputs cfg res base w).1 base !! (base +:+ ".txt") = Some txt.
Proof.
  intros Htxt.
  destruct (export_outputs_start cfg res base w) as [-> Hpngs].
  erewrite bind_ok; last first.
  { rewrite generate_txt_eq, dir_of_set_dir, Hpngs.
    rewrite Htxt, set_dir_set_dir. reflexivity. }
  unfold mbind, M_bind.
  lazymatch goal with
  | |- context [export_tables ?d ?b ?f ?w0] =>
      pose proof (export_tables_frame d b f w0 "txt") as Hframe;
      destruct (export_tables d b f w0) as [w1 [paths|err]]
  end; simpl in *; rewrite Hframe, dir_of_set_dir;
    by rewrite lookup_insert_eq.
Qed.

(** Where the pass puts a table: after the lines of the elements before
    it, the label with its ordinal, then the grid. *)
Lemma table_block_in_text base imgs pre tbl post txt :
  annotated_text base imgs (pre ++ TableItem tbl :: post) = Ok txt ->
  exists df st l2,
    export_to_dataframe tbl = Ok df /\
    txt_loop base imgs txt_init pre = Ok st /\
    txt = Py.join (nl +:+ nl)
            (lines st ++
             [table_label (S (length (stream_tables pre))); to_string df] ++ l2).
Proof.
  unfold annotated_text. rewrite txt_loop_app.
  destruct (txt_loop base imgs txt_init pre) as [st|] eqn:Hpre; [|done].
  cbn [txt_loop]. unfold txt_step; simpl.
  destruct (export_to_dataframe tbl) as [df|]; [|done].
  destruct (txt_loop base imgs _ post) as [st'|] eqn:Hpost; [|done].
  intros [= <-].
  apply txt_loop_counters in Hpre as (Hti & _ & _).
  apply txt_loop_counters in Hpost as (_ & _ & l2 & Hl2). simpl in *.
  exists df, st, l2. split; [done|]. split; [done|].
  by rewrite Hl2, Hti, <- app_assoc.
Qed.

Lemma stream_tables_frames els :
  Forall exports_ok els ->
  exists dfs,
    Forall2 (fun tbl df => export_to_dataframe tbl = Ok df)
      (stream_tables els) dfs.
Proof.
  induction 1 as [|el els Hel _ [dfs IH]]; [by exists []|].
  destruct el as [| |tbl|]; simpl in *; eauto.
  destruct Hel as [df Hdf]. exists (df :: dfs). by constructor.
Qed.

Lemma all_writes_NoDup base res txt i dfs :
  NoDup (doc_writes base res txt ++ csv_writes base i dfs).*1.
Proof.
  rewrite fmap_app. apply NoDup_app.
  split; [apply doc_writes_NoDup|]. split; [|apply csv_writes_NoDup].
  intros fname Hdoc Hcsv.
  apply csv_writes_names in Hcsv as (k & _ & ->).
  simpl in Hdoc. rewrite !elem_of_cons, elem_of_nil in Hdoc.
  destruct Hdoc as [Heq|[Heq|[Heq|[Heq|[Heq|[]]]]]];
    try by apply csv_name_not_dotted in Heq.
  by apply csv_name_not_subdir in Heq.
Qed.

(** The export stage when the annotated-text pass raises: the directory
    of the renderers and the three renderings written before it stay,
    nothing else is written. *)
Lemma export_outputs_raise cfg res base w e :
  annotated_text base (sorted_pngs (dir_of w base))
    (iterate_items (doc res)) = Raise e ->
  export_outputs cfg res base w =
  (set_dir w base
     (write_all [(subdir (referenced_dir base), EmptyString);
                 (base +:+ ".md", save_as_markdown (doc res));
                 (base +:+ ".html", save_as_html (doc res));
                 (base +:+ ".json", export_to_json (doc res))]
        (dir_of w base)),
   Raise e).
Proof.
  intros Htxt.
  destruct (export_outputs_start cfg res base w) as [-> Hpngs].
  erewrite bind_raise; [reflexivity|].
  rewrite generate_txt_eq, dir_of_set_dir, Hpngs.
  by rewrite Htxt.
Qed.

(** C10 (as the program behaves). The annotated text shows every table
    whatever [extract_tables] says; CSV files are written only when it
    is set, and none is ever removed.  For a document whose tables
    export, with [extract_tables] off: the export stage returns after
    writing the directory of the renderers and the four renderings and
    nothing else; the text on disk holds, for each Table element, its
    label followed by its grid, and is the text left under any other
    settings; no [<base>_table_<i>.csv] is created or changed, so the
    directory holds exactly the CSV files it held before. *)
Theorem C10_grids_without_csv cfg res base w :
  extract_tables cfg = false ->
  Forall exports_ok (iterate_items (doc res)) ->
  exists txt,
    export_outputs cfg res base w =
      (set_dir w base (write_all (doc_writes base res txt) (dir_of w base)),
       Ok tt) /\
    dir_of (export_outputs cfg res base w).1 base !! (base +:+ ".txt")
      = Some txt /\
    (forall pre tbl post,
       iterate_items (doc res) = pre ++ TableItem tbl :: post ->
       exists df l1 l2,
         export_to_dataframe tbl = Ok df /\
         txt = Py.join (nl +:+ nl)
                 (l1 ++ [table_label (S (length (stream_tables pre)));
                         to_string df] ++ l2)) /\
    (forall cfg',
       dir_of (export_outputs cfg' res base w).1 base !! (base +:+ ".txt")
       = Some txt) /\
    (forall i,
       dir_of (export_outputs cfg res base w).1 base !! csv_name base i =
       dir_of w base !! csv_name base i).
Proof.
  intros Hoff Hall.
  assert (Hnone : tables_exported cfg (doc res) []).
  { unfold tables_exported. by rewrite Hoff. }
  destruct (txt_loop_total base (sorted_pngs (dir_of w base)) txt_init
              _ Hall) as [st Hst].
  assert (Htxt : annotated_text base (sorted_pngs (dir_of w base))
                   (iterate_items (doc res))
                 = Ok (Py.join (nl +:+ nl) (lines st))).
  { unfold annotated_text. by rewrite Hst. }
  pose proof (export_outputs_eq cfg res base w _ [] Htxt Hnone) as Heq.
  rewrite app_nil_r in Heq.
  exists (Py.join (nl +:+ nl) (lines st)).
  split; [exact Heq|]. split; [by apply export_outputs_txt|].
  split; [|split].
  - intros pre tbl post Hels. rewrite Hels in Htxt.
    apply table_block_in_text in Htxt as (df & st' & l2 & Hdf & _ & Hjoin).
    eauto.
  - intros cfg'. by apply export_outputs_txt.
  - intros i. rewrite Heq. cbn [fst]. rewrite dir_of_set_dir.
    apply write_all_lookup_ne. simpl.
    rewrite !not_elem_of_cons. repeat split;
      try apply csv_name_not_dotted; [|apply not_elem_of_nil].
    apply csv_name_not_subdir.
Qed.

(** C3 (as the program behaves). Table numbering: when every table of
    the stream exports, [doc.tables] lists the tables of the stream in
    stream order and [extract_tables] is set, the export stage returns,
    and for every Table element the text on disk holds, after the lines
    of the elements before it, the label ["[Table i]"] with [i] one more
    than the number of tables before it (so the labels run 1, 2, ..., N
    in stream order), followed by the grid of the frame whose CSV
    rendering is the content of [<base>_table_<i>.csv]. *)
Theorem C3_table_numbering cfg res base w :
  Forall exports_ok (iterate_items (doc res)) ->
  tables (doc res) = Some (stream_tables (iterate_items (doc res))) ->
  extract_tables cfg = true ->
  exists txt w',
    export_outputs cfg res base w = (w', Ok tt) /\
    dir_of w' base !! (base +:+ ".txt") = Some txt /\
    forall pre tbl post,
      iterate_items (doc res) = pre ++ TableItem tbl :: post ->
      let i := S (length (stream_tables pre)) in
      i <= length (stream_tables (iterate_items (doc res))) /\
      exists df l1 l2,
        export_to_dataframe tbl = Ok df /\
        txt = Py.join (nl +:+ nl)
                (l1 ++ [table_label i; to_string df] ++ l2) /\
        dir_of w' base !! csv_name base i = Some (to_csv df).
Proof.
  intros Hall Htables Hon.
  destruct (txt_loop_total base (sorted_pngs (dir_of w base)) txt_init _ Hall)
    as [st Hst].
  assert (Htxt : annotated_text base (sorted_pngs (dir_of w base))
                   (iterate_items (doc res))
                 = Ok (Py.join (nl +:+ nl) (lines st))).
  { unfold annotated_text. by rewrite Hst. }
  destruct (stream_tables_frames _ Hall) as [dfs Hdfs].
  assert (Hexp : tables_exported cfg (doc res) dfs).
  { unfold tables_exported. by rewrite Hon, Htables. }
  pose proof (export_outputs_eq cfg res base w _ dfs Htxt Hexp) as Heq.
  eexists _, _. split; [exact Heq|].
  rewrite dir_of_set_dir. split.
  - apply write_all_lookup; [apply all_writes_NoDup|].
    apply elem_of_app; left. unfold doc_writes.
    rewrite !elem_of_cons. auto 10.
  - intros pre tbl post Hels i.
    assert (Hk : stream_tables (iterate_items (doc res))
                 !! length (stream_tables pre) = Some tbl).
    { rewrite Hels, stream_tables_app. simpl.
      by rewrite list_lookup_middle. }
    split; [by apply lookup_lt_Some in Hk|].
    destruct (Forall2_lookup_l _ _ _ _ _ Hdfs Hk) as (df & Hdf & Htbl).
    rewrite Hels in Htxt.
    apply table_block_in_text in Htxt as (df' & st' & l2 & Hdf' & _ & Hjoin).
    rewrite Htbl in Hdf'. injection Hdf' as <-.
    exists df, (lines st'), l2. split; [done|]. split; [done|].
    apply write_all_lookup; [apply all_writes_NoDup|].
    apply elem_of_app; right.
    by apply (csv_writes_elem base 1 dfs (length (stream_tables pre))).
Qed.

End ExportStage.

(** ** Spreadsheet inputs *)

Section Spreadsheets.
Context `{Externals}.
Implicit Types (w : world) (base sh : string).

Lemma sheet_ext_nonempty e : e ∈ sheet_exts -> e <> EmptyString.
Proof.
  unfold sheet_exts. rewrite !elem_of_cons, !elem_of_nil.
  intros He Hnil. subst e.
  destruct He as [He|[He|[He|[He|[]]]]]; discriminate He.
Qed.

Lemma sheet_ext_inj pfx1 pfx2 e1 e2 :
  e1 ∈ sheet_exts -> e2 ∈ sheet_exts ->
  pfx1 +:+ e1 = pfx2 +:+ e2 -> pfx1 = pfx2 /\ e1 = e2.
Proof.
  intros He1 He2 Heq.
  assert (Hlast : last_char e1 = last_char e2).
  { apply (f_equal last_char) in Heq.
    by rewrite !last_char_app in Heq by by apply sheet_ext_nonempty. }
  unfold sheet_exts in He1, He2.
  rewrite !elem_of_cons, !elem_of_nil in He1, He2.
  assert (He : e1 = e2).
  { destruct He1 as [H1|[H1|[H1|[H1|[]]]]];
      destruct He2 as [H2|[H2|[H2|[H2|[]]]]]; subst e1 e2; done. }
  subst e2. split; [|done]. by apply str_app_inv_tail in Heq.
Qed.

Lemma sheet_group_names base sh df fname :
  fname ∈ (sheet_group base sh df).*1 <->
  exists e, e ∈ sheet_exts /\ fname = (base +:+ "_" +:+ sh) +:+ e.
Proof.
  unfold sheet_group, sheet_exts. simpl.
  rewrite !elem_of_cons, !elem_of_nil. split.
  - intros [->|[->|[->|[->|[]]]]]; eexists; split; try reflexivity;
      rewrite !elem_of_cons; auto.
  - intros (e & He & ->). rewrite !elem_of_cons, elem_of_nil in He.
    destruct He as [->|[->|[->|[->|[]]]]]; auto.
Qed.

Lemma sheet_group_NoDup base sh df : NoDup (sheet_group base sh df).*1.
Proof.
  simpl. repeat constructor; rewrite ?elem_of_cons, ?elem_of_nil;
    intros Hin; repeat destruct Hin as [Hin|Hin]; try done;
    apply sheet_ext_inj in Hin as [_ ?]; try done;
    unfold sheet_exts; rewrite !elem_of_cons; auto.
Qed.

Lemma sheet_writes_names base sheets fname :
  fname ∈ (sheet_writes base sheets).*1 ->
  exists sh e, sh ∈ sheets.*1 /\ e ∈ sheet_exts /\
               fname = (base +:+ "_" +:+ sh) +:+ e.
Proof.
  unfold sheet_writes. intros Hin.
  apply list_elem_of_fmap in Hin as ([n c] & -> & Hin).
  apply list_elem_of_bind in Hin as ([sh df] & Hin & Hsh). simpl in *.
  assert (Hn : n ∈ (sheet_group base sh df).*1).
  { apply list_elem_of_fmap. by exists (n, c). }
  apply sheet_group_names in Hn as (e & He & ->).
  exists sh, e. split; [|done].
  apply list_elem_of_fmap. by exists (sh, df).
Qed.

(** Distinct sheet names give disjoint groups of distinct files. *)
Lemma sheet_writes_NoDup base sheets :
  NoDup sheets.*1 -> NoDup (sheet_writes base sheets).*1.
Proof.
  unfold sheet_writes.
  induction sheets as [|[sh df] sheets IH]; intros Hnd; [constructor|].
  simpl in Hnd. apply NoDup_cons in Hnd as [Hsh Hnd].
  cbn [mbind list_bind]. rewrite fmap_app. apply NoDup_app.
  split; [apply sheet_group_NoDup|]. split; [|by apply IH].
  intros fname Hg Hrest.
  apply (sheet_group_names base sh df) in Hg as (e & He & ->).
  apply sheet_writes_names in Hrest as (sh' & e' & Hsh' & He' & Heq).
  apply sheet_ext_inj in Heq as [Heq _]; [|done..].
  apply (inj (String.app base)) in Heq.
  apply (inj (String.app "_")) in Heq. by subst sh'.
Qed.

(** A sheet file is none of [<base>.md], [<base>.html], [<base>.json],
    [<base>.txt]. *)
Lemma sheet_name_not_dotted base sh e e' :
  (base +:+ "_" +:+ sh) +:+ e <> base +:+ String "." e'.
Proof.
  rewrite str_app_assoc. intros Heq.
  apply (inj (String.app base)) in Heq.
  rewrite str_app_assoc, str_app_cons in Heq. discriminate.
Qed.

Lemma write_sheets_eq base sheets w d :
  fs w !! base = Some d ->
  write_sheets base sheets w =
  (set_dir w base (write_all (sheet_writes base sheets) d), Ok tt).
Proof.
  revert w d. induction sheets as [|[sh df] sheets IH]; intros w d Hd.
  - simpl. by rewrite set_dir_id.
  - cbn [write_sheets].
    rewrite (bind_ok _ _ _ _ _ (write_text_eq _ _ _ _)).
    rewrite (bind_ok _ _ _ _ _ (write_text_eq _ _ _ _)).
    rewrite (bind_ok _ _ _ _ _ (write_text_eq _ _ _ _)).
    rewrite (bind_ok _ _ _ _ _ (write_text_eq _ _ _ _)).
    rewrite !dir_of_set_dir, !set_dir_set_dir.
    erewrite IH by apply lookup_set_dir.
    rewrite set_dir_set_dir. unfold dir_of. rewrite Hd. reflexivity.
Qed.

End Spreadsheets.

(** ** One iteration of the conversion loop *)

Section ProcessFile.
Context `{Externals}.
Implicit Types (w : world) (f : upload) (cfg : settings).

Lemma mkdir_eq base w : mkdir base w = (set_dir w base (dir_of w base), Ok tt).
Proof.
  unfold mkdir, set_dir, dir_of. f_equal.
  destruct (fs w !! base) as [d|] eqn:Hd; simpl; [|done].
  by rewrite insert_id.
Qed.

(** A spreadsheet with [extract_tables] set and a readable workbook. *)
Lemma process_file_xlsx cfg total idx f results w sheets :
  ext_of (name f) = "xlsx" ->
  extract_tables cfg = true ->
  read_excel (read f) = Ok sheets ->
  exists w',
    process_file cfg total idx f results w = (w', Ok results) /\
    fs w' = <[Py.stem (name f) :=
               write_all (sheet_writes (Py.stem (name f)) sheets)
                 (dir_of w (Py.stem (name f)))]> (fs w) /\
    ui w' = ui w ++ [StatusProcessing (name f) idx total; Progress idx total].
Proof.
  unfold ext_of. intros Hext Hon Hread. unfold process_file.
  erewrite bind_ok by reflexivity.
  rewrite (bind_ok _ _ _ _ _ (mkdir_eq _ _)).
  rewrite decide_True by done. rewrite Hon, Hread.
  erewrite bind_ok; last first.
  { erewrite bind_ok by reflexivity.
    apply write_sheets_eq, lookup_set_dir. }
  erewrite bind_ok by reflexivity.
  eexists. split; [reflexivity|]. simpl. unfold dir_of; simpl.
  rewrite ?insert_insert_eq, ?lookup_insert_eq, <- ?app_assoc.
  split; reflexivity.
Qed.

(** A spreadsheet with [extract_tables] off: the workbook is not read. *)
Lemma process_file_xlsx_off cfg total idx f results w :
  ext_of (name f) = "xlsx" ->
  extract_tables cfg = false ->
  exists w',
    process_file cfg total idx f results w = (w', Ok results) /\
    fs w' = <[Py.stem (name f) := dir_of w (Py.stem (name f))]> (fs w) /\
    ui w' = ui w ++ [StatusProcessing (name f) idx total; Progress idx total].
Proof.
  unfold ext_of. intros Hext Hoff. unfold process_file.
  erewrite bind_ok by reflexivity.
  rewrite (bind_ok _ _ _ _ _ (mkdir_eq _ _)).
  rewrite decide_True by done. rewrite Hoff.
  erewrite bind_ok by reflexivity.
  erewrite bind_ok by reflexivity.
  eexists. split; [reflexivity|]. simpl. unfold dir_of; simpl.
  split; [done|by rewrite <- app_assoc].
Qed.

(** Any other input whose conversion returns and whose export stage
    meets no exception; the status of the result plays no part. *)
Lemma process_file_doc cfg total idx f results w res txt dfs :
  ext_of (name f) <> "xlsx" ->
  convert_all cfg f = Ok res ->
  annotated_text (Py.stem (name f))
    (sorted_pngs (dir_of w (Py.stem (name f))))
    (iterate_items (doc res)) = Ok txt ->
  tables_exported cfg (doc res) dfs ->
  exists w',
    process_file cfg total idx f results w = (w', Ok (results ++ [res])) /\
    fs w' = <[Py.stem (name f) :=
               write_all (doc_writes (Py.stem (name f)) res txt ++
                          csv_writes (Py.stem (name f)) 1 dfs)
                 (dir_of w (Py.stem (name f)))]> (fs w) /\
    ui w' = ui w ++ [StatusProcessing (name f) idx total; Progress idx total].
Proof.
  unfold ext_of. intros Hext Hconv Htxt Hdfs. unfold process_file.
  erewrite bind_ok by reflexivity.
  rewrite (bind_ok _ _ _ _ _ (mkdir_eq _ _)).
  rewrite decide_False by done.
  erewrite bind_ok; last first.
  { destruct (decide (_ = "pdf")); rewrite Hconv; reflexivity. }
  erewrite bind_ok; last first.
  { apply export_outputs_eq; [|exact Hdfs].
    rewrite dir_of_set_dir. exact Htxt. }
  erewrite bind_ok by reflexivity.
  eexists. split; [reflexivity|]. simpl. unfold dir_of; simpl.
  rewrite ?insert_insert_eq, ?lookup_insert_eq, <- ?app_assoc.
  split; reflexivity.
Qed.

End ProcessFile.

(** ** Locality of a job to its directory *)

Section Locality.
Context `{Externals}.
Implicit Types (w : world) (base : string).

Lemma local_ret base {A} (a : A) : local_to base (mret a : M A).
Proof. split; [done|]. intros w1 w2 Hd. done. Qed.

Lemma local_lift base {A} (r : result A) : local_to base (lift r).
Proof. split; [done|]. intros w1 w2 Hd. done. Qed.

Lemma local_emit base e : local_to base (emit e).
Proof. split; [done|]. intros w1 w2 Hd. done. Qed.

Lemma local_glob base : local_to base (glob_png base).
Proof.
  split; [done|]. intros w1 w2 Hd. split; [done|].
  unfold glob_png; simpl. fold (dir_of w1 base) (dir_of w2 base).
  by rewrite Hd.
Qed.

Lemma local_write base fname c : local_to base (write_text base fname c).
Proof.
  split.
  - intros w b Hb. rewrite write_text_eq. simpl.
    by apply dir_of_set_dir_ne.
  - intros w1 w2 Hd. rewrite !write_text_eq. simpl.
    by rewrite !dir_of_set_dir, Hd.
Qed.

Lemma local_mkdir base : local_to base (mkdir base).
Proof.
  split.
  - intros w b Hb. rewrite mkdir_eq. simpl. by apply dir_of_set_dir_ne.
  - intros w1 w2 Hd. rewrite !mkdir_eq. simpl.
    by rewrite !dir_of_set_dir.
Qed.

Lemma local_bind base {A B} (m : M A) (k : A -> M B) :
  local_to base m -> (forall a, local_to base (k a)) ->
  local_to base (m ≫= k).
Proof.
  intros [Hfm Hdm] Hk. split.
  - intros w b Hb. unfold mbind, M_bind.
    specialize (Hfm w b Hb).
    destruct (m w) as [w' [a|e]]; simpl in *; [|done].
    destruct (Hk a) as [Hfk _]. by rewrite Hfk.
  - intros w1 w2 Hd. unfold mbind, M_bind.
    destruct (Hdm w1 w2 Hd) as [Hd' Hr].
    destruct (m w1) as [w1' [a1|e1]], (m w2) as [w2' [a2|e2]];
      simpl in *; simplify_eq; [|done].
    destruct (Hk a2) as [_ Hdk]. by apply Hdk.
Qed.

Create HintDb local discriminated.
Hint Resolve local_ret local_lift local_emit local_glob local_write
  local_mkdir : local.
Hint Extern 2 (local_to _ (_ ≫= _)) =>
  apply local_bind; [|intros ?] : local.

Lemma local_export_tables_loop base i tbls paths :
  local_to base (export_tables_loop base i tbls paths).
Proof.
  revert i paths. induction tbls as [|tbl tbls IH]; intros i paths;
    cbn [export_tables_loop]; auto 10 with local.
Qed.

Lemma local_export_tables d base flag :
  local_to base (export_tables d base flag).
Proof.
  unfold export_tables. destruct flag, (tables d);
    auto using local_export_tables_loop with local.
Qed.

Lemma local_generate_txt res base : local_to base (generate_txt res base).
Proof. unfold generate_txt. auto 10 with local. Qed.

Lemma local_write_sheets base sheets : local_to base (write_sheets base sheets).
Proof.
  induction sheets as [|[sh df] sheets IH]; cbn [write_sheets];
    auto 10 with local.
Qed.

Lemma local_save_referenced base fname c :
  local_to base (save_referenced base fname c).
Proof. unfold save_referenced, makedirs. auto with local. Qed.

Hint Resolve local_save_referenced : local.

Lemma local_export_outputs cfg res base :
  local_to base (export_outputs cfg res base).
Proof.
  unfold export_outputs.
  auto 12 using local_generate_txt, local_export_tables with local.
Qed.

(** A job is local to the directory named by the stem of its file. *)
Lemma local_process_file cfg total idx f results :
  local_to (Py.stem (name f)) (process_file cfg total idx f results).
Proof.
  unfold process_file.
  apply local_bind; [auto with local|intros _].
  apply local_bind; [auto with local|intros _].
  destruct (decide (_ = "xlsx")).
  - apply local_bind; [|intros _; auto 6 with local].
    destruct (extract_tables cfg);
      auto 6 using local_write_sheets with local.
  - apply local_bind.
    + destruct (decide (_ = "pdf")); auto with local.
    + intros res. auto 8 using local_export_outputs with local.
Qed.

End Locality.

(** ** The conversion loop and the archive *)

Section Batch.
Context `{Externals}.
Implicit Types (w : world) (f : upload) (cfg : settings).

(** The loop leaves alone every directory that is no job's. *)
Lemma convert_loop_frame cfg total idx files results w b :
  b ∉ stems files ->
  dir_of (convert_loop cfg total idx files results w).1 b = dir_of w b.
Proof.
  revert idx results w.
  induction files as [|f files IH]; intros idx results w Hb; [done|].
  unfold stems in Hb. simpl in Hb. apply not_elem_of_cons in Hb as [Hne Hb].
  cbn [convert_loop]. unfold mbind, M_bind.
  destruct (local_process_file cfg total idx f results) as [Hframe _].
  specialize (Hframe w b Hne).
  destruct (process_file cfg total idx f results w) as [w1 [r1|e]];
    simpl in *; [|done].
  by rewrite IH.
Qed.

(** After a batch of files with distinct stems, however the loop ends,
    the directory of a job is as it was, when the loop did not get to
    the job, or is the one the job makes when run on the initial working
    area. *)
Lemma convert_loop_dirs cfg total idx files results w :
  NoDup (stems files) ->
  forall k f, files !! k = Some f ->
    dir_of (convert_loop cfg total idx files results w).1 (Py.stem (name f))
      = dir_of w (Py.stem (name f)) \/
    exists results_k,
      dir_of (convert_loop cfg total idx files results w).1 (Py.stem (name f))
      = dir_of (process_file cfg total (idx + k) f results_k w).1
          (Py.stem (name f)).
Proof.
  revert idx results w.
  induction files as [|f0 files IH]; intros idx results w Hnd k f Hk;
    [done|].
  unfold stems in Hnd. simpl in Hnd. apply NoDup_cons in Hnd as [Hf0 Hnd].
  assert (Hother : forall g, g ∈ files -> Py.stem (name g) <> Py.stem (name f0)).
  { intros g Hg Heq. apply Hf0. rewrite <- Heq.
    apply list_elem_of_fmap. by exists g. }
  destruct (local_process_file cfg total idx f0 results) as [Hframe _].
  cbn [convert_loop]. unfold mbind, M_bind.
  destruct (process_file cfg total idx f0 results w) as [w1 [r1|e]] eqn:Hp.
  - destruct k as [|k]; simpl in Hk.
    + injection Hk as ->. right. exists results.
      rewrite Nat.add_0_r, Hp. simpl.
      by apply convert_loop_frame.
    + assert (Hne : Py.stem (name f) <> Py.stem (name f0)).
      { apply Hother. by eapply list_elem_of_lookup_2. }
      assert (Hw1 : dir_of w1 (Py.stem (name f)) = dir_of w (Py.stem (name f))).
      { rewrite <- (Hframe w _ Hne). by rewrite Hp. }
      destruct (IH (S idx) r1 w1 Hnd k f Hk) as [Hsame|[results_k Hdir]].
      * left. by rewrite Hsame.
      * right. exists results_k. rewrite Hdir.
        replace (idx + S k) with (S idx + k) by lia.
        destruct (local_process_file cfg total (S idx + k) f results_k)
          as [_ Hdep].
        by apply Hdep.
  - simpl. destruct k as [|k]; simpl in Hk.
    + injection Hk as ->. right. exists results.
      by rewrite Nat.add_0_r, Hp.
    + left. rewrite <- (Hframe w (Py.stem (name f))); [by rewrite Hp|].
      apply Hother. by eapply list_elem_of_lookup_2.
Qed.

(** The members of the archive: one per file of a directory, under the
    name [arcname] builds from the directory name and the file name. *)
Lemma build_zip_members a arc c :
  (arc, c) ∈ build_zip a <->
  exists b d fname,
    a !! b = Some d /\ d !! fname = Some c /\ arc = arcname b fname.
Proof.
  unfold build_zip, zip_listing, zip_dir. rewrite list_elem_of_bind. split.
  - intros ([b l] & Hin & Hl). simpl in *.
    apply list_elem_of_fmap in Hl as ([b' d] & [= -> ->] & Hd).
    apply elem_of_map_to_list in Hd.
    apply list_elem_of_fmap in Hin as ([fname c'] & [= -> ->] & Hf).
    apply elem_of_map_to_list in Hf. simpl. eauto 6.
  - intros (b & d & fname & Hb & Hf & ->).
    exists (b, map_to_list d). simpl. split.
    + apply list_elem_of_fmap. exists (fname, c). split; [done|].
      by apply elem_of_map_to_list.
    + apply list_elem_of_fmap. exists (b, d). split; [done|].
      by apply elem_of_map_to_list.
Qed.

(** C8 (as the program behaves). Working-directory isolation for uploads
    with ordinary names and pairwise distinct stems, on a working area
    whose directories have plain names.  A job changes no directory but
    the one named by the stem of its file, whatever it is run on.
    However the batch ends, the directory of a job is as it was before
    the batch (the loop stopped before the job) or holds exactly what the
    job leaves when it runs alone on the initial working area, so nothing
    of another job is in it; a directory that is no job's is as it was.
    Every member of the archive comes from one entry of one directory,
    and a member whose name starts with [<stem>/] comes from the
    directory of that job. *)
Theorem C8_isolation_distinct_stems cfg files w :
  Forall (fun f => ordinary (name f)) files ->
  NoDup (stems files) ->
  (forall b, is_Some (fs w !! b) -> no_slash b) ->
  let w' := (convert_loop cfg (length files) 1 files [] w).1 in
  (forall k f, files !! k = Some f ->
     (forall results w0 b, b <> Py.stem (name f) ->
        dir_of (process_file cfg (length files) (1 + k) f results w0).1 b
        = dir_of w0 b) /\
     (dir_of w' (Py.stem (name f)) = dir_of w (Py.stem (name f)) \/
      exists results_k,
        dir_of w' (Py.stem (name f)) =
        dir_of (process_file cfg (length files) (1 + k) f results_k w).1
          (Py.stem (name f)))) /\
  (forall b, b ∉ stems files -> dir_of w' b = dir_of w b) /\
  (forall arc c, (arc, c) ∈ build_zip (fs w') ->
     exists b key,
       dir_of w' b !! key = Some c /\ arc = arcname b key) /\
  (forall f rest c,
     f ∈ files ->
     (Py.stem (name f) +:+ String "/" rest, c) ∈ build_zip (fs w') ->
     exists key,
       dir_of w' (Py.stem (name f)) !! key = Some c /\
       Py.stem (name f) +:+ String "/" rest = arcname (Py.stem (name f)) key).
Proof.
  intros Hord Hnd Harea w'. subst w'.
  assert (Hmem : forall arc c,
            (arc, c) ∈ build_zip
                         (fs (convert_loop cfg (length files) 1 files [] w).1) ->
            exists b key,
              dir_of (convert_loop cfg (length files) 1 files [] w).1 b !! key
                = Some c /\
              arc = arcname b key).
  { intros arc c Hin.
    apply build_zip_members in Hin as (b & d & key & Hb & Hf & ->).
    exists b, key. unfold dir_of. rewrite Hb. by split. }
  split; [|split; [|split]].
  - intros k f Hk. split.
    + intros results w0 b Hb.
      by apply (local_process_file cfg (length files) (1 + k) f results).
    + by apply convert_loop_dirs.
  - intros b Hb. by apply convert_loop_frame.
  - exact Hmem.
  - intros f rest c Hf Hin.
    destruct (Hmem _ c Hin) as (b & key & Hkey & Harc).
    rewrite Forall_forall in Hord.
    assert (Hsb : no_slash b).
    { destruct (decide (b ∈ stems files)) as [Hst|Hst].
      - apply list_elem_of_fmap in Hst as (g & -> & Hg).
        by destruct (Hord g Hg) as (_ & _ & _ & _ & ?).
      - rewrite (convert_loop_frame _ _ _ _ _ _ _ Hst) in Hkey.
        apply Harea. unfold dir_of in Hkey.
        destruct (fs w !! b) as [d|]; [done|]. simpl in Hkey.
        by rewrite lookup_empty in Hkey. }
    assert (Hsf : no_slash (Py.stem (name f))).
    { by destruct (Hord f Hf) as (_ & _ & _ & _ & ?). }
    destruct (arcname_prefix b key) as [rest' Hrest].
    rewrite Hrest in Harc.
    apply first_slash_split in Harc as [Hb Hr]; [|exact Hsf|exact Hsb].
    subst b rest'. exists key. split; [done|]. by rewrite Hrest.
Qed.

End Batch.

(** ** Archive layout *)

Section Archive.
Context `{Externals}.




(** The kinds of the files the pipeline itself writes for a document
    with a non-empty stem. *)
Lemma pipeline_artifact_kinds base i :
  base <> EmptyString ->
  kind_of_file (base +:+ ".md") = StructuredMarkup /\
  kind_of_file (base +:+ ".html") = HtmlLikeMarkup /\
  kind_of_file (base +:+ ".json") = MachineRecord /\
  kind_of_file (base +:+ ".txt") = AnnotatedText /\
  kind_of_file (csv_name base i) = TabularCsv.
Proof.
  intros Hbase. unfold kind_of_file.
  rewrite !suffix_app_ext by done.
  repeat (split; [reflexivity|]).
  unfold csv_name. rewrite <- !str_app_assoc.
  rewrite suffix_app_ext; [reflexivity| |done|done].
  rewrite !str_app_assoc. intros Heq.
  apply (f_equal String.length) in Heq.
  rewrite !str_length_app in Heq. simpl in Heq. lia.
Qed.


End Archive.

Section SpreadsheetClaim.
Context `{Externals}.

(** C7. Spreadsheet bypass: for an [xlsx] input with an ordinary name
    (its stem names a sub-directory of [artifacts/]) and with
    [extract_tables] set, whose workbook reads as the sheets [sheets] (a
    dict: the names are distinct; sheet names hold no path separator,
    which Excel does not allow), the iteration returns without calling
    the converter or adding a conversion result; the job's directory
    receives, for each sheet, the group
    [<stem>_<sheet>.csv/.md/.html/.txt] with the renderings of that
    sheet, and nothing else: the groups have distinct keys, one per
    sheet (two sheets, two groups), and no file [<stem>.<ext>] of a
    converted document is written. *)
Theorem C7_spreadsheet_bypass cfg total idx f results w sheets :
  ordinary (name f) ->
  ext_of (name f) = "xlsx" ->
  extract_tables cfg = true ->
  read_excel (read f) = Ok sheets ->
  NoDup sheets.*1 ->
  Forall (fun p => no_slash p.1) sheets ->
  let base := Py.stem (name f) in
  exists w',
    process_file cfg total idx f results w = (w', Ok results) /\
    fs w' = <[base := write_all (sheet_writes base sheets) (dir_of w base)]>
              (fs w) /\
    (forall sh df fname c,
       (sh, df) ∈ sheets -> (fname, c) ∈ sheet_group base sh df ->
       dir_of w' base !! fname = Some c) /\
    NoDup ((fun p => base +:+ "_" +:+ p.1) <$> sheets) /\
    length ((fun p => base +:+ "_" +:+ p.1) <$> sheets) = length sheets /\
    (forall e,
       dir_of w' base !! (base +:+ String "." e) =
       dir_of w base !! (base +:+ String "." e)).
Proof.
  intros _ Hext Hon Hread Hnd _ base.
  destruct (process_file_xlsx cfg total idx f results w sheets Hext Hon Hread)
    as (w' & Hrun & Hfs & _).
  exists w'. split; [done|]. split; [done|].
  assert (Hdir : dir_of w' base =
                 write_all (sheet_writes base sheets) (dir_of w base)).
  { unfold dir_of at 1. rewrite Hfs. by rewrite lookup_insert_eq. }
  split; [|split; [|split]].
  - intros sh df fname c Hsh Hfile. rewrite Hdir.
    apply write_all_lookup; [by apply sheet_writes_NoDup|].
    unfold sheet_writes. apply list_elem_of_bind. by exists (sh, df).
  - clear -Hnd. induction sheets as [|[sh df] sheets IH]; [constructor|].
    simpl in *. apply NoDup_cons in Hnd as [Hsh Hnd].
    constructor; [|by apply IH].
    intros Hin. apply list_elem_of_fmap in Hin as ([sh' df'] & Heq & Hin).
    simpl in Heq. apply (inj (String.app base)) in Heq.
    apply (inj (String.app "_")) in Heq. subst sh'.
    apply Hsh. apply list_elem_of_fmap. by exists (sh, df').
  - by rewrite length_fmap.
  - intros e. rewrite Hdir. apply write_all_lookup_ne.
    intros Hin. apply sheet_writes_names in Hin as (sh & e' & _ & _ & Heq).
    symmetry in Heq. by apply sheet_name_not_dotted in Heq.
Qed.

End SpreadsheetClaim.

(** ** A batch in which every call returns *)

Section BatchReturns.
Context `{Externals}.
Implicit Types (w : world) (f : upload) (cfg : settings).

Lemma write_all_is_Some ws d fname :
  is_Some (d !! fname) \/ fname ∈ ws.*1 -> is_Some (write_all ws d !! fname).
Proof.
  revert d. induction ws as [|[n c] ws IH]; intros d Hor; simpl in *.
  - destruct Hor as [?|Hin]; [done|]. by apply elem_of_nil in Hin.
  - apply IH. destruct (decide (n = fname)) as [->|Hne].
    + left. rewrite lookup_insert_eq. eauto.
    + destruct Hor as [?|Hin].
      * left. by rewrite lookup_insert_ne.
      * right. apply elem_of_cons in Hin as [?|?]; [congruence|done].
Qed.

Lemma tables_exported_exists cfg d :
  (extract_tables cfg = true ->
   forall tbls, tables d = Some tbls -> Forall table_ok tbls) ->
  exists dfs, tables_exported cfg d dfs.
Proof.
  unfold tables_exported. intros Hok.
  destruct (extract_tables cfg); [|by exists []].
  destruct (tables d) as [tbls|]; [|by exists []].
  specialize (Hok eq_refl tbls eq_refl).
  induction Hok as [|tbl tbls [df Hdf] _ [dfs IH]]; [by exists []|].
  exists (df :: dfs). by constructor.
Qed.

(** One job whose calls return: the iteration returns, writes into the
    job's directory only, and shows the two progress events. *)
Lemma process_file_returns cfg total idx f results w :
  job_returns cfg f ->
  exists w' rs ws,
    process_file cfg total idx f results w = (w', Ok rs) /\
    fs w' = <[Py.stem (name f) :=
               write_all ws (dir_of w (Py.stem (name f)))]> (fs w) /\
    ui w' = ui w ++ [StatusProcessing (name f) idx total; Progress idx total] /\
    (ext_of (name f) <> "xlsx" ->
     forall key, key ∈ doc_entries (Py.stem (name f)) -> key ∈ ws.*1).
Proof.
  unfold job_returns. intros Hjob.
  destruct (decide (ext_of (name f) = "xlsx")) as [Hx|Hx].
  - destruct (extract_tables cfg) eqn:Hon.
    + destruct (Hjob eq_refl) as [sheets Hread].
      destruct (process_file_xlsx cfg total idx f results w sheets Hx Hon Hread)
        as (w' & Hrun & Hfs & Hui).
      exists w', results, (sheet_writes (Py.stem (name f)) sheets).
      repeat (split; [done|]). done.
    + destruct (process_file_xlsx_off cfg total idx f results w Hx Hon)
        as (w' & Hrun & Hfs & Hui).
      exists w', results, []. repeat (split; [done|]). done.
  - destruct Hjob as (res & Hconv & Hall & Htbls).
    destruct (txt_loop_total (Py.stem (name f))
                (sorted_pngs (dir_of w (Py.stem (name f)))) txt_init _ Hall)
      as [st Hst].
    destruct (tables_exported_exists cfg (doc res) Htbls) as [dfs Hdfs].
    edestruct (process_file_doc cfg total idx f results w res) as
      (w' & Hrun & Hfs & Hui); [done|done| |exact Hdfs|].
    { unfold annotated_text. rewrite Hst. reflexivity. }
    eexists w', _, _. repeat (split; [done|]).
    intros _ key Hkey. rewrite fmap_app. apply elem_of_app; left.
    exact Hkey.
Qed.

(** The loop over such a batch returns; files are only added. *)
Lemma convert_loop_returns cfg total idx files results w :
  Forall (job_returns cfg) files ->
  exists w' rs,
    convert_loop cfg total idx files results w = (w', Ok rs) /\
    ui w' = ui w ++ progress_events total idx files /\
    (forall b fname, is_Some (dir_of w b !! fname) ->
                     is_Some (dir_of w' b !! fname)) /\
    (forall f, f ∈ files -> ext_of (name f) <> "xlsx" ->
       forall key, key ∈ doc_entries (Py.stem (name f)) ->
         is_Some (dir_of w' (Py.stem (name f)) !! key)).
Proof.
  intros Hall. revert idx results w.
  induction Hall as [|f files Hf _ IH]; intros idx results w.
  - exists w, results. simpl. rewrite app_nil_r.
    repeat split; try done. intros f Hin. by apply elem_of_nil in Hin.
  - destruct (process_file_returns cfg total idx f results w Hf)
      as (w1 & r1 & ws & Hrun & Hfs & Hui & Hdoc).
    destruct (IH (S idx) r1 w1) as (w' & rs & Hloop & Hui' & Hkeep & Hfiles).
    exists w', rs. cbn [convert_loop].
    rewrite (bind_ok _ _ _ _ _ Hrun). split; [done|].
    assert (Hkeep1 : forall b fname,
               is_Some (dir_of w b !! fname) \/
               (b = Py.stem (name f) /\ fname ∈ ws.*1) ->
               is_Some (dir_of w1 b !! fname)).
    { intros b fname Hor. unfold dir_of at 1. rewrite Hfs.
      destruct (decide (Py.stem (name f) = b)) as [<-|Hne].
      - rewrite lookup_insert_eq. simpl. apply write_all_is_Some.
        destruct Hor as [?|[_ ?]]; auto.
      - rewrite lookup_insert_ne by done.
        destruct Hor as [?|[? _]]; [done|congruence]. }
    split; [|split].
    + rewrite Hui', Hui, <- app_assoc. reflexivity.
    + intros b fname Hsome. apply Hkeep, Hkeep1. by left.
    + intros f' Hin Hx e He.
      apply elem_of_cons in Hin as [->|Hin]; [|by apply Hfiles].
      apply Hkeep, Hkeep1. right. split; [done|]. by apply Hdoc.
Qed.

(** C1 (as the program behaves). A batch of uploads with ordinary names
    in which every call returns: the converter is asked not to raise, and
    the status of a result is never read, so a result of status
    [FAILURE] is exported like any other.  With [export_mm] off, [main]
    returns the archive built from the working area the loop leaves; the
    page shows, for every file in turn, the same two progress events,
    then "Finalizing", the success message and the download button, and
    nothing else; and for every input that is not a spreadsheet the four
    renderings [<stem>.md/.html/.json/.txt] are in the archive, in their
    buckets, next to the member of the directory the renderers made. *)
Theorem C1_returned_results_are_all_exported cfg files w :
  export_mm cfg = false ->
  Forall (fun f => ordinary (name f)) files ->
  Forall (job_returns cfg) files ->
  exists w' zip,
    main cfg files w = (w', Ok zip) /\
    zip = build_zip (fs w') /\
    ui w' = ui w ++ progress_events (length files) 1 files ++
            [StatusFinalizing; SuccessAllDone; DownloadZip zip] /\
    (forall f, f ∈ files -> ext_of (name f) <> "xlsx" ->
       let base := Py.stem (name f) in
       (exists c, (base +:+ "/md/" +:+ base +:+ ".md", c) ∈ zip) /\
       (exists c, (base +:+ "/html/" +:+ base +:+ ".html", c) ∈ zip) /\
       (exists c, (base +:+ "/json/" +:+ base +:+ ".json", c) ∈ zip) /\
       (exists c, (base +:+ "/txt/" +:+ base +:+ ".txt", c) ∈ zip) /\
       (exists c, (arcname base (subdir (referenced_dir base)), c) ∈ zip)).
Proof.
  intros Hmm Hord Hall.
  destruct (convert_loop_returns cfg (length files) 1 files [] w Hall)
    as (w1 & rs & Hloop & Hui & _ & Hfiles).
  unfold main. rewrite (bind_ok _ _ _ _ _ Hloop), Hmm.
  erewrite bind_ok by reflexivity.
  erewrite bind_ok by reflexivity.
  erewrite bind_ok by reflexivity.
  erewrite bind_ok by reflexivity.
  erewrite bind_ok by reflexivity.
  eexists _, _. split; [reflexivity|]. simpl.
  split; [done|]. split.
  - rewrite Hui, <- !app_assoc. reflexivity.
  - intros f Hin Hx.
    assert (Hmem : forall key, key ∈ doc_entries (Py.stem (name f)) ->
              exists c, (arcname (Py.stem (name f)) key, c) ∈ build_zip (fs w1)).
    { intros key Hkey. destruct (Hfiles f Hin Hx key Hkey) as [c Hc].
      exists c. apply build_zip_members.
      unfold dir_of in Hc.
      destruct (fs w1 !! Py.stem (name f)) as [d|] eqn:Hd; [|done].
      simpl in Hc. eauto 6. }
    rewrite Forall_forall in Hord.
    destruct (Hord f Hin) as (_ & Hne & _).
    assert (Hext : forall e, e <> EmptyString -> Py.rfind "." e = None ->
              last_char (String "." e) <> Some "/"%char ->
              arcname (Py.stem (name f)) (Py.stem (name f) +:+ String "." e)
              = arc_path (Py.stem (name f))
                  (Py.stem (name f) +:+ String "." e) /\
              Py.suffix (Py.stem (name f) +:+ String "." e) = String "." e).
    { intros e He Hdot Hlast. split; [|by apply suffix_app_ext].
      apply arcname_file. by rewrite last_char_app. }
    unfold doc_entries in Hmem.
    repeat split.
    + destruct (Hmem (Py.stem (name f) +:+ ".md")) as [c Hc];
        [rewrite !elem_of_cons; auto 10|].
      exists c. destruct (Hext "md") as [Ha Hs]; [done..|].
      rewrite Ha in Hc. unfold arc_path in Hc. by rewrite Hs in Hc.
    + destruct (Hmem (Py.stem (name f) +:+ ".html")) as [c Hc];
        [rewrite !elem_of_cons; auto 10|].
      exists c. destruct (Hext "html") as [Ha Hs]; [done..|].
      rewrite Ha in Hc. unfold arc_path in Hc. by rewrite Hs in Hc.
    + destruct (Hmem (Py.stem (name f) +:+ ".json")) as [c Hc];
        [rewrite !elem_of_cons; auto 10|].
      exists c. destruct (Hext "json") as [Ha Hs]; [done..|].
      rewrite Ha in Hc. unfold arc_path in Hc. by rewrite Hs in Hc.
    + destruct (Hmem (Py.stem (name f) +:+ ".txt")) as [c Hc];
        [rewrite !elem_of_cons; auto 10|].
      exists c. destruct (Hext "txt") as [Ha Hs]; [done..|].
      rewrite Ha in Hc. unfold arc_path in Hc. by rewrite Hs in Hc.
    + apply Hmem. rewrite !elem_of_cons. auto.
Qed.

End BatchReturns.

(** ** The program run on concrete batches *)

(** C1, refuted as stated. With an engine that returns a [FAILURE] result
    for [bad.pdf], [main] returns an archive that holds the renderings of
    the failed conversion next to those of the valid files, and the page
    shows the same progress events for the three files followed by the
    success message: no job is marked or reported as failed.  With an
    engine that raises on [bad.pdf], [main] itself raises: the valid files
    are never processed and no archive is built. *)
Lemma C1_failed_job_archived_unreported :
  (exists w zip,
     @main Demo.returning (Demo.cfg false) Demo.mixed_batch Demo.empty_world
       = (w, Ok zip) /\
     ("bad/md/bad.md", "markdown:0") ∈ zip /\
     ("bad/txt/bad.txt", EmptyString) ∈ zip /\
     ui w = [StatusProcessing "bad.pdf" 1 3; Progress 1 3;
             StatusProcessing "ok1.docx" 2 3; Progress 2 3;
             StatusProcessing "ok2.docx" 3 3; Progress 3 3;
             StatusFinalizing; SuccessAllDone; DownloadZip zip]) /\
  (exists w,
     @main Demo.raising (Demo.cfg false) Demo.mixed_batch Demo.empty_world
       = (w, Raise ConversionError) /\
     fs w !! "ok1" = None /\ fs w !! "ok2" = None /\
     ui w = [StatusProcessing "bad.pdf" 1 3]).
Proof.
  split.
  - eexists _, _. split; [vm_compute; reflexivity|].
    split; [|split]; [| |reflexivity];
      apply (bool_decide_unpack _); vm_compute; exact I.
  - eexists. split; [vm_compute; reflexivity|].
    repeat split; vm_compute; reflexivity.
Qed.

(** C2, refuted as stated. A table whose export raises: the pass raises,
    no text is produced (no label, no marker, nothing of the paragraphs
    around the table), and [generate_txt] leaves the working area as it
    was. *)
Lemma C2_no_unavailable_marker :
  let E := Demo.externals [] [] in
  @annotated_text E "doc" []
    (iterate_items (doc Demo.with_broken_table)) = Raise TableExportError /\
  @generate_txt E Demo.with_broken_table "doc" Demo.empty_world
    = (Demo.empty_world, Raise TableExportError).
Proof. split; vm_compute; reflexivity. Qed.

(** C3, refuted as stated. (1) A document with one table that exports and
    one that does not: the export stage raises in the annotated-text pass,
    and the directory holds neither an annotated text nor a CSV file.
    (2) A document whose [tables] attribute lists the tables in another
    order than the stream: the text shows the grid of the first table of
    the stream under ["[Table 1]"], while [doc_table_1.csv] holds the
    other table. *)
Lemma C3_numbering_refuted :
  let E := Demo.externals [] [] in
  (let res := {| status := SUCCESS;
                 doc := {| iterate_items :=
                             [TableItem Demo.T1; TableItem Demo.broken];
                           tables := Some [Demo.T1; Demo.broken] |} |} in
   let r := @export_outputs E (Demo.cfg true) res "doc" Demo.empty_world in
   r.2 = Raise TableExportError /\
   dir_of r.1 "doc" !! "doc.txt" = None /\
   dir_of r.1 "doc" !! "doc_table_1.csv" = None) /\
  (let r := @export_outputs E (Demo.cfg true) Demo.tables_swapped "doc"
              Demo.empty_world in
   r.2 = Ok tt /\
   dir_of r.1 "doc" !! "doc.txt" =
     Some ("[Table 1]" +:+ nl +:+ nl +:+ Demo.grid [["a"; "b"]; ["1"; "2"]] +:+
           nl +:+ nl +:+
           "[Table 2]" +:+ nl +:+ nl +:+ Demo.grid [["c"; "d"]; ["3"; "4"]]) /\
   dir_of r.1 "doc" !! "doc_table_1.csv" =
     Some (Demo.commas [["c"; "d"]; ["3"; "4"]])).
Proof. repeat split; vm_compute; reflexivity. Qed.

(** C8, refuted as stated. Two inputs with the same stem share one
    directory: after the batch [report/report.md] is the rendering of the
    second input, not the one the first job wrote, and the archive holds a
    single [report/md/report.md]. *)
Lemma C8_shared_stem_refuted :
  let E := Demo.same_stem_engine in
  Py.stem "report.pdf" = Py.stem "report.docx" /\
  (let first := @process_file E (Demo.cfg false) 2 1 (Demo.file "report.pdf")
                  [] Demo.empty_world in
   dir_of first.1 "report" !! "report.md" = Some "markdown:1") /\
  (let r := @main E (Demo.cfg false) Demo.same_stem_batch Demo.empty_world in
   dir_of r.1 "report" !! "report.md" = Some "markdown:5" /\
   exists zip,
     r.2 = Ok zip /\
     filter (fun m => m.1 = "report/md/report.md") zip
       = [("report/md/report.md", "markdown:5")]).
Proof.
  split; [reflexivity|]. split; [vm_compute; reflexivity|].
  split; [vm_compute; reflexivity|].
  eexists. split; vm_compute; reflexivity.
Qed.

(** C5, refuted as stated. A Picture element followed by a table whose
    export raises: the pass has appended the label of the picture to
    [lines], then raises at the table; no text is produced and
    [generate_txt] writes nothing, so the label of the first picture is
    in no output. *)
Lemma C5_label_lost_refuted :
  let E := Demo.externals [] [] in
  let res := {| status := SUCCESS;
                doc := {| iterate_items := [PictureItem; TableItem Demo.broken];
                          tables := Some [Demo.broken] |} |} in
  @txt_step E "doc" [] txt_init PictureItem =
    Ok {| lines := ["[Image: doc_img_1.png]"]; ti := 0; pi := 1 |} /\
  @annotated_text E "doc" [] (iterate_items (doc res))
    = Raise TableExportError /\
  @generate_txt E res "doc" Demo.empty_world
    = (Demo.empty_world, Raise TableExportError).
Proof. repeat split; vm_compute; reflexivity. Qed.

(** C10, refuted as stated. (1) The working area is never cleaned: after
    a run with [extract_tables] set, a run of the same document with
    [extract_tables] off returns, and [doc_table_1.csv] is still in the
    directory next to the annotated text with its grid.  (2) A document
    with a table whose export raises: with [extract_tables] off the
    export stage raises and leaves no annotated text at all. *)
Lemma C10_stale_csv_refuted :
  let E := Demo.externals [] [] in
  (let w1 := (@export_outputs E (Demo.cfg true) Demo.good "doc"
                Demo.empty_world).1 in
   let r := @export_outputs E (Demo.cfg false) Demo.good "doc" w1 in
   extract_tables (Demo.cfg false) = false /\
   r.2 = Ok tt /\
   dir_of r.1 "doc" !! "doc.txt" =
     Some ("# Intro" +:+ nl +:+ nl +:+ "hello" +:+ nl +:+ nl +:+
           "[Table 1]" +:+ nl +:+ nl +:+ "a b" +:+ nl +:+ "1 2" +:+
           nl +:+ nl +:+ "[Image: doc_img_1.png]" +:+ nl +:+ nl +:+ "bye") /\
   dir_of r.1 "doc" !! "doc_table_1.csv" = Some ("a,b" +:+ nl +:+ "1,2")) /\
  (let r := @export_outputs E (Demo.cfg false) Demo.with_broken_table "doc"
              Demo.empty_world in
   r.2 = Raise TableExportError /\
   dir_of r.1 "doc" !! "doc.txt" = None).
Proof. repeat split; vm_compute; reflexivity. Qed.

(** ** The theorems at concrete inputs *)

(** The batch of one unreadable and two valid files, the engine returning
    a [FAILURE] result for the first. *)
Lemma C1_returned_results_witness :
  export_mm (Demo.cfg false) = false /\
  Forall (fun f => ordinary (name f)) Demo.mixed_batch /\
  exists w' zip,
    @main Demo.returning (Demo.cfg false) Demo.mixed_batch Demo.empty_world
      = (w', Ok zip) /\
    ui w' = [StatusProcessing "bad.pdf" 1 3; Progress 1 3;
             StatusProcessing "ok1.docx" 2 3; Progress 2 3;
             StatusProcessing "ok2.docx" 3 3; Progress 3 3;
             StatusFinalizing; SuccessAllDone; DownloadZip zip] /\
    (exists c, ("bad/md/bad.md", c) ∈ zip) /\
    (exists c, ("bad/bad_artifacts/", c) ∈ zip).
Proof.
  assert (Hord : Forall (fun f => ordinary (name f)) Demo.mixed_batch).
  { repeat constructor; apply (bool_decide_unpack _); vm_compute; exact I. }
  split; [reflexivity|]. split; [exact Hord|].
  destruct (@C1_returned_results_are_all_exported Demo.returning
              (Demo.cfg false) Demo.mixed_batch Demo.empty_world eq_refl Hord)
    as (w' & zip & Hmain & _ & Hui & Hfiles).
  - repeat constructor; unfold job_returns;
      (rewrite decide_False by (vm_compute; discriminate));
      eexists; (split; [vm_compute; reflexivity|]);
      (split; [repeat constructor; eexists; reflexivity|]);
      intros Hon; discriminate Hon.
  - exists w', zip. split; [exact Hmain|]. split; [exact Hui|].
    destruct (Hfiles (Demo.file "bad.pdf")) as (Hmd & _ & _ & _ & Hdir).
    + apply elem_of_cons. by left.
    + vm_compute. discriminate.
    + split; [exact Hmd|exact Hdir].
Defined.

(** The document with a table whose export raises. *)
Lemma C2_export_failure_witness :
  Exists (fun el => ~ exports_ok el)
    (iterate_items (doc Demo.with_broken_table)) /\
  exists e,
    @generate_txt (Demo.externals [] []) Demo.with_broken_table "doc"
      Demo.empty_world = (Demo.empty_world, Raise e).
Proof.
  assert (Hex : Exists (fun el => ~ exports_ok el)
                  (iterate_items (doc Demo.with_broken_table))).
  { apply Exists_cons_tl, Exists_cons_hd. intros [df Hdf]. discriminate Hdf. }
  split; [exact Hex|].
  exact (proj2 (@C2_export_failure_aborts_pass (Demo.externals [] []) "doc"
                  Demo.with_broken_table Demo.empty_world Hex)).
Defined.

(** The worked example with [extract_tables] set. *)
Lemma C3_table_numbering_witness :
  let E := Demo.externals [] [] in
  let w' := (@export_outputs E (Demo.cfg true) Demo.good "doc"
               Demo.empty_world).1 in
  extract_tables (Demo.cfg true) = true /\
  dir_of w' "doc" !! "doc_table_1.csv" = Some ("a,b" +:+ nl +:+ "1,2") /\
  exists txt w'',
    @export_outputs E (Demo.cfg true) Demo.good "doc" Demo.empty_world
      = (w'', Ok tt) /\
    dir_of w'' "doc" !! "doc.txt" = Some txt.
Proof.
  intros E w'. split; [reflexivity|]. split; [vm_compute; reflexivity|].
  destruct (@C3_table_numbering E (Demo.cfg true) Demo.good "doc"
              Demo.empty_world) as (txt & w'' & Hrun & Htxt & _).
  - repeat constructor. eexists; reflexivity.
  - reflexivity.
  - reflexivity.
  - exists txt, w''. by split.
Defined.

(** The worked example, from an empty working area: the fallback name
    is used for its picture. *)
Lemma C5_image_placeholder_witness :
  let E := Demo.externals [] [] in
  Forall exports_ok (iterate_items (doc Demo.good)) /\
  exists l1 l2,
    @generate_txt E Demo.good "doc" Demo.empty_world =
      (set_dir Demo.empty_world "doc"
         (<["doc.txt" :=
              Py.join (nl +:+ nl) (l1 ++ ["[Image: doc_img_1.png]"] ++ l2)]>
            (dir_of Demo.empty_world "doc")),
       Ok "doc.txt").
Proof.
  intros E.
  assert (Hall : Forall exports_ok (iterate_items (doc Demo.good))).
  { repeat constructor. eexists; reflexivity. }
  split; [exact Hall|].
  exact (proj2 (@C5_image_placeholder E Demo.good "doc" Demo.empty_world
                  [Heading 1 "Intro"; TextBlock "hello"; TableItem Demo.T1]
                  [TextBlock "bye"] eq_refl Hall)).
Defined.

(** A workbook with the sheets [Q1] and [Q2]. *)
Lemma C7_spreadsheet_bypass_witness :
  let E := Demo.externals [] [("book.xlsx", Demo.two_sheets)] in
  ordinary "book.xlsx" /\
  ext_of "book.xlsx" = "xlsx" /\
  exists w',
    @process_file E (Demo.cfg true) 1 1 (Demo.file "book.xlsx") []
      Demo.empty_world = (w', Ok []) /\
    dom (dir_of w' "book") =
      {["book_Q1.csv"; "book_Q1.md"; "book_Q1.html"; "book_Q1.txt";
        "book_Q2.csv"; "book_Q2.md"; "book_Q2.html"; "book_Q2.txt"]}.
Proof.
  intros E.
  assert (Hord : ordinary "book.xlsx").
  { apply (bool_decide_unpack _). vm_compute. exact I. }
  split; [exact Hord|]. split; [reflexivity|].
  destruct (@C7_spreadsheet_bypass E (Demo.cfg true) 1 1
              (Demo.file "book.xlsx") [] Demo.empty_world Demo.two_sheets)
    as (w' & Hrun & Hfs & _).
  - exact Hord.
  - reflexivity.
  - reflexivity.
  - reflexivity.
  - repeat constructor; rewrite ?elem_of_cons, ?elem_of_nil; intros Hin;
      repeat destruct Hin as [Hin|Hin]; done.
  - repeat constructor.
  - exists w'. split; [exact Hrun|].
    unfold dir_of. rewrite Hfs, lookup_insert_eq. simpl.
    apply (bool_decide_unpack _). vm_compute. exact I.
Defined.

(** The batch of three files with the stems [bad], [ok1], [ok2]. *)
Lemma C8_isolation_witness :
  let E := Demo.returning in
  let r := @convert_loop E (Demo.cfg false) 3 1 Demo.mixed_batch []
             Demo.empty_world in
  Forall (fun f => ordinary (name f)) Demo.mixed_batch /\
  NoDup (stems Demo.mixed_batch) /\
  (exists results_k,
     dir_of r.1 "ok1" =
     dir_of (@process_file E (Demo.cfg false) 3 2 (Demo.file "ok1.docx")
               results_k Demo.empty_world).1 "ok1") /\
  dir_of r.1 "other" = dir_of Demo.empty_world "other".
Proof.
  intros E r.
  assert (Hord : Forall (fun f => ordinary (name f)) Demo.mixed_batch).
  { repeat constructor; apply (bool_decide_unpack _); vm_compute; exact I. }
  assert (Hnd : NoDup (stems Demo.mixed_batch)).
  { apply (bool_decide_unpack _). vm_compute. exact I. }
  split; [exact Hord|]. split; [exact Hnd|].
  destruct (@C8_isolation_distinct_stems E (Demo.cfg false) Demo.mixed_batch
              Demo.empty_world Hord Hnd) as (Hjobs & Hframe & _).
  - intros b [d Hd]. vm_compute in Hd. discriminate Hd.
  - split.
    + destruct (Hjobs 1 (Demo.file "ok1.docx") eq_refl) as [_ [Hsame|Hdir]];
        [|exact Hdir].
      apply (f_equal (fun d => d !! "ok1.md")) in Hsame.
      vm_compute in Hsame. discriminate Hsame.
    + apply Hframe. apply (bool_decide_unpack _). vm_compute. exact I.
Defined.

(** Two working areas that differ in everything but the image list of the
    directory. *)
Lemma C9_reconciler_witness :
  let E := Demo.externals [] [] in
  let w1 := {| fs := {["doc" := {["z.png" := "img"; "notes.txt" := "n"]}]};
               ui := [] |} in
  let w2 := {| fs := {["doc" := {["z.png" := "other bytes"]}]};
               ui := [StatusFinalizing] |} in
  sorted_pngs (dir_of w2 "doc") = sorted_pngs (dir_of w1 "doc") /\
  (@generate_txt E Demo.good "doc" w2).2 = (@generate_txt E Demo.good "doc" w1).2.
Proof.
  intros E w1 w2.
  assert (Himgs : sorted_pngs (dir_of w2 "doc") = sorted_pngs (dir_of w1 "doc")).
  { vm_compute. reflexivity. }
  split; [exact Himgs|].
  exact (proj1 (proj2 (@C9_reconciler_deterministic E Demo.good "doc" w1)
                  Demo.good w2 eq_refl Himgs)).
Defined.

(** The worked example with [extract_tables] off, from an empty working
    area. *)
Lemma C10_grids_without_csv_witness :
  let E := Demo.externals [] [] in
  extract_tables (Demo.cfg false) = false /\
  Forall exports_ok (iterate_items (doc Demo.good)) /\
  exists txt l1 l2,
    dir_of (@export_outputs E (Demo.cfg false) Demo.good "doc"
              Demo.empty_world).1 "doc" !! "doc.txt" = Some txt /\
    txt = Py.join (nl +:+ nl) (l1 ++ ["[Table 1]"; "a b" +:+ nl +:+ "1 2"] ++ l2) /\
    dir_of (@export_outputs E (Demo.cfg false) Demo.good "doc"
              Demo.empty_world).1 "doc" !! "doc_table_1.csv" = None.
Proof.
  intros E.
  assert (Hall : Forall exports_ok (iterate_items (doc Demo.good))).
  { repeat constructor. eexists; reflexivity. }
  split; [reflexivity|]. split; [exact Hall|].
  destruct (@C10_grids_without_csv E (Demo.cfg false) Demo.good "doc"
              Demo.empty_world eq_refl Hall)
    as (txt & _ & Htxt & Hgrid & _ & Hcsv).
  destruct (Hgrid [Heading 1 "Intro"; TextBlock "hello"] Demo.T1
              [PictureItem; TextBlock "bye"] eq_refl)
    as (df & l1 & l2 & Hdf & Hjoin).
  injection Hdf as <-.
  exists txt, l1, l2. split; [exact Htxt|]. split; [exact Hjoin|].
  exact (Hcsv 1).
Defined.



(** * Further properties of the program *)

(** ** File names: stem, suffix and extension *)

Section FileNames.
Implicit Types (s t : string) (c : ascii).




(** At the last occurrence of [c] the string reads [c] followed by a
    string without [c]. *)
Lemma rfind_drop c s i :
  Py.rfind c s = Some i ->
  exists e, Py.drop i s = String c e /\ Py.rfind c e = None.
Proof.
  revert i. induction s as [|a s IH]; intros i Hi; [done|].
  simpl in Hi. destruct (Py.rfind c s) as [j|] eqn:Hj.
  - injection Hi as <-. simpl. by apply IH.
  - destruct (decide (a = c)) as [->|]; [|done].
    injection Hi as <-. simpl. eauto.
Qed.

Lemma lower_char_dot c : Py.lower_char c = "."%char <-> c = "."%char.
Proof.
  destruct c as [[] [] [] [] [] [] [] []]; vm_compute; split; congruence.
Qed.

Lemma lower_char_dot_eq : Py.lower_char "." = "."%char.
Proof. reflexivity. Qed.

Lemma rfind_dot_lower s : Py.rfind "." s = None -> Py.rfind "." (Py.lower s) = None.
Proof.
  induction s as [|a s IH]; [done|].
  intros [Ha Hs]%rfind_cons_None. simpl Py.lower.
  apply rfind_cons_None. split; [|by apply IH].
  by rewrite lower_char_dot.
Qed.

Lemma lstrip_dot_no_dot s : Py.rfind "." s = None -> Py.lstrip_dot s = s.
Proof.
  destruct s as [|a s]; [done|].
  intros [Ha _]%rfind_cons_None.
  destruct a as [[] [] [] [] [] [] [] []]; try reflexivity. done.
Qed.

Lemma suffix_shape fname :
  Py.suffix fname = EmptyString \/
  exists e, Py.suffix fname = String "." e /\ e <> EmptyString /\
            Py.rfind "." e = None.
Proof.
  unfold Py.suffix, Py.path_name.
  destruct (decide (fname = ".")) as [_|_]; [by left|].
  unfold Py.suffix_pos. cbv zeta.
  destruct (Py.rfind "." fname) as [i|] eqn:Hi; [|by left].
  destruct (0 <? i); simpl; [|by left].
  destruct (i <? String.length fname - 1) eqn:Hlt; [|by left].
  right. destruct (rfind_drop _ _ _ Hi) as (e & Hdrop & He).
  exists e. split; [done|]. split; [|done].
  intros ->. apply Nat.ltb_lt in Hlt.
  assert (Hlen : String.length (Py.take i fname +:+ Py.drop i fname)
                 = String.length fname) by by rewrite take_drop_str.
  rewrite str_length_app, Hdrop, take_length_str in Hlen. simpl in Hlen. lia.
Qed.

Lemma stem_suffix_app fname :
  fname <> "." -> Py.stem fname +:+ Py.suffix fname = fname.
Proof.
  intros Hdot. unfold Py.stem, Py.suffix.
  rewrite path_name_other by done. cbv zeta.
  destruct (Py.suffix_pos fname) as [i|]; [apply take_drop_str|].
  clear. induction fname as [|a s IH]; [reflexivity|].
  rewrite str_app_cons. by rewrite IH.
Qed.

(** A name has no suffix and is its own stem, or reads [<stem>.<e>] with
    a non-empty stem and a non-empty [e] without a dot. *)
Lemma stem_suffix_cases fname :
  fname <> "." ->
  (Py.stem fname = fname /\ Py.suffix fname = EmptyString) \/
  exists e, fname = Py.stem fname +:+ String "." e /\
            Py.suffix fname = String "." e /\
            e <> EmptyString /\ Py.rfind "." e = None.
Proof.
  intros Hfn.
  destruct (suffix_shape fname) as [Hs|(e & Hs & Hne & Hdot)].
  - left. split; [|done].
    pose proof (stem_suffix_app fname Hfn) as Happ. rewrite Hs in Happ.
    rewrite <- Happ at 2. clear.
    induction (Py.stem fname) as [|a s IH]; [done|].
    rewrite str_app_cons. by rewrite <- IH.
  - right. exists e. split; [|done].
    by rewrite <- Hs, stem_suffix_app.
Qed.

Lemma stem_app_ext s e :
  s <> EmptyString -> e <> EmptyString -> Py.rfind "." e = None ->
  Py.stem (s +:+ String "." e) = s.
Proof.
  intros Hs He Hdot.
  pose proof (stem_suffix_app (s +:+ String "." e)
                (app_ext_not_dot s e Hs)) as Happ.
  rewrite suffix_app_ext in Happ by done.
  by apply str_app_inv_tail in Happ.
Qed.

Lemma no_slash_app_l s t : no_slash (s +:+ t) -> no_slash s.
Proof.
  unfold no_slash. rewrite rfind_app.
  by destruct (Py.rfind "/" t).
Qed.

(** X1. The stem and the suffix of an upload name (a single path
    component) give back the name, and the stem is not empty and holds
    no separator.  The stem is [.] exactly for the names [..<e>] and
    [..] exactly for the names [..] and [...<e>], [<e>] a non-empty
    extension without a dot: these are the names for which
    [out_root / stem] is no sub-directory of [artifacts/], and every
    other name is ordinary. *)
Theorem upload_names_and_their_stems fname :
  fname <> EmptyString -> fname <> "." -> no_slash fname ->
  Py.stem fname +:+ Py.suffix fname = fname /\
  Py.stem fname <> EmptyString /\
  no_slash (Py.stem fname) /\
  (Py.stem fname = "." <->
   exists e, fname = ".." +:+ e /\ e <> EmptyString /\ Py.rfind "." e = None) /\
  (Py.stem fname = ".." <->
   fname = ".." \/
   exists e, fname = "..." +:+ e /\ e <> EmptyString /\ Py.rfind "." e = None) /\
  (ordinary fname <-> Py.stem fname <> "." /\ Py.stem fname <> "..").
Proof.
  intros Hne Hdot Hslash.
  assert (Hstem : Py.stem fname <> EmptyString) by by apply stem_nonempty.
  assert (Hss : no_slash (Py.stem fname)).
  { apply (no_slash_app_l _ (Py.suffix fname)). by rewrite stem_suffix_app. }
  split; [by apply stem_suffix_app|]. split; [done|]. split; [done|].
  split; [|split].
  - split.
    + intros Hs.
      destruct (stem_suffix_cases fname Hdot)
        as [[Hsame _]|(e & Hf & _ & He & Hd)].
      * congruence.
      * exists e. rewrite Hs in Hf. by rewrite Hf.
    + intros (e & -> & He & Hd).
      by apply (stem_app_ext "." e).
  - split.
    + intros Hs.
      destruct (stem_suffix_cases fname Hdot)
        as [[Hsame _]|(e & Hf & _ & He & Hd)].
      * left. congruence.
      * right. exists e. rewrite Hs in Hf. by rewrite Hf.
    + intros [->|(e & -> & He & Hd)]; [reflexivity|].
      by apply (stem_app_ext ".." e).
  - unfold ordinary, proper_dir. tauto.
Qed.

(** X2. The extension the loop dispatches on is the lower-cased suffix
    without its dot: [lstrip(".")] removes exactly one character, the
    extension holds no dot, and it is empty exactly when the name has no
    suffix.  So a file is taken for a spreadsheet exactly when its
    lower-cased suffix is [.xlsx]. *)
Theorem ext_is_lowered_suffix fname :
  Py.rfind "." (ext_of fname) = None /\
  (Py.suffix fname = EmptyString -> ext_of fname = EmptyString) /\
  (Py.suffix fname <> EmptyString ->
   Py.lower (Py.suffix fname) = String "." (ext_of fname) /\
   ext_of fname <> EmptyString) /\
  (ext_of fname = "xlsx" <-> Py.lower (Py.suffix fname) = ".xlsx").
Proof.
  unfold ext_of.
  destruct (suffix_shape fname) as [Hs|(e & Hs & Hne & Hdot)]; rewrite Hs.
  - split; [reflexivity|]. split; [reflexivity|].
    split; [intros Hno; by destruct Hno|]. split; discriminate.
  - change (Py.lower (String "." e))
      with (String (Py.lower_char ".") (Py.lower e)).
    rewrite lower_char_dot_eq.
    change (Py.lstrip_dot (String "." (Py.lower e)))
      with (Py.lstrip_dot (Py.lower e)).
    rewrite (lstrip_dot_no_dot _ (rfind_dot_lower _ Hdot)).
    split; [by apply rfind_dot_lower|]. split; [discriminate|]. split.
    + intros _. split; [reflexivity|]. by destruct e.
    + split; [by intros ->|by intros [= ->]].
Qed.

End FileNames.

(** ** The annotated-text pass: what each item contributes *)

Section PassContributions.
Context `{Externals}.
Implicit Types (st : txt_state) (els : list element).

Lemma txt_step_blank base imgs st el :
  blank el -> txt_step base imgs st el = Ok st.
Proof.
  destruct el as [l t|t| |]; simpl; try done;
    intros Hb; unfold txt_step; simpl; by rewrite Hb.
Qed.

(** X3. Items whose text is empty or white space are skipped without a
    trace: the pass over a stream and the pass over the stream without
    these items end in the same state (same lines, same table and image
    counters) or raise the same exception. *)
Theorem blank_items_leave_no_trace base imgs st els :
  txt_loop base imgs st (filter (fun el => ~ blank el) els) =
  txt_loop base imgs st els.
Proof.
  revert st. induction els as [|el els IH]; intros st; [done|].
  destruct (decide (blank el)) as [Hb|Hb].
  - rewrite filter_cons_False by (intros Hn; by apply Hn).
    cbn [txt_loop]. rewrite (txt_step_blank _ _ _ _ Hb). apply IH.
  - rewrite filter_cons_True by done. cbn [txt_loop].
    destruct (txt_step base imgs st el); [apply IH|done].
Qed.

Lemma txt_step_lines base imgs st st' el :
  txt_step base imgs st el = Ok st' ->
  length (lines st') = length (lines st) + emitted_lines el.
Proof.
  unfold txt_step. intros Hstep.
  destruct el as [l t|t|tbl|]; simpl in *.
  - destruct (Py.truthy (Py.strip t)); simplify_eq; simpl;
      rewrite ?length_app; simpl; lia.
  - destruct (Py.truthy (Py.strip t)); simplify_eq; simpl;
      rewrite ?length_app; simpl; lia.
  - destruct (export_to_dataframe tbl); simplify_eq; simpl.
    rewrite length_app. simpl. lia.
  - simplify_eq; simpl. rewrite length_app. simpl. lia.
Qed.

(** X4. The number of blocks of the annotated text: a pass that returns
    has added two entries to [lines] for every table (label and grid),
    one for every picture, one for every heading or paragraph with text,
    and none for a blank item. *)
Theorem lines_added_by_pass base imgs st st' els :
  txt_loop base imgs st els = Ok st' ->
  length (lines st') = length (lines st) + sum_list (emitted_lines <$> els).
Proof.
  revert st. induction els as [|el els IH]; intros st Hloop.
  - injection Hloop as <-. simpl. lia.
  - cbn [txt_loop] in Hloop.
    destruct (txt_step base imgs st el) as [st1|] eqn:Hstep; [|done].
    apply IH in Hloop. apply txt_step_lines in Hstep.
    rewrite fmap_cons. simpl. lia.
Qed.

Lemma export_tables_loop_cons base i tbl rest paths w df :
  export_to_dataframe tbl = Ok df ->
  export_tables_loop base i (tbl :: rest) paths w =
  export_tables_loop base (S i) rest (paths ++ [csv_name base i])
    (set_dir w base (<[csv_name base i := to_csv df]> (dir_of w base))).
Proof. intros Hdf. cbn [export_tables_loop]. rewrite Hdf. reflexivity. Qed.

(** The CSV loop on tables that export up to one that raises. *)
Lemma export_tables_loop_stops base i pre tbl post dfs paths w e :
  Forall2 (fun tbl df => export_to_dataframe tbl = Ok df) pre dfs ->
  export_to_dataframe tbl = Raise e ->
  dir_of (export_tables_loop base i (pre ++ tbl :: post) paths w).1 base
    = write_all (csv_writes base i dfs) (dir_of w base) /\
  (export_tables_loop base i (pre ++ tbl :: post) paths w).2 = Raise e.
Proof.
  intros Hpre Hraise. revert i paths w.
  induction Hpre as [|t df pre dfs Hdf _ IH]; intros i paths w.
  - simpl. by rewrite Hraise.
  - rewrite <- app_comm_cons, (export_tables_loop_cons _ _ _ _ _ _ _ Hdf).
    destruct (IH (S i) (paths ++ [csv_name base i])
                (set_dir w base (<[csv_name base i := to_csv df]> (dir_of w base))))
      as [Hdir Hres].
    rewrite Hdir, Hres, dir_of_set_dir. done.
Qed.

(** X6. One failing table stops the CSV export: when [extract_tables]
    is set and the export of a table of [doc.tables] raises, the tables
    before it having exported, [export_tables] raises that exception; the
    CSV files of the tables before it are written, none is written for
    the failing table or for any table after it. *)
Theorem export_tables_stops_at_failure d base pre tbl post dfs w e :
  tables d = Some (pre ++ tbl :: post) ->
  Forall2 (fun tbl df => export_to_dataframe tbl = Ok df) pre dfs ->
  export_to_dataframe tbl = Raise e ->
  let r := export_tables d base true w in
  r.2 = Raise e /\
  dir_of r.1 base = write_all (csv_writes base 1 dfs) (dir_of w base) /\
  (forall k, k < length dfs ->
     exists df, dfs !! k = Some df /\
       dir_of r.1 base !! csv_name base (1 + k) = Some (to_csv df)) /\
  (forall k, length pre < k ->
     dir_of r.1 base !! csv_name base k = dir_of w base !! csv_name base k).
Proof.
  intros Htbls Hpre Hraise r. subst r. unfold export_tables. rewrite Htbls.
  destruct (export_tables_loop_stops base 1 pre tbl post dfs [] w e Hpre Hraise)
    as [Hdir Hres].
  split; [done|]. split; [done|]. rewrite Hdir. split.
  - intros k Hk. destruct (lookup_lt_is_Some_2 dfs k Hk) as [df Hdf].
    exists df. split; [done|].
    apply write_all_lookup; [apply csv_writes_NoDup|].
    by apply csv_writes_elem.
  - intros k Hk. apply write_all_lookup_ne. intros Hin.
    apply csv_writes_names in Hin as (j & Hj & Heq).
    apply csv_name_inj in Heq. apply Forall2_length in Hpre. lia.
Qed.

Lemma csv_writes_fst base i dfs :
  (csv_writes base i dfs).*1 = csv_name base <$> seq i (length dfs).
Proof.
  revert i. induction dfs as [|df dfs IH]; intros i; [done|].
  simpl. by rewrite IH.
Qed.

Lemma export_tables_loop_paths base i tbls dfs paths w :
  Forall2 (fun tbl df => export_to_dataframe tbl = Ok df) tbls dfs ->
  (export_tables_loop base i tbls paths w).2 =
  Ok (paths ++ (csv_name base <$> seq i (length tbls))).
Proof.
  intros Hall. revert i paths w.
  induction Hall as [|tbl df tbls dfs Hdf _ IH]; intros i paths w.
  - simpl. by rewrite app_nil_r.
  - rewrite (export_tables_loop_cons _ _ _ _ _ _ _ Hdf), IH.
    simpl. by rewrite <- app_assoc.
Qed.

(** X7. What [export_tables] returns: when every table of [doc.tables]
    exports, the paths [<base>_table_1.csv], ..., [<base>_table_N.csv] in
    this order, pairwise distinct, one per table; with [extract_tables]
    off, or for an object without a [tables] attribute, the empty list,
    and the working area is not touched. *)
Theorem export_tables_returns_paths d base flag w :
  (forall tbls dfs,
     flag = true -> tables d = Some tbls ->
     Forall2 (fun tbl df => export_to_dataframe tbl = Ok df) tbls dfs ->
     (export_tables d base flag w).2 =
       Ok (csv_name base <$> seq 1 (length tbls)) /\
     NoDup (csv_name base <$> seq 1 (length tbls))) /\
  (flag = false \/ tables d = None ->
   export_tables d base flag w = (w, Ok [])).
Proof.
  split.
  - intros tbls dfs -> Htbls Hall. unfold export_tables. rewrite Htbls.
    rewrite (export_tables_loop_paths base 1 tbls dfs [] w Hall).
    split; [done|].
    apply NoDup_fmap_2_strong; [|apply NoDup_seq].
    intros i j _ _. apply csv_name_inj.
  - intros [->|Hnone]; unfold export_tables; [done|].
    rewrite Hnone. by destruct flag.
Qed.

End PassContributions.

(** ** A job as a journal of writes *)

Section Journal.
Context `{Externals}.
Implicit Types (w : world) (base : string).

Lemma journaled_ret base {A} (a : A) : journaled base (mret a : M A).
Proof. intros imgs. exists [], (Ok a). split; [constructor|]. done. Qed.

Lemma journaled_lift base {A} (r : result A) : journaled base (lift r).
Proof. intros imgs. exists [], r. split; [constructor|]. done. Qed.

Lemma journaled_emit base e : journaled base (emit e).
Proof. intros imgs. exists [], (Ok tt). split; [constructor|]. done. Qed.

Lemma journaled_glob base : journaled base (glob_png base).
Proof.
  intros imgs. exists [], (Ok imgs). split; [constructor|].
  intros w Himgs. repeat split; try done.
  unfold glob_png; simpl. fold (dir_of w base). by rewrite Himgs.
Qed.

Lemma journaled_write base fname c :
  ~ is_png fname -> journaled base (write_text base fname c).
Proof.
  intros Hpng imgs. exists [(fname, c)], (Ok tt).
  split; [by repeat constructor|]. intros w _. rewrite write_text_eq. simpl.
  split; [by rewrite dir_of_set_dir|]. split; [|done].
  intros b Hb. by apply dir_of_set_dir_ne.
Qed.

Lemma journaled_mkdir base : journaled base (mkdir base).
Proof.
  intros imgs. exists [], (Ok tt). split; [constructor|].
  intros w _. rewrite mkdir_eq. simpl.
  split; [by rewrite dir_of_set_dir|]. split; [|done].
  intros b Hb. by apply dir_of_set_dir_ne.
Qed.

Lemma journaled_bind base {A B} (m : M A) (k : A -> M B) :
  journaled base m -> (forall a, journaled base (k a)) ->
  journaled base (m ≫= k).
Proof.
  intros Hm Hk imgs. destruct (Hm imgs) as (ws1 & r1 & Hnp1 & Hm1).
  destruct r1 as [a|e].
  - destruct (Hk a imgs) as (ws2 & r2 & Hnp2 & Hk2).
    exists (ws1 ++ ws2), r2. split; [by apply Forall_app|].
    intros w Himgs. destruct (Hm1 w Himgs) as (Hd & Hf & Hr).
    unfold mbind, M_bind. destruct (m w) as [w1 r]. simpl in *. subst r.
    assert (Himgs1 : sorted_pngs (dir_of w1 base) = imgs).
    { by rewrite Hd, sorted_pngs_write_all. }
    destruct (Hk2 w1 Himgs1) as (Hd2 & Hf2 & Hr2).
    split; [by rewrite Hd2, Hd, write_all_app|]. split; [|done].
    intros b Hb. by rewrite Hf2, Hf.
  - exists ws1, (Raise e). split; [done|].
    intros w Himgs. destruct (Hm1 w Himgs) as (Hd & Hf & Hr).
    unfold mbind, M_bind. destruct (m w) as [w1 r]. simpl in *. by subst r.
Qed.

Lemma ext_not_png s e :
  e ∈ [".md"; ".html"; ".json"; ".txt"; ".csv"] -> ~ is_png (s +:+ e).
Proof.
  rewrite !elem_of_cons, elem_of_nil. intros He.
  destruct He as [He|[He|[He|[He|[He|[]]]]]]; subst e;
    apply not_png_by_last_char; by rewrite last_char_app.
Qed.

Create HintDb journal discriminated.
Hint Resolve journaled_ret journaled_lift journaled_emit journaled_glob
  journaled_mkdir : journal.
Hint Extern 2 (journaled _ (_ ≫= _)) =>
  apply journaled_bind; [|intros ?] : journal.
Hint Extern 1 (journaled _ (write_text _ (_ +:+ _) _)) =>
  apply journaled_write, ext_not_png; rewrite !elem_of_cons; tauto : journal.

Lemma journaled_export_tables_loop base i tbls paths :
  journaled base (export_tables_loop base i tbls paths).
Proof.
  revert i paths. induction tbls as [|tbl tbls IH]; intros i paths;
    cbn [export_tables_loop]; [auto with journal|].
  apply journaled_bind; [auto with journal|intros df].
  apply journaled_bind; [|intros _; apply IH].
  apply journaled_write, csv_not_png.
Qed.

Lemma journaled_export_tables d base flag :
  journaled base (export_tables d base flag).
Proof.
  unfold export_tables. destruct flag, (tables d);
    auto using journaled_export_tables_loop with journal.
Qed.

Lemma journaled_generate_txt res base : journaled base (generate_txt res base).
Proof. unfold generate_txt. auto 10 with journal. Qed.

Lemma journaled_write_sheets base sheets :
  journaled base (write_sheets base sheets).
Proof.
  induction sheets as [|[sh df] sheets IH]; cbn [write_sheets];
    auto 10 with journal.
Qed.

Lemma journaled_save_referenced base fname c :
  ~ is_png fname -> journaled base (save_referenced base fname c).
Proof.
  intros Hpng. unfold save_referenced, makedirs.
  apply journaled_bind; [|intros _; by apply journaled_write].
  apply journaled_write, referenced_not_png.
Qed.

Hint Extern 1 (journaled _ (save_referenced _ (_ +:+ _) _)) =>
  apply journaled_save_referenced, ext_not_png;
  rewrite !elem_of_cons; tauto : journal.

Lemma journaled_export_outputs cfg res base :
  journaled base (export_outputs cfg res base).
Proof.
  unfold export_outputs.
  auto 12 using journaled_generate_txt, journaled_export_tables with journal.
Qed.

(** Every iteration of the loop is journaled in the directory of its
    file. *)
Lemma journaled_process_file cfg total idx f results :
  journaled (Py.stem (name f)) (process_file cfg total idx f results).
Proof.
  unfold process_file.
  apply journaled_bind; [auto with journal|intros _].
  apply journaled_bind; [auto with journal|intros _].
  destruct (decide (_ = "xlsx")).
  - apply journaled_bind; [|intros _; auto 6 with journal].
    destruct (extract_tables cfg);
      auto 6 using journaled_write_sheets with journal.
  - apply journaled_bind.
    + destruct (decide (_ = "pdf")); auto with journal.
    + intros res. auto 8 using journaled_export_outputs with journal.
Qed.

(** What a sequence of writes leaves under a name. *)
Lemma write_all_last_write ws (d : gmap string string) k :
  write_all ws d !! k = from_option Some (d !! k) (last_write k ws).
Proof.
  revert d. induction ws as [|[n c] ws IH]; intros d; [done|].
  simpl. rewrite IH. destruct (last_write k ws); [done|]. simpl.
  destruct (decide (k = n)) as [->|Hne]; simpl.
  - by rewrite lookup_insert_eq.
  - by rewrite lookup_insert_ne.
Qed.

(** Writing the same sequence a second time changes nothing. *)
Lemma write_all_twice ws (d : gmap string string) :
  write_all ws (write_all ws d) = write_all ws d.
Proof.
  apply map_eq. intros k. rewrite !write_all_last_write.
  by destruct (last_write k ws).
Qed.

End Journal.

(** ** Re-runs, stale files and image lists *)

Section Reruns.
Context `{Externals}.
Implicit Types (w : world) (f : upload) (cfg : settings).

(** X8. Running a job a second time, on the working area the first run
    left, ends in the same way (same value or same exception) and leaves
    every directory as the first run left it: whatever the outcome, a
    re-run of the same upload with the same conversion result changes
    nothing on disk. *)
Theorem process_file_rerun cfg total idx f results w :
  let first := process_file cfg total idx f results w in
  let second := process_file cfg total idx f results first.1 in
  second.2 = first.2 /\
  forall b, dir_of second.1 b = dir_of first.1 b.
Proof.
  intros first second. subst first second.
  destruct (journaled_process_file cfg total idx f results
              (sorted_pngs (dir_of w (Py.stem (name f)))))
    as (ws & r & Hnp & Hrun).
  destruct (Hrun w eq_refl) as (Hd1 & Hf1 & Hr1).
  set (w1 := (process_file cfg total idx f results w).1) in *.
  assert (Himgs : sorted_pngs (dir_of w1 (Py.stem (name f)))
                  = sorted_pngs (dir_of w (Py.stem (name f)))).
  { by rewrite Hd1, sorted_pngs_write_all. }
  destruct (Hrun w1 Himgs) as (Hd2 & Hf2 & Hr2).
  split; [by rewrite Hr2, Hr1|].
  intros b. destruct (decide (b = Py.stem (name f))) as [->|Hb].
  - by rewrite Hd2, Hd1, write_all_twice.
  - by apply Hf2.
Qed.

Lemma process_file_keeps_files cfg total idx f results w :
  keeps_files w (process_file cfg total idx f results w).1.
Proof.
  destruct (journaled_process_file cfg total idx f results
              (sorted_pngs (dir_of w (Py.stem (name f)))))
    as (ws & r & Hnp & Hrun).
  destruct (Hrun w eq_refl) as (Hd & Hf & _).
  intros b fname Hsome.
  destruct (decide (b = Py.stem (name f))) as [->|Hb].
  - rewrite Hd. apply write_all_is_Some. by left.
  - by rewrite Hf.
Qed.


(** A reflexive and transitive relation kept by every job is kept by the
    loop. *)
Lemma convert_loop_respects (R : world -> world -> Prop) cfg total :
  (forall w, R w w) ->
  (forall w1 w2 w3, R w1 w2 -> R w2 w3 -> R w1 w3) ->
  (forall idx f results, respects R (process_file cfg total idx f results)) ->
  forall idx files results, respects R (convert_loop cfg total idx files results).
Proof.
  intros Hrefl Htrans Hjob idx files. revert idx.
  induction files as [|f files IH]; intros idx results w; [apply Hrefl|].
  cbn [convert_loop]. unfold mbind, M_bind.
  pose proof (Hjob idx f results w) as Hstep.
  destruct (process_file cfg total idx f results w) as [w1 [r1|e]];
    simpl in *; [|done].
  eapply Htrans; [exact Hstep|]. apply IH.
Qed.

(** [main] writes nothing itself: the working area it leaves is the one
    the loop leaves. *)
Lemma main_fs cfg files w :
  fs (main cfg files w).1 = fs (convert_loop cfg (length files) 1 files [] w).1.
Proof.
  unfold main, mbind, M_bind.
  destruct (convert_loop cfg (length files) 1 files [] w) as [w1 [rs|e]];
    [|done].
  simpl. destruct (export_mm cfg); [|done].
  unfold lift. by destruct (multimodal_parquet rs).
Qed.

(** X9. Nothing is ever removed from the working area: a file that is
    in a directory of [artifacts/] before the button is pressed, for
    instance one left by an earlier run, is still there afterwards,
    whatever the batch and however the run ends; and when [main] returns
    the archive, that file is a member of it. *)
Theorem stale_files_stay_and_are_archived cfg files w b fname :
  is_Some (dir_of w b !! fname) ->
  is_Some (dir_of (main cfg files w).1 b !! fname) /\
  forall zip, (main cfg files w).2 = Ok zip ->
    exists c, (arcname b fname, c) ∈ zip.
Proof.
  intros Hsome.
  assert (Hkept : is_Some (dir_of (main cfg files w).1 b !! fname)).
  { unfold dir_of. rewrite main_fs.
    fold (dir_of (convert_loop cfg (length files) 1 files [] w).1 b).
    revert b fname Hsome.
    apply (convert_loop_respects keeps_files cfg (length files)).
    - by intros w1 b' n Hn.
    - intros w1 w2 w3 H12 H23 b' n Hn. by apply H23, H12.
    - intros idx f results w'. apply process_file_keeps_files. }
  split; [done|]. intros zip Hzip.
  destruct Hkept as [c Hc]. exists c.
  assert (Hz : zip = build_zip (fs (main cfg files w).1)).
  { revert Hzip. rewrite main_fs. unfold main, mbind, M_bind.
    destruct (convert_loop cfg (length files) 1 files [] w) as [w1 [rs|e]];
      [|done].
    simpl. destruct (export_mm cfg); [|by intros [= <-]].
    unfold lift. destruct (multimodal_parquet rs); [|done].
    by intros [= <-]. }
  rewrite Hz. apply build_zip_members.
  unfold dir_of in Hc.
  destruct (fs (main cfg files w).1 !! b) as [d|] eqn:Hd; [|done].
  simpl in Hc. eauto 6.
Qed.


End Reruns.

(** ** How a run ends *)

Section Outcomes.
Context `{Externals}.
Implicit Types (w : world) (f : upload) (cfg : settings).

Lemma silent_ret {A} (a : A) : silent (mret a : M A).
Proof. done. Qed.

Lemma silent_lift {A} (r : result A) : silent (lift r).
Proof. done. Qed.

Lemma silent_glob base : silent (glob_png base).
Proof. done. Qed.

Lemma silent_write base fname c : silent (write_text base fname c).
Proof. done. Qed.

Lemma silent_mkdir base : silent (mkdir base).
Proof. done. Qed.

Lemma silent_bind {A B} (m : M A) (k : A -> M B) :
  silent m -> (forall a, silent (k a)) -> silent (m ≫= k).
Proof.
  intros Hm Hk w. unfold mbind, M_bind. specialize (Hm w).
  destruct (m w) as [w1 [a|e]]; simpl in *; [|done].
  by rewrite Hk.
Qed.

Create HintDb silent discriminated.
Hint Resolve silent_ret silent_lift silent_glob silent_write silent_mkdir
  : silent.
Hint Extern 2 (silent (_ ≫= _)) => apply silent_bind; [|intros ?] : silent.

Lemma silent_export_tables d base flag : silent (export_tables d base flag).
Proof.
  unfold export_tables. destruct flag, (tables d) as [tbls|];
    auto with silent.
  generalize 1 (@nil string). induction tbls as [|tbl tbls IH]; intros i paths;
    cbn [export_tables_loop]; auto 8 with silent.
Qed.

Lemma silent_write_sheets base sheets : silent (write_sheets base sheets).
Proof.
  induction sheets as [|[sh df] sheets IH]; cbn [write_sheets];
    auto 10 with silent.
Qed.

Lemma silent_export_outputs cfg res base : silent (export_outputs cfg res base).
Proof.
  unfold export_outputs, generate_txt, save_referenced, makedirs.
  auto 20 using silent_export_tables with silent.
Qed.

Lemma tail_emit {A B} (m : M A) (g : A -> B) e w :
  silent m ->
  let r := (m ≫= fun a => emit e ≫= fun _ => mret (g a)) w in
  ui r.1 = ui w ++ match r.2 with Ok _ => [e] | Raise _ => [] end.
Proof.
  intros Hm. specialize (Hm w). unfold mbind, M_bind.
  destruct (m w) as [w1 [a|err]]; simpl in *.
  - by rewrite Hm.
  - by rewrite app_nil_r.
Qed.

Lemma head_tail_emit {A B C} (m0 : M A) (m : A -> M B) (g : A -> B -> C) e w :
  silent m0 -> (forall a, silent (m a)) ->
  let r := (m0 ≫= fun a => m a ≫= fun b => emit e ≫= fun _ => mret (g a b)) w in
  ui r.1 = ui w ++ match r.2 with Ok _ => [e] | Raise _ => [] end.
Proof.
  intros Hm0 Hm. specialize (Hm0 w). unfold mbind, M_bind.
  destruct (m0 w) as [w1 [a|err]]; simpl in *.
  - specialize (Hm a w1).
    destruct (m a w1) as [w2 [b|err]]; simpl in *.
    + by rewrite Hm, Hm0.
    + by rewrite Hm, Hm0, app_nil_r.
  - by rewrite Hm0, app_nil_r.
Qed.

(** What an iteration shows: its status line, and the progress update
    exactly when it returns. *)
Lemma process_file_ui cfg total idx f results w :
  ui (process_file cfg total idx f results w).1 =
  ui w ++ StatusProcessing (name f) idx total ::
    match (process_file cfg total idx f results w).2 with
    | Ok _ => [Progress idx total]
    | Raise _ => []
    end.
Proof.
  unfold process_file.
  erewrite bind_ok by reflexivity.
  rewrite (bind_ok _ _ _ _ _ (mkdir_eq _ _)).
  match goal with
  | |- context [set_dir ?w0 ?b ?d] => set (w1 := set_dir w0 b d)
  end.
  assert (Hui : ui w1 = ui w ++ [StatusProcessing (name f) idx total]) by done.
  destruct (decide (_ = "xlsx")).
  - rewrite (tail_emit _ (fun _ => results) (Progress idx total) w1).
    + change (ui w1) with (ui w ++ [StatusProcessing (name f) idx total]).
      rewrite <- app_assoc. reflexivity.
    + destruct (extract_tables cfg);
        auto using silent_write_sheets with silent.
  - rewrite (head_tail_emit _ _ (fun res _ => results ++ [res])
               (Progress idx total) w1).
    + change (ui w1) with (ui w ++ [StatusProcessing (name f) idx total]).
      rewrite <- app_assoc. reflexivity.
    + destruct (decide _); auto with silent.
    + intros res. apply silent_export_outputs.
Qed.

Lemma convert_loop_app cfg total idx files1 files2 results w :
  convert_loop cfg total idx (files1 ++ files2) results w =
  match convert_loop cfg total idx files1 results w with
  | (w1, Ok r1) => convert_loop cfg total (idx + length files1) files2 r1 w1
  | (w1, Raise e) => (w1, Raise e)
  end.
Proof.
  revert idx results w.
  induction files1 as [|f files1 IH]; intros idx results w.
  - simpl. by rewrite Nat.add_0_r.
  - cbn [app convert_loop]. unfold mbind, M_bind.
    destruct (process_file cfg total idx f results w) as [w1 [r1|e]]; [|done].
    rewrite IH. cbn [length].
    replace (idx + S (length files1)) with (S idx + length files1) by lia.
    reflexivity.
Qed.

(** The loop shows nothing but status lines and progress updates. *)
Lemma convert_loop_ui cfg total idx files results w :
  exists evs,
    ui (convert_loop cfg total idx files results w).1 = ui w ++ evs /\
    Forall is_loop_event evs.
Proof.
  revert idx results w.
  induction files as [|f files IH]; intros idx results w.
  - exists []. simpl. by rewrite app_nil_r.
  - cbn [convert_loop]. unfold mbind, M_bind.
    pose proof (process_file_ui cfg total idx f results w) as Hui.
    destruct (process_file cfg total idx f results w) as [w1 [r1|e]];
      simpl in *.
    + destruct (IH (S idx) r1 w1) as (evs & Hevs & Hall).
      exists (StatusProcessing (name f) idx total :: Progress idx total :: evs).
      rewrite Hevs, Hui, <- app_assoc. split; [done|].
      by repeat constructor.
    + exists [StatusProcessing (name f) idx total].
      split; [done|]. by repeat constructor.
Qed.

(** [main] after the loop, case by case. *)
Lemma main_eq cfg files w :
  main cfg files w =
  match convert_loop cfg (length files) 1 files [] w with
  | (w1, Ok rs) =>
      if export_mm cfg then
        match multimodal_parquet rs with
        | Ok data =>
            ({| fs := fs w1;
                ui := ui w1 ++ [StatusFinalizing; DownloadParquet data;
                                SuccessAllDone; DownloadZip (build_zip (fs w1))] |},
             Ok (build_zip (fs w1)))
        | Raise e =>
            ({| fs := fs w1; ui := ui w1 ++ [StatusFinalizing] |}, Raise e)
        end
      else
        ({| fs := fs w1;
            ui := ui w1 ++ [StatusFinalizing; SuccessAllDone;
                            DownloadZip (build_zip (fs w1))] |},
         Ok (build_zip (fs w1)))
  | (w1, Raise e) => (w1, Raise e)
  end.
Proof.
  unfold main, mbind, M_bind.
  destruct (convert_loop cfg (length files) 1 files [] w) as [w1 [rs|e]];
    [|done].
  unfold emit, mret, M_ret, lift. simpl.
  destruct (export_mm cfg); [destruct (multimodal_parquet rs)|];
    simpl; rewrite <- ?app_assoc; reflexivity.
Qed.

(** X11. The success message and the ZIP download are shown exactly
    when [main] returns: when it returns the archive [zip], the last two
    things shown are the success message and the download of [zip], the
    archive built from the working area as the loop left it, and no
    other download of an archive is shown; after an exception, from the
    loop or from the multimodal export, the page shows neither. *)
Theorem success_shown_iff_main_returns cfg files w :
  exists evs,
    ui (main cfg files w).1 = ui w ++ evs /\
    (SuccessAllDone ∈ evs <-> exists zip, (main cfg files w).2 = Ok zip) /\
    (forall zip,
       DownloadZip zip ∈ evs <-> (main cfg files w).2 = Ok zip) /\
    (forall zip,
       (main cfg files w).2 = Ok zip ->
       zip = build_zip (fs (convert_loop cfg (length files) 1 files [] w).1) /\
       exists evs', evs = evs' ++ [SuccessAllDone; DownloadZip zip]).
Proof.
  rewrite main_eq.
  destruct (convert_loop_ui cfg (length files) 1 files [] w)
    as (evs & Hevs & Hall).
  assert (Hnot : forall e, e ∈ evs -> is_loop_event e).
  { by apply Forall_forall. }
  destruct (convert_loop cfg (length files) 1 files [] w) as [w1 [rs|e]];
    simpl in *.
  - destruct (export_mm cfg); [destruct (multimodal_parquet rs) as [data|e]|];
      simpl; rewrite Hevs, <- ?app_assoc; eexists; (split; [done|]).
    + split; [|split].
      * split; [eauto|]. intros _. rewrite elem_of_app, !elem_of_cons. auto.
      * intros zip. rewrite elem_of_app, !elem_of_cons, elem_of_nil. split.
        -- intros [Hin|[?|[?|[?|[?|[]]]]]]; simplify_eq; [|done].
           by apply Hnot in Hin.
        -- intros [= <-]. auto 10.
      * intros zip [= <-]. split; [done|].
        exists (evs ++ [StatusFinalizing; DownloadParquet data]).
        by rewrite <- app_assoc.
    + split; [|split].
      * split; [|intros [zip ?]; done].
        rewrite elem_of_app, !elem_of_cons, elem_of_nil.
        intros [Hin|[?|[]]]; simplify_eq. by apply Hnot in Hin.
      * intros zip. rewrite elem_of_app, !elem_of_cons, elem_of_nil. split.
        -- intros [Hin|[?|[]]]; simplify_eq. by apply Hnot in Hin.
        -- intros [=].
      * intros zip [=].
    + split; [|split].
      * split; [eauto|]. intros _. rewrite elem_of_app, !elem_of_cons. auto.
      * intros zip. rewrite elem_of_app, !elem_of_cons, elem_of_nil. split.
        -- intros [Hin|[?|[?|[?|[]]]]]; simplify_eq; [|done].
           by apply Hnot in Hin.
        -- intros [= <-]. auto 10.
      * intros zip [= <-]. split; [done|].
        exists (evs ++ [StatusFinalizing]). by rewrite <- app_assoc.
  - exists evs. split; [done|]. split; [|split].
    + split; [|intros [zip ?]; done]. intros Hin. by apply Hnot in Hin.
    + intros zip. split; [|intros [=]]. intros Hin. by apply Hnot in Hin.
    + intros zip [=].
Qed.

End Outcomes.

(** ** A call that raises, and the list of results *)

Section Raising.
Context `{Externals}.
Implicit Types (w : world) (f : upload) (cfg : settings).

(** An iteration whose workbook reading or conversion raises. *)
Lemma process_file_call_raises cfg total idx f results w e :
  (ext_of (name f) = "xlsx" /\ extract_tables cfg = true /\
   read_excel (read f) = Raise e) \/
  (ext_of (name f) <> "xlsx" /\ convert_all cfg f = Raise e) ->
  process_file cfg total idx f results w =
  ({| fs := <[Py.stem (name f) := dir_of w (Py.stem (name f))]> (fs w);
      ui := ui w ++ [StatusProcessing (name f) idx total] |}, Raise e).
Proof.
  unfold ext_of. intros Hcase. unfold process_file.
  erewrite bind_ok by reflexivity.
  rewrite (bind_ok _ _ _ _ _ (mkdir_eq _ _)).
  destruct Hcase as [(Hx & Hon & Hread)|(Hx & Hconv)].
  - rewrite decide_True by done. rewrite Hon, Hread. reflexivity.
  - rewrite decide_False by done. rewrite Hconv.
    by destruct (decide _).
Qed.

(** X12. The batch stops at the first call that raises.  When the files
    before [f] are processed without an exception and the workbook
    reading or the conversion of [f] raises, [main] ends with that
    exception: the directory of [f] has been created but nothing was
    written into it, the page stops at the status line of [f], and the
    files after [f] are not looked at (a directory that belongs to none
    of the files up to [f] is as it was before the run). *)
Theorem main_stops_at_raising_call cfg pre f post w e :
  Forall (job_returns cfg) pre ->
  (ext_of (name f) = "xlsx" /\ extract_tables cfg = true /\
   read_excel (read f) = Raise e) \/
  (ext_of (name f) <> "xlsx" /\ convert_all cfg f = Raise e) ->
  let files := pre ++ f :: post in
  exists w1 r1,
    convert_loop cfg (length files) 1 pre [] w = (w1, Ok r1) /\
    main cfg files w =
      ({| fs := <[Py.stem (name f) := dir_of w1 (Py.stem (name f))]> (fs w1);
          ui := ui w ++ progress_events (length files) 1 pre ++
                [StatusProcessing (name f) (1 + length pre) (length files)] |},
       Raise e) /\
    forall b, b ∉ stems (pre ++ [f]) -> dir_of (main cfg files w).1 b = dir_of w b.
Proof.
  intros Hpre Hcase files.
  destruct (convert_loop_returns cfg (length files) 1 pre [] w Hpre)
    as (w1 & r1 & Hloop & Hui & _).
  exists w1, r1. split; [done|].
  assert (Hrun : convert_loop cfg (length files) 1 files [] w =
    ({| fs := <[Py.stem (name f) := dir_of w1 (Py.stem (name f))]> (fs w1);
        ui := ui w ++ progress_events (length files) 1 pre ++
              [StatusProcessing (name f) (1 + length pre) (length files)] |},
     Raise e)).
  { unfold files at 2. rewrite convert_loop_app, Hloop.
    cbn [convert_loop].
    erewrite bind_raise by (by apply process_file_call_raises).
    by rewrite Hui, <- app_assoc. }
  split; [by rewrite main_eq, Hrun|].
  intros b Hb. unfold dir_of at 1. rewrite main_fs.
  fold (dir_of (convert_loop cfg (length files) 1 files [] w).1 b).
  unfold files at 2.
  replace (pre ++ f :: post) with ((pre ++ [f]) ++ post)
    by by rewrite <- app_assoc.
  rewrite convert_loop_app.
  pose proof (convert_loop_frame cfg (length files) 1 (pre ++ [f]) [] w b Hb)
    as Hframe.
  destruct (convert_loop cfg (length files) 1 (pre ++ [f]) [] w)
    as [w2 [r2|e2]] eqn:Hpf; [|done].
  exfalso. rewrite convert_loop_app, Hloop in Hpf. cbn [convert_loop] in Hpf.
  erewrite bind_raise in Hpf by (by apply process_file_call_raises).
  done.
Qed.

(** What an iteration that returns hands back. *)
Lemma process_file_result cfg total idx f results w w1 r1 :
  process_file cfg total idx f results w = (w1, Ok r1) ->
  (ext_of (name f) = "xlsx" /\ r1 = results) \/
  (ext_of (name f) <> "xlsx" /\
   exists res, convert_all cfg f = Ok res /\ r1 = results ++ [res]).
Proof.
  unfold ext_of, process_file.
  erewrite bind_ok by reflexivity.
  rewrite (bind_ok _ _ _ _ _ (mkdir_eq _ _)).
  destruct (decide (_ = "xlsx")) as [Hx|Hx].
  - unfold mbind at 1, M_bind at 1.
    match goal with |- context [?m (set_dir ?a ?b ?c)] =>
      destruct (m (set_dir a b c)) as [w2 [[]|err]] end; [|done].
    intros [= _ <-]. by left.
  - assert (Hconv :
      (if decide (Py.lstrip_dot (Py.lower (Py.suffix (name f))) = "pdf")
       then lift (convert_all cfg f) else lift (convert_all cfg f))
      = lift (convert_all cfg f)) by by destruct (decide _).
    rewrite Hconv. unfold lift, mbind at 1, M_bind at 1.
    destruct (convert_all cfg f) as [res|err]; [|done].
    unfold mbind at 1, M_bind at 1.
    match goal with |- context [export_outputs ?c ?r ?b ?w0] =>
      destruct (export_outputs c r b w0) as [w2 [[]|err]] end; [|done].
    intros [= _ <-]. right. eauto.
Qed.

(** X13. The list handed to the multimodal export: when the loop
    returns, [results] holds, in upload order, the conversion result of
    every file that is not a spreadsheet, whatever its status, and
    nothing for a spreadsheet. *)
Theorem results_are_the_conversions cfg total idx files results w w' rs :
  convert_loop cfg total idx files results w = (w', Ok rs) ->
  exists rs',
    rs = results ++ rs' /\
    Forall2 (fun f r => convert_all cfg f = Ok r)
      (filter (fun f => ext_of (name f) <> "xlsx") files) rs'.
Proof.
  revert idx results w.
  induction files as [|f files IH]; intros idx results w Hloop.
  - injection Hloop as _ <-. exists []. by rewrite app_nil_r.
  - cbn [convert_loop] in Hloop. unfold mbind, M_bind in Hloop.
    destruct (process_file cfg total idx f results w) as [w1 [r1|e]] eqn:Hp;
      [|done].
    apply IH in Hloop as (rs' & -> & Hall).
    apply process_file_result in Hp as [[Hx ->]|(Hx & res & Hconv & ->)].
    + exists rs'. split; [done|].
      rewrite filter_cons_False by (intros Hn; by apply Hn). done.
    + exists (res :: rs'). split; [by rewrite <- app_assoc|].
      rewrite filter_cons_True by done. by constructor.
Qed.

End Raising.

(** ** Member names of the archive *)

Section MemberNames.
Implicit Types (s t b n : string).

(** X14. The members of the archive and the entries of the working area
    correspond one to one: for a working area whose directories and
    entries have plain names, the name of a member tells the directory
    and the entry (a file, or a sub-directory by its final [/]), every
    entry has its member, no two members share a name, and the archive
    has as many members as the working area has entries. *)
Theorem archive_names_are_distinct (a : gmap string (gmap string string)) :
  plain_area a ->
  NoDup (build_zip a).*1 /\
  (forall b d key c,
     a !! b = Some d -> d !! key = Some c ->
     (arcname b key, c) ∈ build_zip a) /\
  (forall b b' d d' key key' c c',
     a !! b = Some d -> d !! key = Some c ->
     a !! b' = Some d' -> d' !! key' = Some c' ->
     arcname b key = arcname b' key' -> b = b' /\ key = key') /\
  length (build_zip a) = sum_list (size <$> (map_to_list a).*2).
Proof.
  intros Hnames.
  assert (Hinj : forall b b' d d' key key' c c',
            a !! b = Some d -> d !! key = Some c ->
            a !! b' = Some d' -> d' !! key' = Some c' ->
            arcname b key = arcname b' key' -> b = b' /\ key = key').
  { intros b b' d d' key key' c c' Hb Hn Hb' Hn' Heq.
    destruct (Hnames b d Hb) as [Hsb Hsn].
    destruct (Hnames b' d' Hb') as [Hsb' Hsn'].
    apply arcname_inj; eauto. }
  split; [|split; [|split; [exact Hinj|]]].
  - apply NoDup_fmap_2_strong.
    + intros [arc c] [arc' c'] Hx Hy Heq. simpl in Heq. subst arc'.
      apply build_zip_members in Hx as (b & d & n & Hb & Hn & ->).
      apply build_zip_members in Hy as (b' & d' & n' & Hb' & Hn' & Heq).
      destruct (Hinj _ _ _ _ _ _ _ _ Hb Hn Hb' Hn' Heq) as [<- <-].
      congruence.
    + unfold build_zip, zip_listing. rewrite list_fmap_bind.
      apply NoDup_bind; [| |apply NoDup_map_to_list].
      * intros [b d] [b' d'] [arc c] Hx Hy Hin Hin'. simpl in *.
        apply elem_of_map_to_list in Hx, Hy.
        unfold zip_dir in Hin, Hin'.
        apply list_elem_of_fmap in Hin as ([n c1] & [= -> ->] & Hn).
        apply list_elem_of_fmap in Hin' as ([n' c2] & [= Heq ->] & Hn').
        apply elem_of_map_to_list in Hn, Hn'. simpl in *.
        destruct (Hinj _ _ _ _ _ _ _ _ Hx Hn Hy Hn' Heq) as [<- <-].
        congruence.
      * intros [b d] Hx. simpl. apply elem_of_map_to_list in Hx.
        unfold zip_dir. apply NoDup_fmap_2_strong; [|apply NoDup_map_to_list].
        intros [n c] [n' c'] Hn Hn' [= Heq ->].
        apply elem_of_map_to_list in Hn, Hn'. simpl in *.
        destruct (Hinj _ _ _ _ _ _ _ _ Hx Hn Hx Hn' Heq) as [_ <-]. done.
  - intros b d key c Hb Hkey. apply build_zip_members. eauto 6.
  - unfold build_zip, zip_listing. clear.
    induction (map_to_list a) as [|[b d] l IH]; [done|].
    csimpl. rewrite length_app, IH. f_equal.
    unfold zip_dir. rewrite length_fmap. apply length_map_to_list.
Qed.

(** X15. Where the files the pipeline writes end up in the archive: for
    a non-empty directory name [base], the four renderings of a document
    go to [md/], [html/], [json/] and [txt/], every table CSV to
    [assets/tables/]; and the four files of a sheet go to
    [assets/tables/], [md/], [html/] and [txt/], whatever the sheet name
    (dots in it included). *)
Theorem written_files_reach_their_buckets base i sh :
  base <> EmptyString ->
  arcname base (base +:+ ".md") = base +:+ "/md/" +:+ base +:+ ".md" /\
  arcname base (base +:+ ".html") = base +:+ "/html/" +:+ base +:+ ".html" /\
  arcname base (base +:+ ".json") = base +:+ "/json/" +:+ base +:+ ".json" /\
  arcname base (base +:+ ".txt") = base +:+ "/txt/" +:+ base +:+ ".txt" /\
  arcname base (csv_name base i) =
    base +:+ "/assets/tables/" +:+ csv_name base i /\
  (let pfx := base +:+ "_" +:+ sh in
   arcname base (pfx +:+ ".csv") = base +:+ "/assets/tables/" +:+ pfx +:+ ".csv" /\
   arcname base (pfx +:+ ".md") = base +:+ "/md/" +:+ pfx +:+ ".md" /\
   arcname base (pfx +:+ ".html") = base +:+ "/html/" +:+ pfx +:+ ".html" /\
   arcname base (pfx +:+ ".txt") = base +:+ "/txt/" +:+ pfx +:+ ".txt").
Proof.
  intros Hbase.
  assert (Hpfx : forall t, base +:+ t <> EmptyString).
  { intros t Heq. apply (f_equal String.length) in Heq.
    rewrite str_length_app in Heq. destruct base; [done|simpl in Heq; lia]. }
  assert (Hfile : forall t e,
            e ∈ ["md"; "html"; "json"; "txt"; "csv"] ->
            arcname base (t +:+ String "." e) =
            arc_path base (t +:+ String "." e)).
  { intros t e He. apply arcname_file. rewrite last_char_app by done.
    rewrite !elem_of_cons, elem_of_nil in He.
    destruct He as [->|[->|[->|[->|[->|[]]]]]]; done. }
  assert (Hin : forall e, e ∈ ["md"; "html"; "json"; "txt"; "csv"] ->
            e ∈ ["md"; "html"; "json"; "txt"; "csv"]) by done.
  split; [|split; [|split; [|split; [|split]]]].
  - rewrite (Hfile base "md") by (rewrite !elem_of_cons; auto 10).
    unfold arc_path. by rewrite (suffix_app_ext base).
  - rewrite (Hfile base "html") by (rewrite !elem_of_cons; auto 10).
    unfold arc_path. by rewrite (suffix_app_ext base).
  - rewrite (Hfile base "json") by (rewrite !elem_of_cons; auto 10).
    unfold arc_path. by rewrite (suffix_app_ext base).
  - rewrite (Hfile base "txt") by (rewrite !elem_of_cons; auto 10).
    unfold arc_path. by rewrite (suffix_app_ext base).
  - replace (csv_name base i)
      with ((base +:+ "_table_" +:+ Py.str_of_nat i) +:+ ".csv")
      by (unfold csv_name; by rewrite !str_app_assoc).
    rewrite (Hfile _ "csv") by (rewrite !elem_of_cons; auto 10).
    unfold arc_path. by rewrite suffix_app_ext by (done || apply Hpfx).
  - cbv zeta.
    rewrite !Hfile by (rewrite !elem_of_cons; auto 10).
    unfold arc_path. rewrite !suffix_app_ext by (done || apply Hpfx).
    repeat split; reflexivity.
Qed.

End MemberNames.

(** ** Jobs that leave little or nothing *)

Section SparseJobs.
Context `{Externals}.
Implicit Types (w : world) (f : upload) (cfg : settings).

(** X16. A spreadsheet with [extract_tables] off is inert: the workbook
    is not even read, so the iteration returns whatever the bytes are; it
    adds no conversion result, makes sure the directory exists and writes
    nothing, and the archive has the same members as before. *)
Theorem spreadsheet_without_tables_is_inert cfg total idx f results w :
  ext_of (name f) = "xlsx" ->
  extract_tables cfg = false ->
  exists w',
    process_file cfg total idx f results w = (w', Ok results) /\
    is_Some (fs w' !! Py.stem (name f)) /\
    (forall b, dir_of w' b = dir_of w b) /\
    (forall arc c, (arc, c) ∈ build_zip (fs w') <-> (arc, c) ∈ build_zip (fs w)).
Proof.
  intros Hx Hoff.
  destruct (process_file_xlsx_off cfg total idx f results w Hx Hoff)
    as (w' & Hrun & Hfs & _).
  exists w'. split; [done|].
  assert (Hdirs : forall b, dir_of w' b = dir_of w b).
  { intros b. unfold dir_of at 1. rewrite Hfs.
    destruct (decide (Py.stem (name f) = b)) as [<-|Hb].
    - by rewrite lookup_insert_eq.
    - by rewrite lookup_insert_ne. }
  split; [rewrite Hfs, lookup_insert_eq; eauto|]. split; [done|].
  assert (Hmem : forall (a a' : gmap string (gmap string string)),
            (forall b, default ∅ (a !! b) = default ∅ (a' !! b)) ->
            forall arc c, (arc, c) ∈ build_zip a -> (arc, c) ∈ build_zip a').
  { intros a a' Hsame arc c Hin.
    apply build_zip_members in Hin as (b & d & n & Hb & Hn & ->).
    apply build_zip_members. specialize (Hsame b). rewrite Hb in Hsame.
    simpl in Hsame. destruct (a' !! b) as [d'|] eqn:Hb'; simpl in Hsame.
    - subst d'. eauto 6.
    - subst d. by rewrite lookup_empty in Hn. }
  intros arc c. split; apply Hmem; intros b; [|symmetry]; apply Hdirs.
Qed.

(** X17. A document whose annotated-text pass raises leaves a partial
    set of artifacts: the export stage has already made the directory of
    the renderers and written the markdown, html and json renderings,
    and stops there with the exception; the annotated text of the
    directory is not touched and no CSV file is written, even with
    [extract_tables] set. *)
Theorem failed_pass_leaves_three_renderings cfg res base w :
  Exists (fun el => ~ exports_ok el) (iterate_items (doc res)) ->
  exists e,
    export_outputs cfg res base w =
      (set_dir w base
         (write_all [(subdir (referenced_dir base), EmptyString);
                     (base +:+ ".md", save_as_markdown (doc res));
                     (base +:+ ".html", save_as_html (doc res));
                     (base +:+ ".json", export_to_json (doc res))]
            (dir_of w base)),
       Raise e) /\
    dir_of (export_outputs cfg res base w).1 base !! (base +:+ ".txt") =
      dir_of w base !! (base +:+ ".txt") /\
    forall i,
      dir_of (export_outputs cfg res base w).1 base !! csv_name base i =
      dir_of w base !! csv_name base i.
Proof.
  intros Hex.
  destruct (txt_loop_raises base (sorted_pngs (dir_of w base)) txt_init _ Hex)
    as [e He].
  assert (Htxt : annotated_text base (sorted_pngs (dir_of w base))
                   (iterate_items (doc res)) = Raise e).
  { unfold annotated_text. by rewrite He. }
  exists e. rewrite (export_outputs_raise cfg res base w e Htxt).
  split; [done|]. cbn [fst]. rewrite dir_of_set_dir. split.
  - apply write_all_lookup_ne. simpl.
    rewrite !not_elem_of_cons. repeat split; try apply not_elem_of_nil.
    + intros Heq. symmetry in Heq. revert Heq.
      apply subdir_ne_file. by rewrite last_char_app.
    + intros Heq; apply (inj (String.app base)) in Heq; discriminate.
    + intros Heq; apply (inj (String.app base)) in Heq; discriminate.
    + intros Heq; apply (inj (String.app base)) in Heq; discriminate.
  - intros i. apply write_all_lookup_ne. simpl.
    rewrite !not_elem_of_cons. repeat split;
      try apply csv_name_not_dotted; [|apply not_elem_of_nil].
    apply csv_name_not_subdir.
Qed.

End SparseJobs.

(** ** The page while the loop runs and the stage after it *)

Section Finalizing.
Context `{Externals}.
Implicit Types (w : world) (f : upload) (cfg : settings).

(** The events of the loop, by the number of jobs it completed. *)
Lemma convert_loop_progress cfg total idx files results w :
  exists k,
    match (convert_loop cfg total idx files results w).2 with
    | Ok _ =>
        k = length files /\
        ui (convert_loop cfg total idx files results w).1 =
          ui w ++ progress_events total idx files
    | Raise _ =>
        exists f, files !! k = Some f /\
          ui (convert_loop cfg total idx files results w).1 =
            ui w ++ progress_events total idx (take k files) ++
            [StatusProcessing (name f) (idx + k) total]
    end.
Proof.
  revert idx results w.
  induction files as [|f files IH]; intros idx results w.
  - exists 0. simpl. by rewrite app_nil_r.
  - cbn [convert_loop]. unfold mbind, M_bind.
    pose proof (process_file_ui cfg total idx f results w) as Hui.
    destruct (process_file cfg total idx f results w) as [w1 [r1|e]];
      cbn [fst snd] in *.
    + destruct (IH (S idx) r1 w1) as (k & Hk).
      exists (S k).
      destruct (convert_loop cfg total (S idx) files r1 w1) as [w2 [r2|e2]];
        cbn [fst snd] in *.
      * destruct Hk as [-> Hk]. split; [done|].
        rewrite Hk, Hui. cbn [progress_events].
        rewrite <- app_assoc. reflexivity.
      * destruct Hk as (g & Hg & Hk). exists g. split; [done|].
        rewrite Hk, Hui. cbn [take progress_events].
        rewrite <- app_assoc.
        replace (idx + S k) with (S idx + k) by lia. reflexivity.
    + exists 0, f. split; [done|].
      rewrite Hui, Nat.add_0_r. reflexivity.
Qed.

(** X18. The status line and the progress bar count the jobs: whatever
    the batch, the loop has shown [Processing f (idx/total)] followed by
    the progress [idx/total] for each of the first [k] files, in order;
    it returns exactly when [k] is the number of files, and when it
    raises, at file [k], that file's status line is the last thing shown
    and its progress never is. *)
Theorem progress_counts_completed_jobs cfg total idx files results w :
  exists k,
    match (convert_loop cfg total idx files results w).2 with
    | Ok _ =>
        k = length files /\
        ui (convert_loop cfg total idx files results w).1 =
          ui w ++ progress_events total idx files
    | Raise _ =>
        exists f, files !! k = Some f /\
          ui (convert_loop cfg total idx files results w).1 =
            ui w ++ progress_events total idx (take k files) ++
            [StatusProcessing (name f) (idx + k) total]
    end.
Proof.
  revert idx results w.
  induction files as [|f files IH]; intros idx results w.
  - exists 0. simpl. by rewrite app_nil_r.
  - cbn [convert_loop]. unfold mbind, M_bind.
    pose proof (process_file_ui cfg total idx f results w) as Hui.
    destruct (process_file cfg total idx f results w) as [w1 [r1|e]];
      cbn [fst snd] in *.
    + destruct (IH (S idx) r1 w1) as (k & Hk).
      exists (S k).
      destruct (convert_loop cfg total (S idx) files r1 w1) as [w2 [r2|e2]];
        cbn [fst snd] in *.
      * destruct Hk as [-> Hk]. split; [done|].
        rewrite Hk, Hui. cbn [progress_events].
        rewrite <- app_assoc. reflexivity.
      * destruct Hk as (g & Hg & Hk). exists g. split; [done|].
        rewrite Hk, Hui. cbn [take progress_events].
        rewrite <- app_assoc.
        replace (idx + S k) with (S idx + k) by lia. reflexivity.
    + exists 0, f. split; [done|].
      rewrite Hui, Nat.add_0_r. reflexivity.
Qed.

(** X19. When the button handler returns.  [main] returns exactly when
    the loop returns and, with the multimodal export on, the Parquet
    export of the loop's results returns too; the Parquet download is
    then offered exactly when the export is on.  When the Parquet export
    raises, the files of the batch are all on disk, yet no archive is
    built and the last thing shown is [Finalizing]. *)
Theorem main_returns_iff cfg files w :
  let run := convert_loop cfg (length files) 1 files [] w in
  ((exists zip, (main cfg files w).2 = Ok zip) <->
   exists rs, run.2 = Ok rs /\
     (export_mm cfg = true -> exists data, multimodal_parquet rs = Ok data)) /\
  (forall zip data,
     (main cfg files w).2 = Ok zip ->
     (DownloadParquet data ∈ ui (main cfg files w).1 <->
      DownloadParquet data ∈ ui w \/
      export_mm cfg = true /\
      exists rs, run.2 = Ok rs /\ multimodal_parquet rs = Ok data)) /\
  (forall rs e,
     export_mm cfg = true -> run.2 = Ok rs -> multimodal_parquet rs = Raise e ->
     main cfg files w =
       ({| fs := fs run.1; ui := ui run.1 ++ [StatusFinalizing] |}, Raise e)).
Proof.
  cbv zeta. rewrite main_eq.
  pose proof (convert_loop_progress cfg (length files) 1 files [] w)
    as (k & Hk).
  destruct (convert_loop cfg (length files) 1 files [] w) as [w1 [rs|e]];
    cbn [fst snd] in *.
  - destruct Hk as [_ Hui].
    assert (Hnot : forall data evs,
              DownloadParquet data ∈ ui w ++ progress_events (length files) 1 files
                                      ++ evs <->
              DownloadParquet data ∈ ui w \/ DownloadParquet data ∈ evs).
    { intros data evs. rewrite !elem_of_app.
      assert (Hpe : forall n l, DownloadParquet data ∉ progress_events (length files) n l).
      { intros n l. revert n. induction l as [|g l IHl]; intros n; cbn [progress_events].
        - apply not_elem_of_nil.
        - rewrite !not_elem_of_cons. split; [done|]. split; [done|]. apply IHl. }
      specialize (Hpe 1 files). tauto. }
    destruct (export_mm cfg) eqn:Hmm.
    + destruct (multimodal_parquet rs) as [data0|e0] eqn:Hpq; cbn [fst snd].
      * split; [|split].
        -- split; [|by eexists].
           intros _. exists rs. split; [done|]. intros _. by exists data0.
        -- intros zip data _. cbn [ui]. rewrite Hui, <- app_assoc, Hnot.
           rewrite !elem_of_cons, elem_of_nil.
           split.
           ++ intros [Hin|[Heq|[Heq|[Heq|[Heq|[]]]]]]; try discriminate Heq;
                [by left|].
              right. split; [done|]. exists rs. split; [done|].
              by injection Heq as ->.
           ++ intros [Hin|(_ & rs' & [= <-] & Hdata)]; [by left|].
              right. right. left. congruence.
        -- intros rs' e' _ [= <-] Hr. congruence.
      * split; [|split].
        -- split.
           ++ intros [zip [=]].
           ++ intros (rs' & [= <-] & Hdata).
              destruct (Hdata eq_refl) as [data Hdata']. congruence.
        -- intros zip data [=].
        -- intros rs' e' _ [= <-] Hr. rewrite Hpq in Hr.
           injection Hr as <-. reflexivity.
    + cbn [fst snd]. split; [|split].
      * split; [|by eexists].
        intros _. exists rs. split; [done|]. intros [=].
      * intros zip data _. cbn [ui]. rewrite Hui, <- app_assoc, Hnot.
        rewrite !elem_of_cons, elem_of_nil.
        split.
        -- intros [Hin|[Heq|[Heq|[Heq|[]]]]]; try discriminate Heq. by left.
        -- intros [Hin|([=] & _)]. by left.
      * intros rs' e' [=].
  - split; [|split].
    + split.
      * intros [zip [=]].
      * intros (rs' & [=] & _).
    + intros zip data [=].
    + intros rs' e' _ [=].
Qed.

End Finalizing.

(** ** The multimodal export and the rest of the program *)

(** X20. The multimodal export is consulted after the loop only, and
    only when [export_mm] is set: the loop does the same whatever that
    export would do, and with [export_mm] off so does the whole button
    handler. *)
Theorem parquet_export_is_not_consulted (E : Externals)
    (p : list conv_result -> result string) cfg files w :
  (forall total idx results,
     @convert_loop (with_parquet E p) cfg total idx files results w =
     @convert_loop E cfg total idx files results w) /\
  (export_mm cfg = false ->
   @main (with_parquet E p) cfg files w = @main E cfg files w).
Proof.
  assert (Hloop : forall total idx results w0,
            @convert_loop (with_parquet E p) cfg total idx files results w0 =
            @convert_loop E cfg total idx files results w0).
  { induction files as [|f rest IH]; intros total idx results w0; [done|].
    cbn [convert_loop]. unfold mbind, M_bind.
    change (@process_file (with_parquet E p) cfg total idx f results w0)
      with (@process_file E cfg total idx f results w0).
    destruct (@process_file E cfg total idx f results w0) as [w1 [r1|e]];
      [apply IH|done]. }
  split; [intros; apply Hloop|].
  intros Hoff.
  rewrite (@main_eq (with_parquet E p)), (@main_eq E), Hloop, Hoff.
  reflexivity.
Qed.

(** ** The further properties at concrete inputs *)

(** An ordinary upload name, and one whose stem is [.]. *)
Lemma upload_names_witness :
  no_slash "report.v2.pdf" /\
  Py.stem "report.v2.pdf" +:+ Py.suffix "report.v2.pdf" = "report.v2.pdf" /\
  ordinary "report.v2.pdf" /\
  Py.stem "..pdf" = "." /\
  ~ ordinary "..pdf".
Proof.
  assert (Hslash : no_slash "report.v2.pdf") by reflexivity.
  destruct (upload_names_and_their_stems "report.v2.pdf")
    as (Hrt & _ & _ & _ & _ & Hord); [done|done|exact Hslash|].
  destruct (upload_names_and_their_stems "..pdf")
    as (_ & _ & _ & Hdot & _ & Hord'); [done|done|reflexivity|].
  split; [exact Hslash|]. split; [exact Hrt|]. split.
  - apply Hord. split; vm_compute; discriminate.
  - assert (Hstem : Py.stem "..pdf" = ".").
    { apply Hdot. exists "pdf". by repeat split. }
    split; [exact Hstem|]. intros Ho. apply Hord' in Ho as [Ho _]. done.
Defined.

(** An upper-case spreadsheet name. *)
Lemma ext_is_lowered_suffix_witness :
  Py.suffix "Book.XLSX" <> EmptyString /\
  Py.lower (Py.suffix "Book.XLSX") = String "." (ext_of "Book.XLSX") /\
  ext_of "Book.XLSX" = "xlsx".
Proof.
  assert (Hne : Py.suffix "Book.XLSX" <> EmptyString) by (vm_compute; discriminate).
  destruct (ext_is_lowered_suffix "Book.XLSX") as (_ & _ & Hdot & Hx).
  split; [exact Hne|]. split; [exact (proj1 (Hdot Hne))|].
  apply Hx. reflexivity.
Defined.

(** The worked example: six blocks. *)
Lemma lines_added_by_pass_witness :
  let E := Demo.externals [] [] in
  exists st,
    @txt_loop E "doc" [] txt_init Demo.worked_example = Ok st /\
    length (lines st) =
      length (lines txt_init) + sum_list (emitted_lines <$> Demo.worked_example) /\
    sum_list (emitted_lines <$> Demo.worked_example) = 6.
Proof.
  intros E. eexists. split; [reflexivity|]. split; [|reflexivity].
  apply (@lines_added_by_pass E "doc" [] txt_init). reflexivity.
Defined.

(** Three tables, the second of which does not export. *)
Lemma export_tables_stops_at_failure_witness :
  let E := Demo.externals [] [] in
  let d := {| iterate_items := [];
              tables := Some ([Demo.T1] ++ Demo.broken :: [Demo.T2]) |} in
  let r := @export_tables E d "doc" true Demo.empty_world in
  r.2 = Raise TableExportError /\
  dir_of r.1 "doc" !! csv_name "doc" 1 = Some ("a,b" +:+ nl +:+ "1,2") /\
  dir_of r.1 "doc" !! csv_name "doc" 3 = None.
Proof.
  intros E d r.
  destruct (@export_tables_stops_at_failure E d "doc" [Demo.T1] Demo.broken
              [Demo.T2] [[["a"; "b"]; ["1"; "2"]]] Demo.empty_world
              TableExportError eq_refl)
    as (Hres & _ & Hbefore & Hafter).
  - repeat constructor.
  - reflexivity.
  - split; [exact Hres|]. split.
    + destruct (Hbefore 0) as (df & Hdf & Hcsv); [simpl; lia|].
      injection Hdf as <-. exact Hcsv.
    + assert (Hlt : length [Demo.T1] < 3) by (simpl; lia).
      exact (Hafter 3 Hlt).
Defined.

(** A document with two tables. *)
Lemma export_tables_returns_paths_witness :
  let E := Demo.externals [] [] in
  let d := {| iterate_items := []; tables := Some [Demo.T1; Demo.T2] |} in
  (@export_tables E d "doc" true Demo.empty_world).2 =
    Ok ["doc_table_1.csv"; "doc_table_2.csv"] /\
  @export_tables E d "doc" false Demo.empty_world = (Demo.empty_world, Ok []).
Proof.
  intros E d.
  destruct (@export_tables_returns_paths E d "doc" true Demo.empty_world)
    as [Hon _].
  destruct (@export_tables_returns_paths E d "doc" false Demo.empty_world)
    as [_ Hoff].
  split.
  - destruct (Hon [Demo.T1; Demo.T2]
                [[["a"; "b"]; ["1"; "2"]]; [["c"; "d"]; ["3"; "4"]]]
                eq_refl eq_refl) as [Hpaths _]; [by repeat constructor|].
    exact Hpaths.
  - apply Hoff. by left.
Defined.

(** A file left by an earlier run, and the mixed batch. *)
Lemma stale_files_witness :
  let w0 := {| fs := {["old" := {["old.md" := "stale"]}]}; ui := [] |} in
  is_Some (dir_of w0 "old" !! "old.md") /\
  is_Some (dir_of (@main Demo.returning (Demo.cfg false) Demo.mixed_batch w0).1
             "old" !! "old.md").
Proof.
  intros w0.
  assert (Hold : is_Some (dir_of w0 "old" !! "old.md")).
  { exists "stale". vm_compute. reflexivity. }
  split; [exact Hold|].
  exact (proj1 (@stale_files_stay_and_are_archived Demo.returning
                  (Demo.cfg false) Demo.mixed_batch w0 "old" "old.md" Hold)).
Defined.

(** The mixed batch with an engine that returns for every file. *)
Lemma success_shown_witness :
  exists evs zip,
    ui (@main Demo.returning (Demo.cfg false) Demo.mixed_batch
          Demo.empty_world).1 = ui Demo.empty_world ++ evs /\
    SuccessAllDone ∈ evs /\ DownloadZip zip ∈ evs /\
    ("ok1/txt/ok1.txt",
     "# Intro" +:+ nl +:+ nl +:+ "hello" +:+ nl +:+ nl +:+
     "[Table 1]" +:+ nl +:+ nl +:+ "a b" +:+ nl +:+ "1 2" +:+
     nl +:+ nl +:+ "[Image: ok1_img_1.png]" +:+ nl +:+ nl +:+ "bye") ∈ zip.
Proof.
  destruct (@success_shown_iff_main_returns Demo.returning (Demo.cfg false)
              Demo.mixed_batch Demo.empty_world)
    as (evs & Hui & Hiff & Hzip & Hbuilt).
  assert (Hret : exists zip,
            (@main Demo.returning (Demo.cfg false) Demo.mixed_batch
               Demo.empty_world).2 = Ok zip).
  { eexists. vm_compute. reflexivity. }
  destruct Hret as [zip Hmain].
  exists evs, zip. split; [exact Hui|].
  split; [apply Hiff; by exists zip|]. split; [by apply Hzip|].
  destruct (Hbuilt zip Hmain) as [-> _].
  apply (bool_decide_unpack _). vm_compute. exact I.
Defined.

(** A valid file, then one the engine raises on, then another valid one. *)
Lemma main_stops_witness :
  let files := [Demo.file "ok1.docx"] ++ Demo.file "bad.pdf" ::
               [Demo.file "ok2.docx"] in
  (@main Demo.raising (Demo.cfg false) files Demo.empty_world).2
    = Raise ConversionError /\
  dir_of (@main Demo.raising (Demo.cfg false) files Demo.empty_world).1 "ok2"
    = dir_of Demo.empty_world "ok2".
Proof.
  intros files.
  destruct (@main_stops_at_raising_call Demo.raising (Demo.cfg false)
              [Demo.file "ok1.docx"] (Demo.file "bad.pdf")
              [Demo.file "ok2.docx"] Demo.empty_world ConversionError)
    as (w1 & r1 & _ & Hmain & Hframe).
  - repeat constructor. unfold job_returns.
    rewrite decide_False by (vm_compute; discriminate).
    eexists. split; [vm_compute; reflexivity|].
    split; [repeat constructor; eexists; reflexivity|].
    intros Hon. discriminate Hon.
  - right. split; [vm_compute; discriminate|reflexivity].
  - subst files. cbv zeta in Hmain, Hframe.
    split; [by rewrite Hmain|]. apply Hframe.
    apply (bool_decide_unpack _). vm_compute. exact I.
Defined.

(** The mixed batch: three conversions, no spreadsheet. *)
Lemma results_are_the_conversions_witness :
  let r := @convert_loop Demo.returning (Demo.cfg false) 3 1 Demo.mixed_batch []
             Demo.empty_world in
  r.2 = Ok [Demo.failed; Demo.good; Demo.good] /\
  exists rs',
    [Demo.failed; Demo.good; Demo.good] = [] ++ rs' /\
    Forall2 (fun f res => @convert_all Demo.returning (Demo.cfg false) f = Ok res)
      (filter (fun f => ext_of (name f) <> "xlsx") Demo.mixed_batch) rs'.
Proof.
  intros r.
  assert (Hrun : r = (r.1, Ok [Demo.failed; Demo.good; Demo.good])).
  { vm_compute. reflexivity. }
  split; [by rewrite Hrun|].
  exact (@results_are_the_conversions Demo.returning (Demo.cfg false) 3 1
           Demo.mixed_batch [] Demo.empty_world r.1 _ Hrun).
Defined.

(** One directory with two files and a sub-directory. *)
Lemma archive_names_witness :
  let a : gmap string (gmap string string) :=
    {["doc" := {["doc.md" := "m"; "doc.txt" := "t";
                 "doc_artifacts/" := EmptyString]}]} in
  plain_area a /\
  NoDup (build_zip a).*1 /\
  length (build_zip a) = 3.
Proof.
  intros a.
  assert (Hnames : plain_area a).
  { intros b d Hb. apply lookup_singleton_Some in Hb as [<- <-].
    split; [reflexivity|]. intros key [c Hkey].
    apply lookup_insert_Some in Hkey as [[<- _]|[_ Hkey]];
      [left; by split|].
    apply lookup_insert_Some in Hkey as [[<- _]|[_ Hkey]];
      [left; by split|].
    apply lookup_singleton_Some in Hkey as [<- _].
    right. exists "doc_artifacts". by repeat split. }
  split; [exact Hnames|].
  destruct (archive_names_are_distinct a Hnames) as (Hnd & _ & _ & Hlen).
  split; [exact Hnd|]. rewrite Hlen. vm_compute. reflexivity.
Defined.

(** The directory [doc] and a sheet whose name holds a dot. *)
Lemma written_files_witness :
  "doc" <> EmptyString /\
  arcname "doc" ("doc" +:+ ".md") = "doc" +:+ "/md/" +:+ "doc" +:+ ".md" /\
  arcname "doc" (("doc" +:+ "_" +:+ "v1.2") +:+ ".csv") =
    "doc" +:+ "/assets/tables/" +:+ ("doc" +:+ "_" +:+ "v1.2") +:+ ".csv".
Proof.
  assert (Hne : "doc" <> EmptyString) by discriminate.
  split; [exact Hne|].
  destruct (written_files_reach_their_buckets "doc" 1 "v1.2" Hne)
    as (Hmd & _ & _ & _ & _ & Hcsv & _).
  split; [exact Hmd|exact Hcsv].
Defined.

(** A spreadsheet whose bytes no workbook reader accepts. *)
Lemma spreadsheet_without_tables_witness :
  let E := Demo.externals [] [] in
  @read_excel E (read (Demo.file "book.xlsx")) = Raise ExcelReadError /\
  exists w',
    @process_file E (Demo.cfg false) 1 1 (Demo.file "book.xlsx") []
      Demo.empty_world = (w', Ok []) /\
    dir_of w' "book" = ∅.
Proof.
  intros E. split; [reflexivity|].
  destruct (@spreadsheet_without_tables_is_inert E (Demo.cfg false) 1 1
              (Demo.file "book.xlsx") [] Demo.empty_world eq_refl eq_refl)
    as (w' & Hrun & _ & Hdirs & _).
  exists w'. split; [exact Hrun|]. by rewrite Hdirs.
Defined.

(** The document with a table whose export raises, with CSV export on. *)
Lemma failed_pass_witness :
  let E := Demo.externals [] [] in
  let r := @export_outputs E (Demo.cfg true) Demo.with_broken_table "doc"
             Demo.empty_world in
  (exists e, r.2 = Raise e) /\
  dir_of r.1 "doc" !! "doc.md" = Some "markdown:3" /\
  dir_of r.1 "doc" !! "doc.txt" = None.
Proof.
  intros E r.
  destruct (@failed_pass_leaves_three_renderings E (Demo.cfg true)
              Demo.with_broken_table "doc" Demo.empty_world)
    as (e & Hrun & _).
  - apply Exists_cons_tl, Exists_cons_hd. intros [df Hdf]. discriminate Hdf.
  - split; [exists e; subst r; by rewrite Hrun|].
    subst r. rewrite Hrun. split; vm_compute; reflexivity.
Defined.

(** The loop on the batch whose second file makes the engine raise. *)
Lemma progress_counts_witness :
  let files := [Demo.file "ok1.docx"; Demo.file "bad.pdf";
                Demo.file "ok2.docx"] in
  exists k,
    match (@convert_loop Demo.raising (Demo.cfg false) 3 1 files []
             Demo.empty_world).2 with
    | Ok _ => False
    | Raise _ => k = 1
    end.
Proof.
  intros files.
  destruct (@progress_counts_completed_jobs Demo.raising (Demo.cfg false) 3 1
              files [] Demo.empty_world) as (k & Hk).
  exists k. revert Hk. vm_compute.
  intros (f & Hf & Hui).
  destruct k as [|[|[|k]]]; [| reflexivity | |]; exfalso; revert Hui;
    try (injection Hf as <-); intros Hui; try discriminate Hui;
    discriminate Hf.
Defined.

(** The mixed batch with the multimodal export on. *)
Lemma main_returns_witness :
  let cfg := {| use_ocr := true; extract_tables := false;
                extract_images := false; export_mm := true;
                image_scale := 4; max_pages := 100 |} in
  (exists zip, (@main Demo.returning cfg Demo.mixed_batch Demo.empty_world).2
                 = Ok zip) /\
  DownloadParquet "parquet" ∈
    ui (@main Demo.returning cfg Demo.mixed_batch Demo.empty_world).1.
Proof.
  intros cfg.
  destruct (@main_returns_iff Demo.returning cfg Demo.mixed_batch
              Demo.empty_world) as (Hret & Hpq & _).
  assert (Hmain : exists zip,
            (@main Demo.returning cfg Demo.mixed_batch Demo.empty_world).2
              = Ok zip).
  { apply Hret. eexists. split; [vm_compute; reflexivity|].
    intros _. by exists "parquet". }
  split; [exact Hmain|].
  destruct Hmain as [zip Hzip].
  apply (Hpq zip "parquet" Hzip). right. split; [reflexivity|].
  eexists. split; [vm_compute; reflexivity|reflexivity].
Defined.

(** A multimodal export that always raises, with [export_mm] off. *)
Lemma parquet_export_witness :
  export_mm (Demo.cfg true) = false /\
  @main (with_parquet Demo.returning (fun _ => Raise MultimodalError))
    (Demo.cfg true) Demo.mixed_batch Demo.empty_world =
  @main Demo.returning (Demo.cfg true) Demo.mixed_batch Demo.empty_world.
Proof.
  split; [reflexivity|].
  exact (proj2 (parquet_export_is_not_consulted Demo.returning
                  (fun _ => Raise MultimodalError) (Demo.cfg true)
                  Demo.mixed_batch Demo.empty_world) eq_refl).
Defined.
